(** * The wr job queue server: request dispatcher, job lifecycle and
    scheduler-group coordinator

    A shallow embedding of [jobqueue/server.go].  The source tree holds two
    revisions of that file: the 2016 one (multi-queue server, inline
    [jrelease], [decrementGroupCount], the ready-added callback) and the 2019
    one (token check, up/drain gate, limit groups).  They are embedded in
    [Module V2016] and [Module V2019]; what both share (integers, jobs, the
    queue primitive, the database facade, the limiter) comes first.

    Handlers are state transformers: a handler takes the server state and the
    decoded request and returns the new state with the reply.  A handler runs
    atomically here; goroutines a handler starts are returned as tasks. *)

From stdpp Require Import base option list strings gmap.
From Stdlib Require Import ZArith Lia.
From Stdlib.Strings Require Import Byte.

Local Open Scope string_scope.
Local Open Scope list_scope.
Local Open Scope Z_scope.

(** ** Go integers, times and client identifiers *)

(** Go's [int] is a 64-bit two's complement integer: arithmetic wraps. *)
Definition int_min : Z := - 2 ^ 63.
Definition int_max : Z := 2 ^ 63 - 1.

Definition wrap_int (z : Z) : Z := (z + 2 ^ 63) mod 2 ^ 64 - 2 ^ 63.

Definition int_add (a b : Z) : Z := wrap_int (a + b).
Definition int_sub (a b : Z) : Z := wrap_int (a - b).

(** [time.Time]: [None] is the zero value, for which [IsZero] answers true. *)
Definition Time : Type := option Z.

Definition IsZero (t : Time) : bool :=
  match t with None => true | Some _ => false end.

#[global] Instance byte_eq_dec : EqDecision Byte.byte := Byte.byte_eq_dec.

(** A client UUID, as the 128-bit number its sixteen bytes spell. The string
    "00000000-0000-0000-0000-000000000000" is the one of the number 0. *)
Definition UUID : Type := N.

Definition uuid_is_nil (u : UUID) : bool := N.eqb u 0%N.

(** ** Error strings (the [Err*] variables) *)

Definition ErrInternalError : string := "internal error".
Definition ErrUnknownCommand : string := "unknown command".
Definition ErrBadRequest : string := "bad request (missing arguments?)".
Definition ErrBadJob : string := "bad job (not in queue or correct sub-queue)".
Definition ErrMissingJob : string := "corresponding job not found".
Definition ErrClosedStop : string := "queues closed due to manual Stop()".
Definition ErrQueueClosed : string := "queue closed".
Definition ErrMustReserve : string :=
  "you must Reserve() a Job before passing it to other methods".
Definition ErrDBError : string := "failed to use database".

(** Modelled from the spec: [ErrPermissionDenied] is declared outside this
    file; section 6 lists it among the error string constants. *)
Definition ErrPermissionDenied : string := "permission denied".

(** ** The scheduler adapter's requirements *)

Module scheduler.

Record Requirements := {
  RAM : Z;
  Time : Z;
  Cores : Z;
  Disk : Z;
  Other : string
}.

(** One call [Schedule(cmd, req, count)]; [req] is the pointer read from
    [sgtr], nil when the group has no entry. *)
Record Call := {
  cmd : string;
  req : option Requirements;
  count : Z
}.

(** The adapter as the server drives it: the calls it received, oldest
    first. *)
Definition Scheduler : Type := list Call.

Definition Schedule (sch : Scheduler) (c : string)
    (r : option Requirements) (n : Z) : Scheduler :=
  sch ++ [{| cmd := c; req := r; count := n |}].

End scheduler.

(** ** Jobs *)

Inductive JobState :=
  | JobStateDelayed
  | JobStateReady
  | JobStateReserved
  | JobStateRunning
  | JobStateLost
  | JobStateBuried
  | JobStateComplete
  | JobStateDependent
  | JobStateUnknown.

(** The fields of [Job] that the handlers below read or write. *)
Record Job := {
  RepGroup : string;
  Cmd : string;
  Cwd : string;
  CwdMatters : bool;
  Requirements : scheduler.Requirements;
  Priority : Z;
  Retries : Z;
  UntilBuried : Z;
  State : JobState;
  ReservedBy : UUID;
  Pid : Z;
  Host : string;
  HostID : string;
  HostIP : string;
  StartTime : Time;
  EndTime : Time;
  Exited : bool;
  Exitcode : Z;
  PeakRAM : Z;
  PeakDisk : Z;
  CPUtime : Z;
  Walltime : Z;
  FailReason : string;
  Attempts : Z;
  EnvKey : string;
  schedulerGroup : string;
  killCalled : bool;
  Lost : bool;
  incrementedLimitGroups : list string;
  StdOutC : list Byte.byte;
  StdErrC : list Byte.byte;
  EnvC : list Byte.byte;
  EnvCRetrieved : bool
}.

(** Field assignments [job.F = v]. *)

Definition set_UntilBuried (v : Z) (j : Job) : Job :=
  {| RepGroup := RepGroup j; Cmd := Cmd j; Cwd := Cwd j; CwdMatters :=
  CwdMatters j; Requirements := Requirements j; Priority := Priority j;
  Retries := Retries j; UntilBuried := v; State := State j; ReservedBy :=
  ReservedBy j; Pid := Pid j; Host := Host j; HostID := HostID j; HostIP :=
  HostIP j; StartTime := StartTime j; EndTime := EndTime j; Exited := Exited
  j; Exitcode := Exitcode j; PeakRAM := PeakRAM j; PeakDisk := PeakDisk j;
  CPUtime := CPUtime j; Walltime := Walltime j; FailReason := FailReason j;
  Attempts := Attempts j; EnvKey := EnvKey j; schedulerGroup := schedulerGroup
  j; killCalled := killCalled j; Lost := Lost j; incrementedLimitGroups :=
  incrementedLimitGroups j; StdOutC := StdOutC j; StdErrC := StdErrC j; EnvC
  := EnvC j; EnvCRetrieved := EnvCRetrieved j |}.

Definition set_State (v : JobState) (j : Job) : Job :=
  {| RepGroup := RepGroup j; Cmd := Cmd j; Cwd := Cwd j; CwdMatters :=
  CwdMatters j; Requirements := Requirements j; Priority := Priority j;
  Retries := Retries j; UntilBuried := UntilBuried j; State := v; ReservedBy
  := ReservedBy j; Pid := Pid j; Host := Host j; HostID := HostID j; HostIP :=
  HostIP j; StartTime := StartTime j; EndTime := EndTime j; Exited := Exited
  j; Exitcode := Exitcode j; PeakRAM := PeakRAM j; PeakDisk := PeakDisk j;
  CPUtime := CPUtime j; Walltime := Walltime j; FailReason := FailReason j;
  Attempts := Attempts j; EnvKey := EnvKey j; schedulerGroup := schedulerGroup
  j; killCalled := killCalled j; Lost := Lost j; incrementedLimitGroups :=
  incrementedLimitGroups j; StdOutC := StdOutC j; StdErrC := StdErrC j; EnvC
  := EnvC j; EnvCRetrieved := EnvCRetrieved j |}.

Definition set_ReservedBy (v : UUID) (j : Job) : Job :=
  {| RepGroup := RepGroup j; Cmd := Cmd j; Cwd := Cwd j; CwdMatters :=
  CwdMatters j; Requirements := Requirements j; Priority := Priority j;
  Retries := Retries j; UntilBuried := UntilBuried j; State := State j;
  ReservedBy := v; Pid := Pid j; Host := Host j; HostID := HostID j; HostIP :=
  HostIP j; StartTime := StartTime j; EndTime := EndTime j; Exited := Exited
  j; Exitcode := Exitcode j; PeakRAM := PeakRAM j; PeakDisk := PeakDisk j;
  CPUtime := CPUtime j; Walltime := Walltime j; FailReason := FailReason j;
  Attempts := Attempts j; EnvKey := EnvKey j; schedulerGroup := schedulerGroup
  j; killCalled := killCalled j; Lost := Lost j; incrementedLimitGroups :=
  incrementedLimitGroups j; StdOutC := StdOutC j; StdErrC := StdErrC j; EnvC
  := EnvC j; EnvCRetrieved := EnvCRetrieved j |}.

Definition set_Pid (v : Z) (j : Job) : Job :=
  {| RepGroup := RepGroup j; Cmd := Cmd j; Cwd := Cwd j; CwdMatters :=
  CwdMatters j; Requirements := Requirements j; Priority := Priority j;
  Retries := Retries j; UntilBuried := UntilBuried j; State := State j;
  ReservedBy := ReservedBy j; Pid := v; Host := Host j; HostID := HostID j;
  HostIP := HostIP j; StartTime := StartTime j; EndTime := EndTime j; Exited
  := Exited j; Exitcode := Exitcode j; PeakRAM := PeakRAM j; PeakDisk :=
  PeakDisk j; CPUtime := CPUtime j; Walltime := Walltime j; FailReason :=
  FailReason j; Attempts := Attempts j; EnvKey := EnvKey j; schedulerGroup :=
  schedulerGroup j; killCalled := killCalled j; Lost := Lost j;
  incrementedLimitGroups := incrementedLimitGroups j; StdOutC := StdOutC j;
  StdErrC := StdErrC j; EnvC := EnvC j; EnvCRetrieved := EnvCRetrieved j |}.

Definition set_Host (v : string) (j : Job) : Job :=
  {| RepGroup := RepGroup j; Cmd := Cmd j; Cwd := Cwd j; CwdMatters :=
  CwdMatters j; Requirements := Requirements j; Priority := Priority j;
  Retries := Retries j; UntilBuried := UntilBuried j; State := State j;
  ReservedBy := ReservedBy j; Pid := Pid j; Host := v; HostID := HostID j;
  HostIP := HostIP j; StartTime := StartTime j; EndTime := EndTime j; Exited
  := Exited j; Exitcode := Exitcode j; PeakRAM := PeakRAM j; PeakDisk :=
  PeakDisk j; CPUtime := CPUtime j; Walltime := Walltime j; FailReason :=
  FailReason j; Attempts := Attempts j; EnvKey := EnvKey j; schedulerGroup :=
  schedulerGroup j; killCalled := killCalled j; Lost := Lost j;
  incrementedLimitGroups := incrementedLimitGroups j; StdOutC := StdOutC j;
  StdErrC := StdErrC j; EnvC := EnvC j; EnvCRetrieved := EnvCRetrieved j |}.

Definition set_HostID (v : string) (j : Job) : Job :=
  {| RepGroup := RepGroup j; Cmd := Cmd j; Cwd := Cwd j; CwdMatters :=
  CwdMatters j; Requirements := Requirements j; Priority := Priority j;
  Retries := Retries j; UntilBuried := UntilBuried j; State := State j;
  ReservedBy := ReservedBy j; Pid := Pid j; Host := Host j; HostID := v;
  HostIP := HostIP j; StartTime := StartTime j; EndTime := EndTime j; Exited
  := Exited j; Exitcode := Exitcode j; PeakRAM := PeakRAM j; PeakDisk :=
  PeakDisk j; CPUtime := CPUtime j; Walltime := Walltime j; FailReason :=
  FailReason j; Attempts := Attempts j; EnvKey := EnvKey j; schedulerGroup :=
  schedulerGroup j; killCalled := killCalled j; Lost := Lost j;
  incrementedLimitGroups := incrementedLimitGroups j; StdOutC := StdOutC j;
  StdErrC := StdErrC j; EnvC := EnvC j; EnvCRetrieved := EnvCRetrieved j |}.

Definition set_HostIP (v : string) (j : Job) : Job :=
  {| RepGroup := RepGroup j; Cmd := Cmd j; Cwd := Cwd j; CwdMatters :=
  CwdMatters j; Requirements := Requirements j; Priority := Priority j;
  Retries := Retries j; UntilBuried := UntilBuried j; State := State j;
  ReservedBy := ReservedBy j; Pid := Pid j; Host := Host j; HostID := HostID
  j; HostIP := v; StartTime := StartTime j; EndTime := EndTime j; Exited :=
  Exited j; Exitcode := Exitcode j; PeakRAM := PeakRAM j; PeakDisk := PeakDisk
  j; CPUtime := CPUtime j; Walltime := Walltime j; FailReason := FailReason j;
  Attempts := Attempts j; EnvKey := EnvKey j; schedulerGroup := schedulerGroup
  j; killCalled := killCalled j; Lost := Lost j; incrementedLimitGroups :=
  incrementedLimitGroups j; StdOutC := StdOutC j; StdErrC := StdErrC j; EnvC
  := EnvC j; EnvCRetrieved := EnvCRetrieved j |}.

Definition set_StartTime (v : Time) (j : Job) : Job :=
  {| RepGroup := RepGroup j; Cmd := Cmd j; Cwd := Cwd j; CwdMatters :=
  CwdMatters j; Requirements := Requirements j; Priority := Priority j;
  Retries := Retries j; UntilBuried := UntilBuried j; State := State j;
  ReservedBy := ReservedBy j; Pid := Pid j; Host := Host j; HostID := HostID
  j; HostIP := HostIP j; StartTime := v; EndTime := EndTime j; Exited :=
  Exited j; Exitcode := Exitcode j; PeakRAM := PeakRAM j; PeakDisk := PeakDisk
  j; CPUtime := CPUtime j; Walltime := Walltime j; FailReason := FailReason j;
  Attempts := Attempts j; EnvKey := EnvKey j; schedulerGroup := schedulerGroup
  j; killCalled := killCalled j; Lost := Lost j; incrementedLimitGroups :=
  incrementedLimitGroups j; StdOutC := StdOutC j; StdErrC := StdErrC j; EnvC
  := EnvC j; EnvCRetrieved := EnvCRetrieved j |}.

Definition set_EndTime (v : Time) (j : Job) : Job :=
  {| RepGroup := RepGroup j; Cmd := Cmd j; Cwd := Cwd j; CwdMatters :=
  CwdMatters j; Requirements := Requirements j; Priority := Priority j;
  Retries := Retries j; UntilBuried := UntilBuried j; State := State j;
  ReservedBy := ReservedBy j; Pid := Pid j; Host := Host j; HostID := HostID
  j; HostIP := HostIP j; StartTime := StartTime j; EndTime := v; Exited :=
  Exited j; Exitcode := Exitcode j; PeakRAM := PeakRAM j; PeakDisk := PeakDisk
  j; CPUtime := CPUtime j; Walltime := Walltime j; FailReason := FailReason j;
  Attempts := Attempts j; EnvKey := EnvKey j; schedulerGroup := schedulerGroup
  j; killCalled := killCalled j; Lost := Lost j; incrementedLimitGroups :=
  incrementedLimitGroups j; StdOutC := StdOutC j; StdErrC := StdErrC j; EnvC
  := EnvC j; EnvCRetrieved := EnvCRetrieved j |}.

Definition set_Exited (v : bool) (j : Job) : Job :=
  {| RepGroup := RepGroup j; Cmd := Cmd j; Cwd := Cwd j; CwdMatters :=
  CwdMatters j; Requirements := Requirements j; Priority := Priority j;
  Retries := Retries j; UntilBuried := UntilBuried j; State := State j;
  ReservedBy := ReservedBy j; Pid := Pid j; Host := Host j; HostID := HostID
  j; HostIP := HostIP j; StartTime := StartTime j; EndTime := EndTime j;
  Exited := v; Exitcode := Exitcode j; PeakRAM := PeakRAM j; PeakDisk :=
  PeakDisk j; CPUtime := CPUtime j; Walltime := Walltime j; FailReason :=
  FailReason j; Attempts := Attempts j; EnvKey := EnvKey j; schedulerGroup :=
  schedulerGroup j; killCalled := killCalled j; Lost := Lost j;
  incrementedLimitGroups := incrementedLimitGroups j; StdOutC := StdOutC j;
  StdErrC := StdErrC j; EnvC := EnvC j; EnvCRetrieved := EnvCRetrieved j |}.

Definition set_Exitcode (v : Z) (j : Job) : Job :=
  {| RepGroup := RepGroup j; Cmd := Cmd j; Cwd := Cwd j; CwdMatters :=
  CwdMatters j; Requirements := Requirements j; Priority := Priority j;
  Retries := Retries j; UntilBuried := UntilBuried j; State := State j;
  ReservedBy := ReservedBy j; Pid := Pid j; Host := Host j; HostID := HostID
  j; HostIP := HostIP j; StartTime := StartTime j; EndTime := EndTime j;
  Exited := Exited j; Exitcode := v; PeakRAM := PeakRAM j; PeakDisk :=
  PeakDisk j; CPUtime := CPUtime j; Walltime := Walltime j; FailReason :=
  FailReason j; Attempts := Attempts j; EnvKey := EnvKey j; schedulerGroup :=
  schedulerGroup j; killCalled := killCalled j; Lost := Lost j;
  incrementedLimitGroups := incrementedLimitGroups j; StdOutC := StdOutC j;
  StdErrC := StdErrC j; EnvC := EnvC j; EnvCRetrieved := EnvCRetrieved j |}.

Definition set_PeakRAM (v : Z) (j : Job) : Job :=
  {| RepGroup := RepGroup j; Cmd := Cmd j; Cwd := Cwd j; CwdMatters :=
  CwdMatters j; Requirements := Requirements j; Priority := Priority j;
  Retries := Retries j; UntilBuried := UntilBuried j; State := State j;
  ReservedBy := ReservedBy j; Pid := Pid j; Host := Host j; HostID := HostID
  j; HostIP := HostIP j; StartTime := StartTime j; EndTime := EndTime j;
  Exited := Exited j; Exitcode := Exitcode j; PeakRAM := v; PeakDisk :=
  PeakDisk j; CPUtime := CPUtime j; Walltime := Walltime j; FailReason :=
  FailReason j; Attempts := Attempts j; EnvKey := EnvKey j; schedulerGroup :=
  schedulerGroup j; killCalled := killCalled j; Lost := Lost j;
  incrementedLimitGroups := incrementedLimitGroups j; StdOutC := StdOutC j;
  StdErrC := StdErrC j; EnvC := EnvC j; EnvCRetrieved := EnvCRetrieved j |}.

Definition set_PeakDisk (v : Z) (j : Job) : Job :=
  {| RepGroup := RepGroup j; Cmd := Cmd j; Cwd := Cwd j; CwdMatters :=
  CwdMatters j; Requirements := Requirements j; Priority := Priority j;
  Retries := Retries j; UntilBuried := UntilBuried j; State := State j;
  ReservedBy := ReservedBy j; Pid := Pid j; Host := Host j; HostID := HostID
  j; HostIP := HostIP j; StartTime := StartTime j; EndTime := EndTime j;
  Exited := Exited j; Exitcode := Exitcode j; PeakRAM := PeakRAM j; PeakDisk
  := v; CPUtime := CPUtime j; Walltime := Walltime j; FailReason := FailReason
  j; Attempts := Attempts j; EnvKey := EnvKey j; schedulerGroup :=
  schedulerGroup j; killCalled := killCalled j; Lost := Lost j;
  incrementedLimitGroups := incrementedLimitGroups j; StdOutC := StdOutC j;
  StdErrC := StdErrC j; EnvC := EnvC j; EnvCRetrieved := EnvCRetrieved j |}.

Definition set_CPUtime (v : Z) (j : Job) : Job :=
  {| RepGroup := RepGroup j; Cmd := Cmd j; Cwd := Cwd j; CwdMatters :=
  CwdMatters j; Requirements := Requirements j; Priority := Priority j;
  Retries := Retries j; UntilBuried := UntilBuried j; State := State j;
  ReservedBy := ReservedBy j; Pid := Pid j; Host := Host j; HostID := HostID
  j; HostIP := HostIP j; StartTime := StartTime j; EndTime := EndTime j;
  Exited := Exited j; Exitcode := Exitcode j; PeakRAM := PeakRAM j; PeakDisk
  := PeakDisk j; CPUtime := v; Walltime := Walltime j; FailReason :=
  FailReason j; Attempts := Attempts j; EnvKey := EnvKey j; schedulerGroup :=
  schedulerGroup j; killCalled := killCalled j; Lost := Lost j;
  incrementedLimitGroups := incrementedLimitGroups j; StdOutC := StdOutC j;
  StdErrC := StdErrC j; EnvC := EnvC j; EnvCRetrieved := EnvCRetrieved j |}.

Definition set_Walltime (v : Z) (j : Job) : Job :=
  {| RepGroup := RepGroup j; Cmd := Cmd j; Cwd := Cwd j; CwdMatters :=
  CwdMatters j; Requirements := Requirements j; Priority := Priority j;
  Retries := Retries j; UntilBuried := UntilBuried j; State := State j;
  ReservedBy := ReservedBy j; Pid := Pid j; Host := Host j; HostID := HostID
  j; HostIP := HostIP j; StartTime := StartTime j; EndTime := EndTime j;
  Exited := Exited j; Exitcode := Exitcode j; PeakRAM := PeakRAM j; PeakDisk
  := PeakDisk j; CPUtime := CPUtime j; Walltime := v; FailReason := FailReason
  j; Attempts := Attempts j; EnvKey := EnvKey j; schedulerGroup :=
  schedulerGroup j; killCalled := killCalled j; Lost := Lost j;
  incrementedLimitGroups := incrementedLimitGroups j; StdOutC := StdOutC j;
  StdErrC := StdErrC j; EnvC := EnvC j; EnvCRetrieved := EnvCRetrieved j |}.

Definition set_FailReason (v : string) (j : Job) : Job :=
  {| RepGroup := RepGroup j; Cmd := Cmd j; Cwd := Cwd j; CwdMatters :=
  CwdMatters j; Requirements := Requirements j; Priority := Priority j;
  Retries := Retries j; UntilBuried := UntilBuried j; State := State j;
  ReservedBy := ReservedBy j; Pid := Pid j; Host := Host j; HostID := HostID
  j; HostIP := HostIP j; StartTime := StartTime j; EndTime := EndTime j;
  Exited := Exited j; Exitcode := Exitcode j; PeakRAM := PeakRAM j; PeakDisk
  := PeakDisk j; CPUtime := CPUtime j; Walltime := Walltime j; FailReason :=
  v; Attempts := Attempts j; EnvKey := EnvKey j; schedulerGroup :=
  schedulerGroup j; killCalled := killCalled j; Lost := Lost j;
  incrementedLimitGroups := incrementedLimitGroups j; StdOutC := StdOutC j;
  StdErrC := StdErrC j; EnvC := EnvC j; EnvCRetrieved := EnvCRetrieved j |}.

Definition set_Attempts (v : Z) (j : Job) : Job :=
  {| RepGroup := RepGroup j; Cmd := Cmd j; Cwd := Cwd j; CwdMatters :=
  CwdMatters j; Requirements := Requirements j; Priority := Priority j;
  Retries := Retries j; UntilBuried := UntilBuried j; State := State j;
  ReservedBy := ReservedBy j; Pid := Pid j; Host := Host j; HostID := HostID
  j; HostIP := HostIP j; StartTime := StartTime j; EndTime := EndTime j;
  Exited := Exited j; Exitcode := Exitcode j; PeakRAM := PeakRAM j; PeakDisk
  := PeakDisk j; CPUtime := CPUtime j; Walltime := Walltime j; FailReason :=
  FailReason j; Attempts := v; EnvKey := EnvKey j; schedulerGroup :=
  schedulerGroup j; killCalled := killCalled j; Lost := Lost j;
  incrementedLimitGroups := incrementedLimitGroups j; StdOutC := StdOutC j;
  StdErrC := StdErrC j; EnvC := EnvC j; EnvCRetrieved := EnvCRetrieved j |}.

Definition set_EnvKey (v : string) (j : Job) : Job :=
  {| RepGroup := RepGroup j; Cmd := Cmd j; Cwd := Cwd j; CwdMatters :=
  CwdMatters j; Requirements := Requirements j; Priority := Priority j;
  Retries := Retries j; UntilBuried := UntilBuried j; State := State j;
  ReservedBy := ReservedBy j; Pid := Pid j; Host := Host j; HostID := HostID
  j; HostIP := HostIP j; StartTime := StartTime j; EndTime := EndTime j;
  Exited := Exited j; Exitcode := Exitcode j; PeakRAM := PeakRAM j; PeakDisk
  := PeakDisk j; CPUtime := CPUtime j; Walltime := Walltime j; FailReason :=
  FailReason j; Attempts := Attempts j; EnvKey := v; schedulerGroup :=
  schedulerGroup j; killCalled := killCalled j; Lost := Lost j;
  incrementedLimitGroups := incrementedLimitGroups j; StdOutC := StdOutC j;
  StdErrC := StdErrC j; EnvC := EnvC j; EnvCRetrieved := EnvCRetrieved j |}.

Definition set_schedulerGroup (v : string) (j : Job) : Job :=
  {| RepGroup := RepGroup j; Cmd := Cmd j; Cwd := Cwd j; CwdMatters :=
  CwdMatters j; Requirements := Requirements j; Priority := Priority j;
  Retries := Retries j; UntilBuried := UntilBuried j; State := State j;
  ReservedBy := ReservedBy j; Pid := Pid j; Host := Host j; HostID := HostID
  j; HostIP := HostIP j; StartTime := StartTime j; EndTime := EndTime j;
  Exited := Exited j; Exitcode := Exitcode j; PeakRAM := PeakRAM j; PeakDisk
  := PeakDisk j; CPUtime := CPUtime j; Walltime := Walltime j; FailReason :=
  FailReason j; Attempts := Attempts j; EnvKey := EnvKey j; schedulerGroup :=
  v; killCalled := killCalled j; Lost := Lost j; incrementedLimitGroups :=
  incrementedLimitGroups j; StdOutC := StdOutC j; StdErrC := StdErrC j; EnvC
  := EnvC j; EnvCRetrieved := EnvCRetrieved j |}.

Definition set_killCalled (v : bool) (j : Job) : Job :=
  {| RepGroup := RepGroup j; Cmd := Cmd j; Cwd := Cwd j; CwdMatters :=
  CwdMatters j; Requirements := Requirements j; Priority := Priority j;
  Retries := Retries j; UntilBuried := UntilBuried j; State := State j;
  ReservedBy := ReservedBy j; Pid := Pid j; Host := Host j; HostID := HostID
  j; HostIP := HostIP j; StartTime := StartTime j; EndTime := EndTime j;
  Exited := Exited j; Exitcode := Exitcode j; PeakRAM := PeakRAM j; PeakDisk
  := PeakDisk j; CPUtime := CPUtime j; Walltime := Walltime j; FailReason :=
  FailReason j; Attempts := Attempts j; EnvKey := EnvKey j; schedulerGroup :=
  schedulerGroup j; killCalled := v; Lost := Lost j; incrementedLimitGroups :=
  incrementedLimitGroups j; StdOutC := StdOutC j; StdErrC := StdErrC j; EnvC
  := EnvC j; EnvCRetrieved := EnvCRetrieved j |}.

Definition set_Lost (v : bool) (j : Job) : Job :=
  {| RepGroup := RepGroup j; Cmd := Cmd j; Cwd := Cwd j; CwdMatters :=
  CwdMatters j; Requirements := Requirements j; Priority := Priority j;
  Retries := Retries j; UntilBuried := UntilBuried j; State := State j;
  ReservedBy := ReservedBy j; Pid := Pid j; Host := Host j; HostID := HostID
  j; HostIP := HostIP j; StartTime := StartTime j; EndTime := EndTime j;
  Exited := Exited j; Exitcode := Exitcode j; PeakRAM := PeakRAM j; PeakDisk
  := PeakDisk j; CPUtime := CPUtime j; Walltime := Walltime j; FailReason :=
  FailReason j; Attempts := Attempts j; EnvKey := EnvKey j; schedulerGroup :=
  schedulerGroup j; killCalled := killCalled j; Lost := v;
  incrementedLimitGroups := incrementedLimitGroups j; StdOutC := StdOutC j;
  StdErrC := StdErrC j; EnvC := EnvC j; EnvCRetrieved := EnvCRetrieved j |}.

Definition set_incrementedLimitGroups (v : list string) (j : Job) : Job :=
  {| RepGroup := RepGroup j; Cmd := Cmd j; Cwd := Cwd j; CwdMatters :=
  CwdMatters j; Requirements := Requirements j; Priority := Priority j;
  Retries := Retries j; UntilBuried := UntilBuried j; State := State j;
  ReservedBy := ReservedBy j; Pid := Pid j; Host := Host j; HostID := HostID
  j; HostIP := HostIP j; StartTime := StartTime j; EndTime := EndTime j;
  Exited := Exited j; Exitcode := Exitcode j; PeakRAM := PeakRAM j; PeakDisk
  := PeakDisk j; CPUtime := CPUtime j; Walltime := Walltime j; FailReason :=
  FailReason j; Attempts := Attempts j; EnvKey := EnvKey j; schedulerGroup :=
  schedulerGroup j; killCalled := killCalled j; Lost := Lost j;
  incrementedLimitGroups := v; StdOutC := StdOutC j; StdErrC := StdErrC j;
  EnvC := EnvC j; EnvCRetrieved := EnvCRetrieved j |}.

Definition set_StdOutC (v : list Byte.byte) (j : Job) : Job :=
  {| RepGroup := RepGroup j; Cmd := Cmd j; Cwd := Cwd j; CwdMatters :=
  CwdMatters j; Requirements := Requirements j; Priority := Priority j;
  Retries := Retries j; UntilBuried := UntilBuried j; State := State j;
  ReservedBy := ReservedBy j; Pid := Pid j; Host := Host j; HostID := HostID
  j; HostIP := HostIP j; StartTime := StartTime j; EndTime := EndTime j;
  Exited := Exited j; Exitcode := Exitcode j; PeakRAM := PeakRAM j; PeakDisk
  := PeakDisk j; CPUtime := CPUtime j; Walltime := Walltime j; FailReason :=
  FailReason j; Attempts := Attempts j; EnvKey := EnvKey j; schedulerGroup :=
  schedulerGroup j; killCalled := killCalled j; Lost := Lost j;
  incrementedLimitGroups := incrementedLimitGroups j; StdOutC := v; StdErrC :=
  StdErrC j; EnvC := EnvC j; EnvCRetrieved := EnvCRetrieved j |}.

Definition set_StdErrC (v : list Byte.byte) (j : Job) : Job :=
  {| RepGroup := RepGroup j; Cmd := Cmd j; Cwd := Cwd j; CwdMatters :=
  CwdMatters j; Requirements := Requirements j; Priority := Priority j;
  Retries := Retries j; UntilBuried := UntilBuried j; State := State j;
  ReservedBy := ReservedBy j; Pid := Pid j; Host := Host j; HostID := HostID
  j; HostIP := HostIP j; StartTime := StartTime j; EndTime := EndTime j;
  Exited := Exited j; Exitcode := Exitcode j; PeakRAM := PeakRAM j; PeakDisk
  := PeakDisk j; CPUtime := CPUtime j; Walltime := Walltime j; FailReason :=
  FailReason j; Attempts := Attempts j; EnvKey := EnvKey j; schedulerGroup :=
  schedulerGroup j; killCalled := killCalled j; Lost := Lost j;
  incrementedLimitGroups := incrementedLimitGroups j; StdOutC := StdOutC j;
  StdErrC := v; EnvC := EnvC j; EnvCRetrieved := EnvCRetrieved j |}.

Definition set_EnvC (v : list Byte.byte) (j : Job) : Job :=
  {| RepGroup := RepGroup j; Cmd := Cmd j; Cwd := Cwd j; CwdMatters :=
  CwdMatters j; Requirements := Requirements j; Priority := Priority j;
  Retries := Retries j; UntilBuried := UntilBuried j; State := State j;
  ReservedBy := ReservedBy j; Pid := Pid j; Host := Host j; HostID := HostID
  j; HostIP := HostIP j; StartTime := StartTime j; EndTime := EndTime j;
  Exited := Exited j; Exitcode := Exitcode j; PeakRAM := PeakRAM j; PeakDisk
  := PeakDisk j; CPUtime := CPUtime j; Walltime := Walltime j; FailReason :=
  FailReason j; Attempts := Attempts j; EnvKey := EnvKey j; schedulerGroup :=
  schedulerGroup j; killCalled := killCalled j; Lost := Lost j;
  incrementedLimitGroups := incrementedLimitGroups j; StdOutC := StdOutC j;
  StdErrC := StdErrC j; EnvC := v; EnvCRetrieved := EnvCRetrieved j |}.

Definition set_EnvCRetrieved (v : bool) (j : Job) : Job :=
  {| RepGroup := RepGroup j; Cmd := Cmd j; Cwd := Cwd j; CwdMatters :=
  CwdMatters j; Requirements := Requirements j; Priority := Priority j;
  Retries := Retries j; UntilBuried := UntilBuried j; State := State j;
  ReservedBy := ReservedBy j; Pid := Pid j; Host := Host j; HostID := HostID
  j; HostIP := HostIP j; StartTime := StartTime j; EndTime := EndTime j;
  Exited := Exited j; Exitcode := Exitcode j; PeakRAM := PeakRAM j; PeakDisk
  := PeakDisk j; CPUtime := CPUtime j; Walltime := Walltime j; FailReason :=
  FailReason j; Attempts := Attempts j; EnvKey := EnvKey j; schedulerGroup :=
  schedulerGroup j; killCalled := killCalled j; Lost := Lost j;
  incrementedLimitGroups := incrementedLimitGroups j; StdOutC := StdOutC j;
  StdErrC := StdErrC j; EnvC := EnvC j; EnvCRetrieved := v |}.


(** ** The queue primitive *)

(** Modelled from the spec: package [queue] is not part of the source tree.
    Section 4.1 gives its contract: a named multi-sub-queue of items keyed by
    string; [Reserve] takes the highest-priority ready item, first in first
    out among equals; [Release] moves from run to delay, [Bury] from run or
    ready to bury, [Kick] from bury to ready, [Remove] from anywhere to
    removed; [AddMany] leaves the keys it already holds untouched and counts
    them as duplicates.  Items are kept in insertion order.  Timers (delay and
    time-to-run expiry) are not part of a handler's step; a destroyed queue
    is the server's nil queue. *)
Module queue.

Inductive ItemState :=
  | ItemStateDelay
  | ItemStateReady
  | ItemStateRun
  | ItemStateBury
  | ItemStateDependent
  | ItemStateRemoved.

#[global] Instance ItemState_eq_dec : EqDecision ItemState.
Proof. solve_decision. Defined.

Inductive Err :=
  | ErrQueueClosed
  | ErrNothingReady
  | ErrNotFound
  | ErrNotRunning
  | ErrNotBuried.

#[global] Instance Err_eq_dec : EqDecision Err.
Proof. solve_decision. Defined.

Record Item (D : Type) := {
  Key : string;
  ReserveGroup : string;
  Data : D;
  Priority : Z;
  Delay : Z;
  TTR : Z;
  State : ItemState
}.
Arguments Build_Item {D}.
Arguments Key {D}.
Arguments ReserveGroup {D}.
Arguments Data {D}.
Arguments Priority {D}.
Arguments Delay {D}.
Arguments TTR {D}.
Arguments State {D}.

Record ItemDef (D : Type) := {
  DefKey : string;
  DefReserveGroup : string;
  DefData : D;
  DefPriority : Z;
  DefDelay : Z;
  DefTTR : Z
}.
Arguments Build_ItemDef {D}.
Arguments DefKey {D}.
Arguments DefReserveGroup {D}.
Arguments DefData {D}.
Arguments DefPriority {D}.
Arguments DefDelay {D}.
Arguments DefTTR {D}.

Record Queue (D : Type) := {
  Name : string;
  items : list (Item D)
}.
Arguments Build_Queue {D}.
Arguments Name {D}.
Arguments items {D}.

Section operations.
Context {D : Type}.

Definition New (name : string) : Queue D :=
  {| Name := name; items := [] |}.

Definition set_items (l : list (Item D)) (q : Queue D) : Queue D :=
  {| Name := Name q; items := l |}.

Definition set_State (st : ItemState) (i : Item D) : Item D :=
  {| Key := Key i; ReserveGroup := ReserveGroup i; Data := Data i;
     Priority := Priority i; Delay := Delay i; TTR := TTR i; State := st |}.

Definition set_Delay (d : Z) (i : Item D) : Item D :=
  {| Key := Key i; ReserveGroup := ReserveGroup i; Data := Data i;
     Priority := Priority i; Delay := d; TTR := TTR i; State := State i |}.

Definition set_Data (d : D) (i : Item D) : Item D :=
  {| Key := Key i; ReserveGroup := ReserveGroup i; Data := d;
     Priority := Priority i; Delay := Delay i; TTR := TTR i;
     State := State i |}.

Fixpoint lookup_item (key : string) (l : list (Item D)) : option (Item D) :=
  match l with
  | [] => None
  | i :: l' =>
      if bool_decide (Key i = key) then Some i else lookup_item key l'
  end.

Fixpoint alter_item (f : Item D → Item D) (key : string)
    (l : list (Item D)) : list (Item D) :=
  match l with
  | [] => []
  | i :: l' =>
      if bool_decide (Key i = key) then f i :: l'
      else i :: alter_item f key l'
  end.

Fixpoint remove_item (key : string) (l : list (Item D)) : list (Item D) :=
  match l with
  | [] => []
  | i :: l' =>
      if bool_decide (Key i = key) then l' else i :: remove_item key l'
  end.

(** [Get(key)]: the item of that key, in whichever sub-queue. *)
Definition Get (q : Queue D) (key : string) : Err + Item D :=
  match lookup_item key (items q) with
  | Some i => inr i
  | None => inl ErrNotFound
  end.

(** What [item.Stats().State] answers for the item of [key] now: an item
    that left the queue reports the removed state. *)
Definition StateOf (q : Queue D) (key : string) : ItemState :=
  match lookup_item key (items q) with
  | Some i => State i
  | None => ItemStateRemoved
  end.

(** The item's payload seen through its pointer: handlers mutate the
    job an item holds in place. *)
Definition update_data (f : D → D) (key : string) (q : Queue D) : Queue D :=
  set_items (alter_item (λ i, set_Data (f (Data i)) i) key (items q)) q.

Definition move (allowed : ItemState → bool) (otherwise : Err)
    (to : ItemState) (q : Queue D) (key : string) : Queue D * option Err :=
  match Get q key with
  | inl e => (q, Some e)
  | inr i =>
      if allowed (State i)
      then (set_items (alter_item (set_State to) key (items q)) q, None)
      else (q, Some otherwise)
  end.

Definition Touch (q : Queue D) (key : string) : Queue D * option Err :=
  move (λ st, bool_decide (st = ItemStateRun)) ErrNotRunning
       ItemStateRun q key.

Definition Release (q : Queue D) (key : string) : Queue D * option Err :=
  move (λ st, bool_decide (st = ItemStateRun)) ErrNotRunning
       ItemStateDelay q key.

Definition Bury (q : Queue D) (key : string) : Queue D * option Err :=
  move (λ st, bool_decide (st = ItemStateRun)
              || bool_decide (st = ItemStateReady)) ErrNotRunning
       ItemStateBury q key.

Definition Kick (q : Queue D) (key : string) : Queue D * option Err :=
  move (λ st, bool_decide (st = ItemStateBury)) ErrNotBuried
       ItemStateReady q key.

Definition SetDelay (q : Queue D) (key : string) (d : Z)
    : Queue D * option Err :=
  match Get q key with
  | inl e => (q, Some e)
  | inr _ => (set_items (alter_item (set_Delay d) key (items q)) q, None)
  end.

Definition Remove (q : Queue D) (key : string) : Queue D * option Err :=
  match Get q key with
  | inl e => (q, Some e)
  | inr _ => (set_items (remove_item key (items q)) q, None)
  end.

(** [Reserve([group])] *)
Definition eligible (group : option string) (i : Item D) : bool :=
  bool_decide (State i = ItemStateReady)
  && match group with
     | Some g => bool_decide (ReserveGroup i = g)
     | None => true
     end.

Fixpoint first_best (group : option string) (cur : option (Item D))
    (l : list (Item D)) : option (Item D) :=
  match l with
  | [] => cur
  | i :: l' =>
      if eligible group i then
        match cur with
        | Some b =>
            if Priority b <? Priority i
            then first_best group (Some i) l'
            else first_best group cur l'
        | None => first_best group (Some i) l'
        end
      else first_best group cur l'
  end.

Definition Reserve (q : Queue D) (group : option string)
    : Queue D * (Err + Item D) :=
  match first_best group None (items q) with
  | None => (q, inl ErrNothingReady)
  | Some i =>
      (set_items (alter_item (set_State ItemStateRun) (Key i) (items q)) q,
       inr (set_State ItemStateRun i))
  end.

(** [AddMany(itemdefs)] -> (added, duplicates, err) *)
Definition item_of_def (d : ItemDef D) : Item D :=
  {| Key := DefKey d; ReserveGroup := DefReserveGroup d;
     Data := DefData d; Priority := DefPriority d; Delay := DefDelay d;
     TTR := DefTTR d;
     State := if 0 <? DefDelay d then ItemStateDelay else ItemStateReady |}.

Fixpoint add_each (defs : list (ItemDef D)) (l : list (Item D))
    (added dups : Z) : list (Item D) * Z * Z :=
  match defs with
  | [] => (l, added, dups)
  | d :: defs' =>
      match lookup_item (DefKey d) l with
      | Some _ => add_each defs' l added (int_add dups 1)
      | None => add_each defs' (l ++ [item_of_def d]) (int_add added 1) dups
      end
  end.

Definition AddMany (q : Queue D) (defs : list (ItemDef D))
    : Queue D * Z * Z * option Err :=
  let '(l, added, dups) := add_each defs (items q) 0 0 in
  (set_items l q, added, dups, None).

End operations.

End queue.

(** ** What the file takes from the rest of the repository *)

(** Functions and constants that [server.go] uses and that are declared in
    other files: the job key (deterministic from Cwd, Cmd and the CwdMatters
    flag), the content address of an environment, the scheduler adapter's
    [Place] and [HostToID], [fmt.Sprintf] on the runner command, and the
    constants [tokenLength], [ClientReleaseDelay] and the two separators of a
    scheduler group that carries limit groups. *)
Class Externals := {
  jobKey : string → string → bool → string;
  envKey : list Byte.byte → string;
  Place : scheduler.Requirements → string;
  HostToID : string → string;
  Sprintf : string → string → string → string;
  tokenLength : nat;
  ClientReleaseDelay : Z;
  jobSchedLimitGroupSeparator : string;
  jobLimitGroupSeparator : string
}.

(** [ServerItemTTR = 60 * time.Second], in nanoseconds. *)
Definition ServerItemTTR : Z := 60 * 1000000000.

(** [job.Key()], and [jobKey(job)] of the 2016 revision. *)
Definition Key `{Externals} (j : Job) : string :=
  jobKey (Cwd j) (Cmd j) (CwdMatters j).

(** ** [strings.Split] *)

(** Pieces of [s] around each instance of a non-empty separator, scanning
    left to right; [skip] counts the separator's characters still to pass. *)
Fixpoint split_around (sep s : string) (skip : nat) (piece : string)
    : list string :=
  match s with
  | EmptyString => [piece]
  | String c s' =>
      match skip with
      | S n => split_around sep s' n piece
      | O =>
          if String.prefix sep s
          then piece :: split_around sep s' (String.length sep - 1) ""
          else split_around sep s' 0 (piece +:+ String c "")
      end
  end.

Fixpoint explode (s : string) : list string :=
  match s with
  | EmptyString => []
  | String c s' => String c "" :: explode s'
  end.

Definition Split (s sep : string) : list string :=
  if bool_decide (sep = "") then explode s else split_around sep s 0 "".

(** ** The limiter *)

(** Modelled from the spec: package [limiter] is not part of the source
    tree.  Section 4.4: [Increment(groups)] checks every group's current
    count against its configured limit; if all fit it increments all and
    answers true, else it modifies none and answers false;
    [Decrement(groups)] is unconditional.  A group without a configured
    limit always fits. *)
Module limiter.

Record Limiter := {
  limits : gmap string Z;
  counts : gmap string Z
}.

Definition count (l : Limiter) (g : string) : Z :=
  default 0 (counts l !! g).

Definition fits (l : Limiter) (g : string) : bool :=
  match limits l !! g with
  | Some lim => bool_decide (count l g < lim)
  | None => true
  end.

Definition add_to (d : Z) (g : string) (l : Limiter) : Limiter :=
  {| limits := limits l; counts := <[g := count l g + d]> (counts l) |}.

Definition Increment (l : Limiter) (groups : list string) : Limiter * bool :=
  if forallb (fits l) groups
  then (foldr (add_to 1) l groups, true)
  else (l, false).

Definition Decrement (l : Limiter) (groups : list string) : Limiter :=
  foldr (add_to (-1)) l groups.

End limiter.

(** ** The database facade *)

(** Modelled from the spec: type [db] is not part of the source tree.
    Section 6 gives the contracts: [storeEnv] is content-addressed and
    idempotent, [storeNewJobs] writes a batch of live rows atomically,
    [archiveJob] moves a row from the live to the complete bucket,
    [updateJobAfterChange] and [updateJobAfterExit] rewrite the live row of
    the job's key, [deleteLiveJob] drops it.  Each write may fail: [faults]
    lists, for the writes still to come, whether each one fails. *)
Module db.

Record DB := {
  live : gmap string Job;
  complete : gmap string Job;
  envs : gmap string (list Byte.byte);
  stds : gmap string (list Byte.byte * list Byte.byte);
  faults : list bool
}.

Definition set_live (m : gmap string Job) (d : DB) : DB :=
  {| live := m; complete := complete d; envs := envs d; stds := stds d;
     faults := faults d |}.

Definition set_complete (m : gmap string Job) (d : DB) : DB :=
  {| live := live d; complete := m; envs := envs d; stds := stds d;
     faults := faults d |}.

Definition set_envs (m : gmap string (list Byte.byte)) (d : DB) : DB :=
  {| live := live d; complete := complete d; envs := m; stds := stds d;
     faults := faults d |}.

Definition set_faults (f : list bool) (d : DB) : DB :=
  {| live := live d; complete := complete d; envs := envs d; stds := stds d;
     faults := f |}.

(** The fate of the next write: [true] when it fails. *)
Definition next_write (d : DB) : bool * DB :=
  match faults d with
  | [] => (false, d)
  | b :: f => (b, set_faults f d)
  end.

(** [retrieveJobStd(key)] and [retrieveEnv(key)] *)
Definition retrieveJobStd (d : DB) (key : string)
    : list Byte.byte * list Byte.byte :=
  default ([], []) (stds d !! key).

Definition retrieveEnv (d : DB) (key : string) : list Byte.byte :=
  default [] (envs d !! key).

Section writes.
Context `{Externals}.

(** Each write answers the new store and [true] for a non-nil error. *)

Definition storeEnv (d : DB) (env : list Byte.byte) : DB * string * bool :=
  let '(failed, d) := next_write d in
  if failed then (d, "", true)
  else (set_envs (<[envKey env := env]> (envs d)) d, envKey env, false).

Definition storeNewJobs (d : DB) (jobs : list Job) : DB * bool :=
  let '(failed, d) := next_write d in
  if failed then (d, true)
  else (set_live (foldl (λ m j, <[Key j := j]> m) (live d) jobs) d, false).

Definition archiveJob (d : DB) (key : string) (job : Job) : DB * bool :=
  let '(failed, d) := next_write d in
  if failed then (d, true)
  else (set_complete (<[key := job]> (complete d))
          (set_live (delete key (live d)) d), false).

Definition updateJobAfterChange (d : DB) (job : Job) : DB * bool :=
  let '(failed, d) := next_write d in
  if failed then (d, true)
  else (set_live (<[Key job := job]> (live d)) d, false).

Definition updateJobAfterExit (d : DB) (job : Job) : DB * bool :=
  updateJobAfterChange d job.

Definition deleteLiveJob (d : DB) (key : string) : DB * bool :=
  let '(failed, d) := next_write d in
  if failed then (d, true)
  else (set_live (delete key (live d)) d, false).

End writes.

End db.

(** ** Exit observations *)

(** Modelled from the spec: [JobEndState] and [Job.updateAfterExit] are
    declared in another file.  Section 4.2: [updateAfterExit(endState,
    limiter)] merges the runner-reported exit observations into the job,
    decrements any limit groups the job had incremented on reservation, and
    clears [killCalled].  The observations are the exec-result attributes of
    section 3 that a runner knows when the command ends. *)
Record JobEndState := {
  ES_Exited : bool;
  ES_Exitcode : Z;
  ES_EndTime : Time;
  ES_PeakRAM : Z;
  ES_PeakDisk : Z;
  ES_CPUtime : Z;
  ES_Stdout : list Byte.byte;
  ES_Stderr : list Byte.byte
}.

Definition set_ES_Stdout (v : list Byte.byte) (e : JobEndState) : JobEndState :=
  {| ES_Exited := ES_Exited e; ES_Exitcode := ES_Exitcode e;
     ES_EndTime := ES_EndTime e; ES_PeakRAM := ES_PeakRAM e;
     ES_PeakDisk := ES_PeakDisk e; ES_CPUtime := ES_CPUtime e;
     ES_Stdout := v; ES_Stderr := ES_Stderr e |}.

Definition set_ES_Stderr (v : list Byte.byte) (e : JobEndState) : JobEndState :=
  {| ES_Exited := ES_Exited e; ES_Exitcode := ES_Exitcode e;
     ES_EndTime := ES_EndTime e; ES_PeakRAM := ES_PeakRAM e;
     ES_PeakDisk := ES_PeakDisk e; ES_CPUtime := ES_CPUtime e;
     ES_Stdout := ES_Stdout e; ES_Stderr := v |}.

Definition merge_exit (e : JobEndState) (j : Job) : Job :=
  set_CPUtime (ES_CPUtime e)
    (set_PeakDisk (ES_PeakDisk e)
      (set_PeakRAM (ES_PeakRAM e)
        (set_EndTime (ES_EndTime e)
          (set_Exitcode (ES_Exitcode e)
            (set_Exited (ES_Exited e) j))))).

Definition updateAfterExit (e : JobEndState) (lim : limiter.Limiter) (j : Job)
    : Job * limiter.Limiter :=
  (set_killCalled false (set_incrementedLimitGroups [] (merge_exit e j)),
   limiter.Decrement lim (incrementedLimitGroups j)).

(** Modelled from the spec: [Job.noteIncrementedLimitGroups] is declared in
    another file.  Section 4.4: on a successful reserve the job records which
    groups were incremented, so that [updateAfterExit] can decrement them. *)
Definition noteIncrementedLimitGroups (groups : list string) (j : Job) : Job :=
  set_incrementedLimitGroups groups j.

(** ** Requests and replies *)

Record ServerInfo := {
  Addr : string;
  SHost : string;
  Port : string;
  PID : Z
}.

(** [clientRequest], declared in the client's file: the fields the handlers
    below read.  A nil pointer or slice is [None]. *)
Record clientRequest := {
  cr_Method : string;
  cr_Token : list Byte.byte;
  cr_Queue : string;
  cr_Jobs : option (list Job);
  cr_Job : option Job;
  cr_Keys : option (list string);
  cr_Env : option (list Byte.byte);
  cr_ClientID : UUID;
  cr_SchedulerGroup : string;
  cr_FirstReserve : bool;
  cr_Timeout : Z;
  cr_JobEndState : JobEndState;
  cr_IgnoreComplete : bool
}.

Definition set_cr_Token (v : list Byte.byte) (cr : clientRequest)
    : clientRequest :=
  {| cr_Method := cr_Method cr; cr_Token := v; cr_Queue := cr_Queue cr;
     cr_Jobs := cr_Jobs cr; cr_Job := cr_Job cr; cr_Keys := cr_Keys cr;
     cr_Env := cr_Env cr; cr_ClientID := cr_ClientID cr;
     cr_SchedulerGroup := cr_SchedulerGroup cr;
     cr_FirstReserve := cr_FirstReserve cr; cr_Timeout := cr_Timeout cr;
     cr_JobEndState := cr_JobEndState cr;
     cr_IgnoreComplete := cr_IgnoreComplete cr |}.

Definition set_cr_Timeout (v : Z) (cr : clientRequest) : clientRequest :=
  {| cr_Method := cr_Method cr; cr_Token := cr_Token cr;
     cr_Queue := cr_Queue cr; cr_Jobs := cr_Jobs cr; cr_Job := cr_Job cr;
     cr_Keys := cr_Keys cr; cr_Env := cr_Env cr;
     cr_ClientID := cr_ClientID cr;
     cr_SchedulerGroup := cr_SchedulerGroup cr;
     cr_FirstReserve := cr_FirstReserve cr; cr_Timeout := v;
     cr_JobEndState := cr_JobEndState cr;
     cr_IgnoreComplete := cr_IgnoreComplete cr |}.

Record serverResponse := {
  sr_Err : string;
  sr_Added : Z;
  sr_Existed : Z;
  sr_Job : option Job;
  sr_Jobs : list Job;
  sr_SStats : option ServerInfo;
  sr_SInfo : option ServerInfo;
  sr_KillCalled : bool
}.

(** [&serverResponse{}] and the replies built from it *)
Definition emptyResponse : serverResponse :=
  {| sr_Err := ""; sr_Added := 0; sr_Existed := 0; sr_Job := None;
     sr_Jobs := []; sr_SStats := None; sr_SInfo := None;
     sr_KillCalled := false |}.

Definition errResponse (e : string) : serverResponse :=
  {| sr_Err := e; sr_Added := 0; sr_Existed := 0; sr_Job := None;
     sr_Jobs := []; sr_SStats := None; sr_SInfo := None;
     sr_KillCalled := false |}.

Definition addedResponse (added existed : Z) : serverResponse :=
  {| sr_Err := ""; sr_Added := added; sr_Existed := existed; sr_Job := None;
     sr_Jobs := []; sr_SStats := None; sr_SInfo := None;
     sr_KillCalled := false |}.

Definition existedResponse (n : Z) : serverResponse := addedResponse 0 n.

Definition jobResponse (j : Job) : serverResponse :=
  {| sr_Err := ""; sr_Added := 0; sr_Existed := 0; sr_Job := Some j;
     sr_Jobs := []; sr_SStats := None; sr_SInfo := None;
     sr_KillCalled := false |}.

Definition sstatsResponse (i : ServerInfo) : serverResponse :=
  {| sr_Err := ""; sr_Added := 0; sr_Existed := 0; sr_Job := None;
     sr_Jobs := []; sr_SStats := Some i; sr_SInfo := None;
     sr_KillCalled := false |}.

Definition sinfoResponse (i : ServerInfo) : serverResponse :=
  {| sr_Err := ""; sr_Added := 0; sr_Existed := 0; sr_Job := None;
     sr_Jobs := []; sr_SStats := None; sr_SInfo := Some i;
     sr_KillCalled := false |}.

Definition killCalledResponse (k : bool) : serverResponse :=
  {| sr_Err := ""; sr_Added := 0; sr_Existed := 0; sr_Job := None;
     sr_Jobs := []; sr_SStats := None; sr_SInfo := None;
     sr_KillCalled := k |}.

(** What a method's case leaves behind: the state, [sr] and [srerr]. *)
Definition Handled (S : Type) : Type := S * option serverResponse * string.

(** The tail of [handleRequest]: on a non-empty [srerr] the client gets just
    the error; else [sr], or an empty reply when the method set none. *)
Definition reply_of (sr : option serverResponse) (srerr : string)
    : serverResponse :=
  if bool_decide (srerr = "") then default emptyResponse sr
  else errResponse srerr.

(** [rpl.lookup]: RepGroup to the set of job keys *)
Definition rpl_add (rp key : string) (m : gmap string (gset string))
    : gmap string (gset string) :=
  <[rp := {[key]} ∪ default ∅ (m !! rp)]> m.

Definition rpl_remove (rp key : string) (m : gmap string (gset string))
    : gmap string (gset string) :=
  match m !! rp with
  | Some keys => <[rp := keys ∖ {[key]}]> m
  | None => m
  end.

(** [t.Sub(u)]: a duration in nanoseconds, saturating at the ends of int64;
    the zero time counts as instant 0. *)
Definition Sub (t u : Time) : Z :=
  Z.max int_min (Z.min int_max (default 0 t - default 0 u)).

(** * The 2016 revision *)

Module V2016.

Record Server := {
  serverInfo : ServerInfo;
  qs : gmap string (queue.Queue Job);
  rpl : gmap string (gset string);
  scheduler : scheduler.Scheduler;
  sgroupcounts : gmap string Z;
  sgtr : gmap string scheduler.Requirements;
  rc : string;
  db : db.DB
}.

Definition set_qs (v : gmap string (queue.Queue Job)) (s : Server) : Server :=
  {| serverInfo := serverInfo s; qs := v; rpl := rpl s;
     scheduler := scheduler s; sgroupcounts := sgroupcounts s;
     sgtr := sgtr s; rc := rc s; db := db s |}.

Definition set_rpl (v : gmap string (gset string)) (s : Server) : Server :=
  {| serverInfo := serverInfo s; qs := qs s; rpl := v;
     scheduler := scheduler s; sgroupcounts := sgroupcounts s;
     sgtr := sgtr s; rc := rc s; db := db s |}.

Definition set_scheduler (v : scheduler.Scheduler) (s : Server) : Server :=
  {| serverInfo := serverInfo s; qs := qs s; rpl := rpl s;
     scheduler := v; sgroupcounts := sgroupcounts s;
     sgtr := sgtr s; rc := rc s; db := db s |}.

Definition set_sgroupcounts (v : gmap string Z) (s : Server) : Server :=
  {| serverInfo := serverInfo s; qs := qs s; rpl := rpl s;
     scheduler := scheduler s; sgroupcounts := v;
     sgtr := sgtr s; rc := rc s; db := db s |}.

Definition set_sgtr (v : gmap string scheduler.Requirements) (s : Server)
    : Server :=
  {| serverInfo := serverInfo s; qs := qs s; rpl := rpl s;
     scheduler := scheduler s; sgroupcounts := sgroupcounts s;
     sgtr := v; rc := rc s; db := db s |}.

Definition set_db (v : db.DB) (s : Server) : Server :=
  {| serverInfo := serverInfo s; qs := qs s; rpl := rpl s;
     scheduler := scheduler s; sgroupcounts := sgroupcounts s;
     sgtr := sgtr s; rc := rc s; db := v |}.

(** [s.qs[cr.Queue]], a queue being made on first use *)
Definition the_queue (s : Server) (name : string) : queue.Queue Job :=
  default (queue.New name) (qs s !! name).

Definition put_queue (name : string) (q : queue.Queue Job) (s : Server)
    : Server :=
  set_qs (<[name := q]> (qs s)) s.

Section handlers.
Context `{Externals}.

(** The methods of this revision that are not embedded ([reserve],
    [jend], [jdel], [getbc], [getbr], [getin]). *)
Variable rest : string → Server → clientRequest → Handled Server.

(** [decrementGroupCount(job, queuename)] *)
Definition decrementGroupCount (s : Server) (job : Job)
    (queuename : string) : Server :=
  let g := schedulerGroup job in
  let c := int_sub (default 0 (sgroupcounts s !! g)) 1 in
  if c <=? 0 then
    set_sgtr (delete g (sgtr s))
      (set_sgroupcounts (delete g (sgroupcounts s)) s)
  else
    set_scheduler
      (scheduler.Schedule (scheduler s) (Sprintf (rc s) queuename g)
         (sgtr s !! g) c)
      (set_sgroupcounts (<[g := c]> (sgroupcounts s)) s).

(** The callback set on a new queue for items entering its ready
    sub-queue.  First loop: place each job and count the jobs per
    scheduler group. *)
Definition req_of (job : Job) : scheduler.Requirements :=
  {| scheduler.RAM := scheduler.RAM (Requirements job);
     scheduler.Time := scheduler.Time (Requirements job);
     scheduler.Cores := scheduler.Cores (Requirements job);
     scheduler.Disk := 0;
     scheduler.Other := "" |}.

Fixpoint place_jobs (jobs : list Job) (groups : gmap string Z)
    (tr : gmap string scheduler.Requirements)
    : list Job * gmap string Z * gmap string scheduler.Requirements :=
  match jobs with
  | [] => ([], groups, tr)
  | job :: jobs' =>
      let req := req_of job in
      let g := Place req in
      let groups := <[g := int_add (default 0 (groups !! g)) 1]> groups in
      let tr := match tr !! g with
                | Some _ => tr
                | None => <[g := req]> tr
                end in
      let '(placed, groups, tr) := place_jobs jobs' groups tr in
      (set_schedulerGroup g job :: placed, groups, tr)
  end.

(** Second loop: record the count of each group and schedule runners
    for it.  Go leaves the order of a range over a map open; the order
    of [map_to_list] is one of them. *)
Definition schedule_group (queuename : string) (s : Server)
    (gc : string * Z) : Server :=
  set_scheduler
    (scheduler.Schedule (scheduler s) (Sprintf (rc s) queuename gc.1)
       (sgtr s !! gc.1) gc.2)
    (set_sgroupcounts (<[gc.1 := gc.2]> (sgroupcounts s)) s).

Definition readyAddedCallback (s : Server) (queuename : string)
    (allitemdata : list Job) : Server * list Job :=
  let '(placed, groups, tr) := place_jobs allitemdata ∅ (sgtr s) in
  let s := set_sgtr tr s in
  if bool_decide (rc s = "") then (s, placed)
  else (foldl (schedule_group queuename) s (map_to_list groups), placed).

(** [getij(cr, q)] *)
Definition getij (cr : clientRequest) (q : queue.Queue Job)
    : option (queue.Item Job) * option Job * string :=
  match cr_Job cr with
  | None => (None, None, ErrBadRequest)
  | Some rj =>
      match queue.Get q (Key rj) with
      | inl _ => (None, None, ErrBadJob)
      | inr item =>
          if bool_decide (queue.State item = queue.ItemStateRun) then
            let job := queue.Data item in
            if bool_decide (cr_ClientID cr = ReservedBy job)
            then (Some item, Some job, "")
            else (Some item, Some job, ErrMustReserve)
          else (Some item, None, ErrBadJob)
      end
  end.

(** The j* cases run their body on the triple [getij] found, when it
    reports no error. *)
Definition with_ij (s : Server) (cr : clientRequest)
    (body : queue.Item Job → Job → Job → Handled Server) : Handled Server :=
  let '(item, job, srerr) := getij cr (the_queue s (cr_Queue cr)) in
  if bool_decide (srerr = "") then
    match item, job, cr_Job cr with
    | Some item, Some job, Some rj => body item job rj
    | _, _, _ => (s, None, ErrInternalError)
    end
  else (s, None, srerr).

Definition queue_err (e : option queue.Err) : string :=
  match e with Some _ => ErrInternalError | None => "" end.

(** case "add" *)
Definition new_itemdef (job : Job) : queue.ItemDef Job :=
  {| queue.DefKey := Key job; queue.DefReserveGroup := "";
     queue.DefData := job; queue.DefPriority := Priority job;
     queue.DefDelay := 0; queue.DefTTR := ServerItemTTR |}.

Definition add (s : Server) (cr : clientRequest) : Handled Server :=
  match cr_Env cr, cr_Jobs cr with
  | Some env, Some jobs =>
      let '(d, envkey, failed) := db.storeEnv (db s) env in
      if failed then (set_db d s, None, ErrDBError)
      else
        let jobs := (λ job, set_UntilBuried 3 (set_EnvKey envkey job))
                      <$> jobs in
        let itemdefs := new_itemdef <$> jobs in
        let '(d, failed) := db.storeNewJobs d jobs in
        if failed then (set_db d s, None, ErrDBError)
        else
          let '(q, added, dups, err) :=
            queue.AddMany (the_queue s (cr_Queue cr)) itemdefs in
          let lookup :=
            foldl (λ m def, rpl_add (RepGroup (queue.DefData def))
                              (queue.DefKey def) m) (rpl s) itemdefs in
          (set_rpl lookup (put_queue (cr_Queue cr) q (set_db d s)),
           Some (addedResponse added dups), queue_err err)
  | _, _ => (s, None, ErrBadRequest)
  end.

(** case "jstart" *)
Definition jstart (now : Z) (s : Server) (cr : clientRequest)
    : Handled Server :=
  with_ij s cr (λ item job rj,
    if bool_decide (Pid rj <= 0) || bool_decide (Host rj = "")
    then (s, None, ErrBadRequest)
    else
      let job := set_Attempts (int_add (Attempts job) 1)
                   (set_EndTime None
                     (set_StartTime (Some now)
                       (set_Host (Host rj) (set_Pid (Pid rj) job)))) in
      (put_queue (cr_Queue cr)
         (queue.update_data (λ _, job) (queue.Key item)
            (the_queue s (cr_Queue cr))) s,
       None, "")).

(** case "jtouch" *)
Definition jtouch (s : Server) (cr : clientRequest) : Handled Server :=
  with_ij s cr (λ item job rj,
    let '(q, err) := queue.Touch (the_queue s (cr_Queue cr))
                       (queue.Key item) in
    (put_queue (cr_Queue cr) q s, None, queue_err err)).

(** case "jarchive" *)
Definition jarchive (s : Server) (cr : clientRequest) : Handled Server :=
  with_ij s cr (λ item job rj,
    if negb (Exited job) || bool_decide (Exitcode job ≠ 0)
       || IsZero (StartTime job) || IsZero (EndTime job)
    then (s, None, ErrBadRequest)
    else
      let key := Key job in
      let job := set_Walltime (Sub (EndTime job) (StartTime job))
                   (set_FailReason ""
                     (set_State JobStateComplete job)) in
      let q := queue.update_data (λ _, job) (queue.Key item)
                 (the_queue s (cr_Queue cr)) in
      let '(d, failed) := db.archiveJob (db s) key job in
      let s := put_queue (cr_Queue cr) q (set_db d s) in
      if failed then (s, None, ErrDBError)
      else
        let '(q, err) := queue.Remove q key in
        match err with
        | Some _ => (s, None, ErrInternalError)
        | None =>
            let s := set_rpl (rpl_remove (RepGroup job) key (rpl s))
                       (put_queue (cr_Queue cr) q s) in
            (decrementGroupCount s job (queue.Name q), None, "")
        end).

(** case "jrelease" *)
Definition jrelease (s : Server) (cr : clientRequest) : Handled Server :=
  with_ij s cr (λ item job rj,
    let job := set_FailReason (FailReason rj) job in
    let job := if Exited job && bool_decide (Exitcode job ≠ 0)
               then set_UntilBuried (int_sub (UntilBuried job) 1) job
               else job in
    let q := queue.update_data (λ _, job) (queue.Key item)
               (the_queue s (cr_Queue cr)) in
    if UntilBuried job <=? 0 then
      let '(q, err) := queue.Bury q (queue.Key item) in
      (put_queue (cr_Queue cr) q s, None, queue_err err)
    else
      let '(q, err) := queue.SetDelay q (queue.Key item) (cr_Timeout cr) in
      match err with
      | Some _ => (put_queue (cr_Queue cr) q s, None, ErrInternalError)
      | None =>
          let '(q, err) := queue.Release q (queue.Key item) in
          (put_queue (cr_Queue cr) q s, None, queue_err err)
      end).

(** case "jbury" *)
Definition jbury (s : Server) (cr : clientRequest) : Handled Server :=
  with_ij s cr (λ item job rj,
    let job := set_FailReason (FailReason rj) job in
    let q := queue.update_data (λ _, job) (queue.Key item)
               (the_queue s (cr_Queue cr)) in
    let '(q, err) := queue.Bury q (queue.Key item) in
    let s := put_queue (cr_Queue cr) q s in
    match err with
    | Some _ => (s, None, ErrInternalError)
    | None => (decrementGroupCount s job (queue.Name q), None, "")
    end).

(** case "jkick" *)
Definition kick_one (qk : queue.Queue Job * Z) (jobkey : string)
    : queue.Queue Job * Z :=
  let '(q, kicked) := qk in
  match queue.Get q jobkey with
  | inl _ => qk
  | inr item =>
      if bool_decide (queue.State item ≠ queue.ItemStateBury) then qk
      else
        match queue.Kick q jobkey with
        | (q, None) =>
            (queue.update_data (set_UntilBuried 3) jobkey q,
             int_add kicked 1)
        | (q, Some _) => (q, kicked)
        end
  end.

Definition jkick (s : Server) (cr : clientRequest) : Handled Server :=
  match cr_Keys cr with
  | None => (s, None, ErrBadRequest)
  | Some keys =>
      let '(q, kicked) :=
        foldl kick_one (the_queue s (cr_Queue cr), 0) keys in
      (put_queue (cr_Queue cr) q s, Some (existedResponse kicked), "")
  end.

(** [handleRequest]: the queue named by the request is made if it is
    new, the method's case runs, the reply is sent. *)
Definition not_embedded : list string :=
  ["reserve"; "jend"; "jdel"; "getbc"; "getbr"; "getin"].

Definition dispatch (now : Z) (s : Server) (cr : clientRequest)
    : Handled Server :=
  let method := cr_Method cr in
  if bool_decide (method = "ping") then (s, None, "")
  else if bool_decide (method = "sstats")
  then (s, Some (sstatsResponse (serverInfo s)), "")
  else if bool_decide (method = "add") then add s cr
  else if bool_decide (method = "jstart") then jstart now s cr
  else if bool_decide (method = "jtouch") then jtouch s cr
  else if bool_decide (method = "jarchive") then jarchive s cr
  else if bool_decide (method = "jrelease") then jrelease s cr
  else if bool_decide (method = "jbury") then jbury s cr
  else if bool_decide (method = "jkick") then jkick s cr
  else if bool_decide (method ∈ not_embedded) then rest method s cr
  else (s, None, ErrUnknownCommand).

Definition handleRequest (now : Z) (s : Server) (cr : clientRequest)
    : Server * serverResponse :=
  let s := put_queue (cr_Queue cr) (the_queue s (cr_Queue cr)) s in
  let '(s, sr, srerr) := dispatch now s cr in
  (s, reply_of sr srerr).

End handlers.

End V2016.

(** * The 2019 revision *)

Module V2019.

(** A state transition sent to the status caster. *)
Record jstateCount := {
  CountRepGroup : string;
  FromState : JobState;
  ToState : JobState;
  Count : Z
}.

Record Server := {
  serverInfo : ServerInfo;
  token : list Byte.byte;
  up : bool;
  drain : bool;
  q : option (queue.Queue Job);
  rpl : gmap string (gset string);
  limiter : limiter.Limiter;
  scheduler : scheduler.Scheduler;
  sgroupcounts : gmap string Z;
  sgtr : gmap string scheduler.Requirements;
  rc : string;
  db : db.DB;
  killRunners : bool;
  statusCaster : list jstateCount
}.

Definition set_q (v : option (queue.Queue Job)) (s : Server) : Server :=
  {| serverInfo := serverInfo s; token := token s; up := up s;
     drain := drain s; q := v; rpl := rpl s; limiter := limiter s;
     scheduler := scheduler s; sgroupcounts := sgroupcounts s;
     sgtr := sgtr s; rc := rc s; db := db s; killRunners := killRunners s;
     statusCaster := statusCaster s |}.

Definition set_rpl (v : gmap string (gset string)) (s : Server) : Server :=
  {| serverInfo := serverInfo s; token := token s; up := up s;
     drain := drain s; q := q s; rpl := v; limiter := limiter s;
     scheduler := scheduler s; sgroupcounts := sgroupcounts s;
     sgtr := sgtr s; rc := rc s; db := db s; killRunners := killRunners s;
     statusCaster := statusCaster s |}.

Definition set_limiter (v : limiter.Limiter) (s : Server) : Server :=
  {| serverInfo := serverInfo s; token := token s; up := up s;
     drain := drain s; q := q s; rpl := rpl s; limiter := v;
     scheduler := scheduler s; sgroupcounts := sgroupcounts s;
     sgtr := sgtr s; rc := rc s; db := db s; killRunners := killRunners s;
     statusCaster := statusCaster s |}.

Definition set_db (v : db.DB) (s : Server) : Server :=
  {| serverInfo := serverInfo s; token := token s; up := up s;
     drain := drain s; q := q s; rpl := rpl s; limiter := limiter s;
     scheduler := scheduler s; sgroupcounts := sgroupcounts s;
     sgtr := sgtr s; rc := rc s; db := v; killRunners := killRunners s;
     statusCaster := statusCaster s |}.

Definition set_statusCaster (v : list jstateCount) (s : Server) : Server :=
  {| serverInfo := serverInfo s; token := token s; up := up s;
     drain := drain s; q := q s; rpl := rpl s; limiter := limiter s;
     scheduler := scheduler s; sgroupcounts := sgroupcounts s;
     sgtr := sgtr s; rc := rc s; db := db s; killRunners := killRunners s;
     statusCaster := v |}.

Definition set_scheduler (v : scheduler.Scheduler) (s : Server) : Server :=
  {| serverInfo := serverInfo s; token := token s; up := up s;
     drain := drain s; q := q s; rpl := rpl s; limiter := limiter s;
     scheduler := v; sgroupcounts := sgroupcounts s;
     sgtr := sgtr s; rc := rc s; db := db s; killRunners := killRunners s;
     statusCaster := statusCaster s |}.

Definition set_sgroupcounts (v : gmap string Z) (s : Server) : Server :=
  {| serverInfo := serverInfo s; token := token s; up := up s;
     drain := drain s; q := q s; rpl := rpl s; limiter := limiter s;
     scheduler := scheduler s; sgroupcounts := v;
     sgtr := sgtr s; rc := rc s; db := db s; killRunners := killRunners s;
     statusCaster := statusCaster s |}.

Definition set_sgtr (v : gmap string scheduler.Requirements) (s : Server)
    : Server :=
  {| serverInfo := serverInfo s; token := token s; up := up s;
     drain := drain s; q := q s; rpl := rpl s; limiter := limiter s;
     scheduler := scheduler s; sgroupcounts := sgroupcounts s;
     sgtr := v; rc := rc s; db := db s; killRunners := killRunners s;
     statusCaster := statusCaster s |}.

(** [s.q = q]: handlers run once the gate found [s.q] non-nil. *)
Definition put_q (v : queue.Queue Job) (s : Server) : Server :=
  set_q (Some v) s.

(** A goroutine a handler starts and does not wait for. *)
Inductive Task :=
  | GoDecrementGroupCount (group : string).

(** What a method's case leaves behind: the state, [sr], [srerr], the
    goroutines started, and whether the request got as far as replying
    (a reserve without timeout may still be waiting for a ready item). *)
Record Result := {
  server : Server;
  sr : option serverResponse;
  srerr : string;
  tasks : list Task;
  answered : bool
}.

Definition handled (s : Server) (r : option serverResponse) (e : string)
    : Result :=
  {| server := s; sr := r; srerr := e; tasks := []; answered := true |}.

(** Modelled from the spec: [tokenMatches] is declared in another file.
    Section 4.6: the token is compared in constant time for equality with
    the server's. *)
Definition tokenMatches (input expected : list Byte.byte) : bool :=
  bool_decide (input = expected).

(** Modelled from the spec: the table [itemsStateToJobState] is declared
    in another file.  Sections 3 and 4.2: a job's state is that of its
    sub-queue; the run sub-queue is the reserved state and a removed item
    is a complete job. *)
Definition itemsStateToJobState (st : queue.ItemState) : option JobState :=
  match st with
  | queue.ItemStateDelay => Some JobStateDelayed
  | queue.ItemStateReady => Some JobStateReady
  | queue.ItemStateRun => Some JobStateReserved
  | queue.ItemStateBury => Some JobStateBuried
  | queue.ItemStateDependent => Some JobStateDependent
  | queue.ItemStateRemoved => Some JobStateComplete
  end.

#[global] Instance JobState_eq_dec : EqDecision JobState.
Proof. solve_decision. Defined.

Definition itemStateToJobState (itemState : queue.ItemState) (lost : bool)
    : JobState :=
  match itemsStateToJobState itemState with
  | None => JobStateUnknown
  | Some state =>
      if bool_decide (state = JobStateReserved) && lost then JobStateLost
      else state
  end.

Section handlers.
Context `{Externals}.

(** [jobPopulateStdEnv(job, getStd, getEnv)] *)
Definition jobPopulateStdEnv (s : Server) (job : Job)
    (getStd getEnv : bool) : Job :=
  let job :=
    if getStd && ((Exited job && bool_decide (Exitcode job ≠ 0))
                  || bool_decide (State job = JobStateBuried))
    then let std := db.retrieveJobStd (db s) (Key job) in
         set_StdErrC std.2 (set_StdOutC std.1 job)
    else job in
  if getEnv
  then set_EnvCRetrieved true
         (set_EnvC (db.retrieveEnv (db s) (EnvKey job)) job)
  else job.

(** [itemToJob(item, getStd, getEnv)]: a copy for the client; the fields
    the composite literal leaves out keep their zero value. *)
Definition itemToJob (s : Server) (item : queue.Item Job)
    (getStd getEnv : bool) : Job :=
  let sjob := queue.Data item in
  let state := itemStateToJobState (queue.State item) (Lost sjob) in
  let job :=
    {| RepGroup := RepGroup sjob; Cmd := Cmd sjob; Cwd := Cwd sjob;
       CwdMatters := CwdMatters sjob; Requirements := Requirements sjob;
       Priority := Priority sjob; Retries := Retries sjob;
       UntilBuried := UntilBuried sjob;
       State := if bool_decide (state = JobStateReserved)
                   && negb (IsZero (StartTime sjob))
                then JobStateRunning else state;
       ReservedBy := ReservedBy sjob; Pid := Pid sjob; Host := Host sjob;
       HostID := HostID sjob; HostIP := HostIP sjob;
       StartTime := StartTime sjob; EndTime := EndTime sjob;
       Exited := Exited sjob; Exitcode := Exitcode sjob;
       PeakRAM := PeakRAM sjob; PeakDisk := PeakDisk sjob;
       CPUtime := CPUtime sjob; Walltime := 0;
       FailReason := FailReason sjob; Attempts := Attempts sjob;
       EnvKey := EnvKey sjob; schedulerGroup := ""; killCalled := false;
       Lost := false; incrementedLimitGroups := []; StdOutC := [];
       StdErrC := []; EnvC := []; EnvCRetrieved := false |} in
  jobPopulateStdEnv s job getStd getEnv.

(** [schedGroupToLimitGroups(group)] *)
Definition schedGroupToLimitGroups (group : string) : list string :=
  match Split group jobSchedLimitGroupSeparator with
  | [_; limits] => Split limits jobLimitGroupSeparator
  | _ => []
  end.

(** [reserveWithLimits(group...)]: the variadic argument is the list
    [group]; the answer is the state, the item and the error. *)
Definition reserveWithLimits (s : Server) (q0 : queue.Queue Job)
    (group : list string)
    : Server * option (queue.Item Job) * option queue.Err :=
  let limitGroups :=
    match group with
    | [g] => schedGroupToLimitGroups g
    | _ => []
    end in
  let '(lim, incremented) :=
    if bool_decide (limitGroups ≠ [])
    then limiter.Increment (limiter s) limitGroups
    else (limiter s, true) in
  if negb incremented then (s, None, Some queue.ErrNothingReady)
  else
    let '(q1, reserved) :=
      queue.Reserve q0 (match group with [g] => Some g | _ => None end) in
    let item := match reserved with inr i => Some i | inl _ => None end in
    let err := match reserved with inr _ => None | inl e => Some e end in
    let s := put_q q1 (set_limiter lim s) in
    if bool_decide (limitGroups ≠ []) then
      match item with
      | None =>
          (set_limiter (limiter.Decrement lim limitGroups) s, item, err)
      | Some i =>
          (put_q (queue.update_data
                    (noteIncrementedLimitGroups limitGroups)
                    (queue.Key i) q1) s,
           Some (queue.set_Data
                   (noteIncrementedLimitGroups limitGroups (queue.Data i))
                   i),
           err)
      end
    else (s, item, err).

(** [getij(cr)] *)
Definition getij (q0 : queue.Queue Job) (cr : clientRequest)
    : option (queue.Item Job) * option Job * string :=
  match cr_Job cr with
  | None => (None, None, ErrBadRequest)
  | Some rj =>
      match queue.Get q0 (Key rj) with
      | inl _ => (None, None, ErrBadJob)
      | inr item =>
          if bool_decide (queue.State item ≠ queue.ItemStateRun)
          then (Some item, None, ErrBadJob)
          else
            let job := queue.Data item in
            if bool_decide (cr_ClientID cr ≠ ReservedBy job)
            then (Some item, Some job, ErrMustReserve)
            else (Some item, Some job, "")
      end
  end.

(** Functions of this revision that other files declare:
    [decrementGroupCount(group)], [releaseJob(job, endState, failReason,
    forceStorage)], which answers whether it failed, and
    [createJobs(jobs, envkey, ignoreComplete)], which answers added,
    dups, alreadyComplete, an error string and whether it failed; and
    the methods that are not embedded. *)
Variable decrementGroupCount : Server → string → Server.
Variable releaseJob :
  Server → Job → JobEndState → string → bool → Server * bool.
Variable createJobs :
  Server → list Job → string → bool → Server * (Z * Z * Z) * string * bool.
Variable rest : string → Server → clientRequest → Result.


Definition queue_err (e : option queue.Err) : string :=
  match e with Some _ => ErrInternalError | None => "" end.

(** case "add" *)
Definition add (s : Server) (cr : clientRequest) : Result :=
  match cr_Env cr, cr_Jobs cr with
  | Some env, Some jobs =>
      let '(d, envkey, failed) := db.storeEnv (db s) env in
      let s := set_db d s in
      if failed then handled s None ErrDBError
      else
        let '(s, (added, dups, alreadyComplete), thisSrerr, failed) :=
          createJobs s jobs envkey (cr_IgnoreComplete cr) in
        if failed then handled s None thisSrerr
        else handled s
               (Some (addedResponse added (int_add dups alreadyComplete)))
               ""
  | _, _ => handled s None ErrBadRequest
  end.

(** case "reserve": the goroutine that retries on every tick.  Each
    entry of [ticks] is one tick of the ticker that comes before the
    stop timer: it holds what the rest of the server did since the
    previous attempt.  At the end of [ticks] the stop timer fires, if
    the request has a timeout ([timed]); without one the request is
    still waiting. *)
Record itemErr := {
  ie_item : option (queue.Item Job);
  ie_err : string
}.

Fixpoint poll (ticks : list (Server → Server)) (timed : bool)
    (group : string) (s : Server) : Server * option itemErr :=
  match ticks with
  | [] =>
      if timed then (s, Some {| ie_item := None; ie_err := "" |})
      else (s, None)
  | others :: ticks' =>
      let s := others s in
      match q s with
      | None => (s, None)
      | Some q0 =>
          let '(s, itemr, err) := reserveWithLimits s q0 [group] in
          match err with
          | Some queue.ErrNothingReady => poll ticks' timed group s
          | Some queue.ErrQueueClosed =>
              (s, Some {| ie_item := None; ie_err := ErrQueueClosed |})
          | Some _ =>
              (s, Some {| ie_item := None; ie_err := ErrInternalError |})
          | None => (s, Some {| ie_item := itemr; ie_err := "" |})
          end
      end
  end.

(** The first-reserve test: no reservation is tried when the client's
    first request for a group finds no count for it. *)
Definition skip_first_reserve (s : Server) (cr : clientRequest) : bool :=
  cr_FirstReserve cr && bool_decide (rc s ≠ "")
  && match sgroupcounts s !! cr_SchedulerGroup cr with
     | Some count => count =? 0
     | None => true
     end.

Definition first_attempt (s : Server) (q0 : queue.Queue Job)
    (cr : clientRequest)
    : Server * option (queue.Item Job) * option queue.Err :=
  if bool_decide (cr_SchedulerGroup cr ≠ "") then
    if skip_first_reserve s cr then (s, None, None)
    else reserveWithLimits s q0 [cr_SchedulerGroup cr]
  else reserveWithLimits s q0 [].

(** A reserved job is cleaned of its past run and given to the client. *)
Definition fresh_job (cid : UUID) (sjob : Job) : Job :=
  set_Exitcode (-1)
    (set_PeakDisk 0
      (set_PeakRAM 0
        (set_EndTime None
          (set_StartTime None
            (set_Host ""
              (set_Pid 0
                (set_Exited false (set_ReservedBy cid sjob)))))))).

Definition give_item (s : Server) (cr : clientRequest)
    (item : queue.Item Job) : Result :=
  match q s with
  | None => handled s None ErrInternalError
  | Some q1 =>
      let key := queue.Key item in
      let q2 := queue.update_data (fresh_job (cr_ClientID cr)) key q1 in
      let q3 := (queue.SetDelay q2 key ClientReleaseDelay).1 in
      let s := put_q q3 s in
      let item :=
        default (queue.set_Data
                   (fresh_job (cr_ClientID cr) (queue.Data item)) item)
                (queue.lookup_item key (queue.items q3)) in
      handled s (Some (jobResponse (itemToJob s item false true))) ""
  end.

Definition reserve (ticks : list (Server → Server)) (drain : bool)
    (s : Server) (q0 : queue.Queue Job) (cr : clientRequest) : Result :=
  if uuid_is_nil (cr_ClientID cr) then handled s None ErrBadRequest
  else if negb drain then
    let '(s, item, err) := first_attempt s q0 cr in
    match err with
    | Some queue.ErrNothingReady =>
        match poll ticks (0 <? cr_Timeout cr) (cr_SchedulerGroup cr) s with
        | (s, None) =>
            {| server := s; sr := None; srerr := ""; tasks := [];
               answered := false |}
        | (s, Some itemerr) =>
            if bool_decide (ie_err itemerr = "") then
              match ie_item itemerr with
              | Some item => give_item s cr item
              | None => handled s None ""
              end
            else handled s None (ie_err itemerr)
        end
    | _ =>
        match item with
        | Some item => give_item s cr item
        | None => handled s None ""
        end
    end
  else handled s None "".

(** The j* cases run their body on what [getij] found, when it reports
    no error; the body also gets the job of the request. *)
Definition with_ij (s : Server) (q0 : queue.Queue Job)
    (cr : clientRequest)
    (body : queue.Item Job → Job → Job → Result) : Result :=
  let '(item, job, srerr) := getij q0 cr in
  if bool_decide (srerr = "") then
    match item, job, cr_Job cr with
    | Some item, Some job, Some rj => body item job rj
    | _, _, _ => handled s None ErrInternalError
    end
  else handled s None srerr.

(** case "jstart" *)
Definition jstart (now : Z) (s : Server) (q0 : queue.Queue Job)
    (cr : clientRequest) : Result :=
  with_ij s q0 cr (λ item job rj,
    if bool_decide (Pid rj <= 0) || bool_decide (Host rj = "")
    then handled s None ErrBadRequest
    else
      let job := set_Host (Host rj) job in
      let job := if bool_decide (Host job ≠ "")
                 then set_HostID (HostToID (Host job)) job else job in
      let job :=
        set_State JobStateRunning
          (set_Lost false
            (set_killCalled false
              (set_Attempts (int_add (Attempts job) 1)
                (set_EndTime None
                  (set_StartTime (Some now)
                    (set_Pid (Pid rj)
                      (set_HostIP (HostIP rj) job))))))) in
      let q1 := queue.update_data (λ _, job) (queue.Key item) q0 in
      let d := (db.updateJobAfterChange (db s) job).1 in
      handled (set_db d (put_q q1 s)) None "").

(** case "jtouch" *)
Definition jtouch (s : Server) (q0 : queue.Queue Job)
    (cr : clientRequest) : Result :=
  with_ij s q0 cr (λ item job rj,
    let killCalled := killCalled job || killRunners s in
    if killCalled then handled s (Some (killCalledResponse true)) ""
    else
      let '(q1, err) := queue.Touch q0 (queue.Key item) in
      match err with
      | Some _ =>
          handled (put_q q1 s) (Some (killCalledResponse false))
            ErrInternalError
      | None =>
          if Lost job then
            let q2 := queue.update_data
                        (λ j, set_EndTime None (set_Lost false j))
                        (queue.Key item) q1 in
            let sent :=
              [ {| CountRepGroup := "+all+"; FromState := JobStateLost;
                   ToState := JobStateRunning; Count := 1 |};
                {| CountRepGroup := RepGroup job;
                   FromState := JobStateLost;
                   ToState := JobStateRunning; Count := 1 |} ] in
            handled (set_statusCaster (statusCaster s ++ sent)
                       (put_q q2 s))
              (Some (killCalledResponse false)) ""
          else handled (put_q q1 s) (Some (killCalledResponse false)) ""
      end).

(** case "jarchive", once [getij] found the item and its job.  [q0] is
    the queue as it is when the item's state is read again. *)
Definition jarchive_found (s : Server) (q0 : queue.Queue Job)
    (cr : clientRequest) (item : queue.Item Job) (job : Job) : Result :=
  let '(job, lim) := updateAfterExit (cr_JobEndState cr) (limiter s) job in
  let q1 := queue.update_data (λ _, job) (queue.Key item) q0 in
  let s := set_limiter lim (put_q q1 s) in
  if negb (bool_decide (queue.StateOf q1 (queue.Key item)
                        = queue.ItemStateRun))
  then handled s None ErrBadJob
  else if negb (Exited job) || bool_decide (Exitcode job ≠ 0)
          || IsZero (StartTime job) || IsZero (EndTime job)
  then handled s None ErrBadRequest
  else
    let key := Key job in
    let job := set_FailReason "" (set_State JobStateComplete job) in
    let sgroup := schedulerGroup job in
    let rgroup := RepGroup job in
    let q2 := queue.update_data (λ _, job) (queue.Key item) q1 in
    let '(d, failed) := db.archiveJob (db s) key job in
    let s := set_db d (put_q q2 s) in
    if failed then handled s None ErrDBError
    else
      let '(q3, err) := queue.Remove q2 key in
      match err with
      | Some _ => handled s None ErrInternalError
      | None =>
          {| server := set_rpl (rpl_remove rgroup key (rpl s))
                         (put_q q3 s);
             sr := None; srerr := "";
             tasks := [GoDecrementGroupCount sgroup];
             answered := true |}
      end.

Definition jarchive (s : Server) (q0 : queue.Queue Job)
    (cr : clientRequest) : Result :=
  with_ij s q0 cr (λ item job rj, jarchive_found s q0 cr item job).

(** case "jrelease" *)
Definition jrelease (s : Server) (q0 : queue.Queue Job)
    (cr : clientRequest) : Result :=
  with_ij s q0 cr (λ item job rj,
    let endState :=
      set_ES_Stderr (StdErrC rj)
        (set_ES_Stdout (StdOutC rj) (cr_JobEndState cr)) in
    let '(s, failed) := releaseJob s job endState (FailReason rj) true in
    handled s None (if failed then ErrInternalError else "")).

(** case "jbury" *)
Definition jbury (s : Server) (q0 : queue.Queue Job)
    (cr : clientRequest) : Result :=
  with_ij s q0 cr (λ item job rj,
    let '(job, lim) :=
      updateAfterExit (cr_JobEndState cr) (limiter s) job in
    let job := set_State JobStateBuried
                 (set_FailReason (FailReason rj) job) in
    let q1 := queue.update_data (λ _, job) (queue.Key item) q0 in
    let '(q2, err) := queue.Bury q1 (queue.Key item) in
    let s := set_limiter lim (put_q q2 s) in
    match err with
    | Some _ => handled s None ErrInternalError
    | None =>
        let s := decrementGroupCount s (schedulerGroup job) in
        let d := (db.updateJobAfterExit (db s) job).1 in
        handled (set_db d s) None ""
    end).

(** case "jkick": one turn of the loop over the keys *)
Definition kick_one (sk : Server * queue.Queue Job * Z)
    (jobkey : string) : Server * queue.Queue Job * Z :=
  let '(s, q0, kicked) := sk in
  match queue.Get q0 jobkey with
  | inl _ => sk
  | inr item =>
      if bool_decide (queue.State item ≠ queue.ItemStateBury) then sk
      else
        match queue.Kick q0 jobkey with
        | (q1, Some _) => (s, q1, kicked)
        | (q1, None) =>
            let job := queue.Data item in
            let job := set_State JobStateReady
                         (set_UntilBuried (int_add (Retries job) 1) job) in
            let q2 := queue.update_data (λ _, job) jobkey q1 in
            let d := (db.updateJobAfterChange (db s) job).1 in
            (set_db d s, q2, int_add kicked 1)
        end
  end.

Definition jkick (s : Server) (q0 : queue.Queue Job)
    (cr : clientRequest) : Result :=
  match cr_Keys cr with
  | None => handled s None ErrBadRequest
  | Some keys =>
      let '(s, q1, kicked) := foldl kick_one (s, q0, 0) keys in
      handled (put_q q1 s) (Some (existedResponse kicked)) ""
  end.

(** The switch on [cr.Method], behind the token check and the gate. *)
Definition not_embedded : list string :=
  ["backup"; "pause"; "resume"; "drain"; "shutdown"; "upload"; "jdel";
   "jmod"; "jkill"; "getbc"; "getbr"; "getin"; "getbcs"; "getsetlg"].

Definition dispatch (now : Z) (ticks : list (Server → Server))
    (drain : bool) (s : Server) (q0 : queue.Queue Job)
    (cr : clientRequest) : Result :=
  let method := cr_Method cr in
  if bool_decide (method = "ping")
  then handled s (Some (sinfoResponse (serverInfo s))) ""
  else if bool_decide (method = "add") then add s cr
  else if bool_decide (method = "reserve") then reserve ticks drain s q0 cr
  else if bool_decide (method = "jstart") then jstart now s q0 cr
  else if bool_decide (method = "jtouch") then jtouch s q0 cr
  else if bool_decide (method = "jarchive") then jarchive s q0 cr
  else if bool_decide (method = "jrelease") then jrelease s q0 cr
  else if bool_decide (method = "jbury") then jbury s q0 cr
  else if bool_decide (method = "jkick") then jkick s q0 cr
  else if bool_decide (method ∈ not_embedded) then rest method s cr
  else handled s None ErrUnknownCommand.

Definition token_ok (s : Server) (cr : clientRequest) : bool :=
  bool_decide (length (cr_Token cr) = tokenLength)
  && tokenMatches (cr_Token cr) (token s).

Definition handle (now : Z) (ticks : list (Server → Server))
    (s : Server) (cr : clientRequest) : Result :=
  let up := up s in
  let drain := drain s in
  if negb (token_ok s cr) && bool_decide (cr_Method cr ≠ "ping")
  then handled s None ErrPermissionDenied
  else
    match q s with
    | None => handled s None ErrClosedStop
    | Some q0 =>
        if negb up && negb drain then handled s None ErrClosedStop
        else dispatch now ticks drain s q0 cr
    end.

(** [handleRequest]: the state after the request, the reply sent (none
    while a reserve is still waiting) and the goroutines left running. *)
Definition handleRequest (now : Z) (ticks : list (Server → Server))
    (s : Server) (cr : clientRequest)
    : Server * option serverResponse * list Task :=
  let r := handle now ticks s cr in
  (server r,
   if answered r then Some (reply_of (sr r) (srerr r)) else None,
   tasks r).

End handlers.

End V2019.

(** * More of the 2016 switch *)

(** The cases [jend] and [jdel] of the 2016 [handleRequest] and its
    [itemToJob], as functions of their own: [V2016.dispatch] hands these
    methods to its parameter. *)
Module V2016_more.

(** Modelled from the spec: type [db] is not part of the source tree.
    Section 6: [updateJobStd(key, code, out, err) → err]; the output it
    stores is what [retrieveJobStd(key)] answers. *)
Definition updateJobStd (d : db.DB) (key : string) (exitcode : Z)
    (stdo stde : list Byte.byte) : db.DB * bool :=
  let '(failed, d) := db.next_write d in
  if failed then (d, true)
  else ({| db.live := db.live d; db.complete := db.complete d;
           db.envs := db.envs d;
           db.stds := <[key := (stdo, stde)]> (db.stds d);
           db.faults := db.faults d |}, false).

Section handlers.
Context `{Externals}.

(** case "jend" *)
Definition jend (now : Z) (s : V2016.Server) (cr : clientRequest)
    : Handled V2016.Server :=
  V2016.with_ij s cr (λ item job rj,
    let job := set_EndTime (Some now)
                 (set_CPUtime (CPUtime rj)
                   (set_PeakRAM (PeakRAM rj)
                     (set_Exitcode (Exitcode rj)
                       (set_Exited true job)))) in
    let q := queue.update_data (λ _, job) (queue.Key item)
               (V2016.the_queue s (cr_Queue cr)) in
    let '(d, failed) :=
      updateJobStd (V2016.db s) (Key job) (Exitcode rj) (StdOutC rj)
        (StdErrC rj) in
    (V2016.put_queue (cr_Queue cr) q (V2016.set_db d s), None,
     if failed then ErrDBError else "")).

(** case "jdel": one turn of the loop over the keys; the error of
    [deleteLiveJob] is dropped. *)
Definition del_one (qd : queue.Queue Job * db.DB * Z) (jobkey : string)
    : queue.Queue Job * db.DB * Z :=
  let '(q, d, deleted) := qd in
  match queue.Get q jobkey with
  | inl _ => qd
  | inr item =>
      if bool_decide (queue.State item ≠ queue.ItemStateBury) then qd
      else
        match queue.Remove q jobkey with
        | (q, None) =>
            (q, (db.deleteLiveJob d jobkey).1, int_add deleted 1)
        | (q, Some _) => (q, d, deleted)
        end
  end.

Definition jdel (s : V2016.Server) (cr : clientRequest)
    : Handled V2016.Server :=
  match cr_Keys cr with
  | None => (s, None, ErrBadRequest)
  | Some keys =>
      let '(q, d, deleted) :=
        foldl del_one (V2016.the_queue s (cr_Queue cr), V2016.db s, 0)
          keys in
      (V2016.put_queue (cr_Queue cr) q (V2016.set_db d s),
       Some (existedResponse deleted), "")
  end.

(** [itemToJob(item, getstd, getenv)] at the instant [now].  The composite
    literal names the fields it copies; the others keep their zero value.
    [Memory], [Time] and [CPUs] are the job's requirements; [CwdMatters],
    which the jobs of this revision do not have, goes along with [Cwd], so
    that [jobKey] reads the same.  The assignment of "running" is to the
    local [state], after [State] was filled in. *)
Definition itemToJob (now : Z) (s : V2016.Server) (item : queue.Item Job)
    (getstd getenv : bool) : Job :=
  let sjob := queue.Data item in
  let state :=
    match queue.State item with
    | queue.ItemStateDelay => JobStateDelayed
    | queue.ItemStateReady => JobStateReady
    | queue.ItemStateRun => JobStateReserved
    | queue.ItemStateBury => JobStateBuried
    | _ => JobStateUnknown
    end in
  let walltime :=
    if negb (IsZero (StartTime sjob)) then
      if IsZero (EndTime sjob) || bool_decide (state = JobStateReserved)
      then Sub (Some now) (StartTime sjob)
      else Sub (EndTime sjob) (StartTime sjob)
    else 0 in
  let job :=
    {| RepGroup := RepGroup sjob; Cmd := Cmd sjob; Cwd := Cwd sjob;
       CwdMatters := CwdMatters sjob;
       Requirements := V2016.req_of sjob;
       Priority := Priority sjob; Retries := 0;
       UntilBuried := UntilBuried sjob; State := state;
       ReservedBy := ReservedBy sjob; Pid := Pid sjob; Host := Host sjob;
       HostID := ""; HostIP := ""; StartTime := None; EndTime := None;
       Exited := Exited sjob; Exitcode := Exitcode sjob;
       PeakRAM := PeakRAM sjob; PeakDisk := 0; CPUtime := CPUtime sjob;
       Walltime := walltime; FailReason := FailReason sjob;
       Attempts := Attempts sjob; EnvKey := ""; schedulerGroup := "";
       killCalled := false; Lost := false; incrementedLimitGroups := [];
       StdOutC := []; StdErrC := []; EnvC := []; EnvCRetrieved := false |} in
  let job := if getenv
             then set_EnvC (db.retrieveEnv (V2016.db s) (EnvKey sjob)) job
             else job in
  if getstd && Exited job && bool_decide (Exitcode job ≠ 0)
  then let std := db.retrieveJobStd (V2016.db s) (Key job) in
       set_StdErrC std.2 (set_StdOutC std.1 job)
  else job.

End handlers.

End V2016_more.

(** * Timing averages *)

(** Go's [float64] as far as [timingAvg] and [logTimings] use it: the
    conversion of an int, addition, division and the test [f > 0]. *)
Class Float64 := {
  float64 : Type;
  of_int : Z → float64;
  fadd : float64 → float64 → float64;
  fdiv : float64 → float64 → float64;
  is_positive : float64 → bool
}.

Module timing.

Section store.
Context `{Float64}.

(** [timingAvg]: the array of 1000 timings and the count of those in
    use. *)
Record timingAvg := {
  timings : list float64;
  count : Z
}.

(** [&timingAvg{}] and [[1000]float64{}] *)
Definition no_timings : list float64 := replicate 1000 (of_int 0).

Definition new_timingAvg : timingAvg :=
  {| timings := no_timings; count := 0 |}.

(** [a.store(s)]: the state after the call and the result; [None] is the
    panic of an index out of the array's range. *)
Definition store (a : timingAvg) (s : float64)
    : option (timingAvg * float64) :=
  if bool_decide (0 <= count a < 1000) then
    let t := <[Z.to_nat (count a) := s]> (timings a) in
    let c := int_add (count a) 1 in
    if c =? 1000 then
      let sum := foldl fadd (of_int 0) t in
      Some (new_timingAvg, fdiv sum (of_int 1000))
    else Some ({| timings := t; count := c |}, of_int 0)
  else None.

(** [logTimings(desc, took)], with [took.Seconds()] for [took]: the map of
    averages and the log lines written, oldest first. *)
Definition logTimings (m : gmap string timingAvg)
    (log : list (string * float64)) (desc : string) (took : float64)
    : option (gmap string timingAvg * list (string * float64)) :=
  if bool_decide (desc = "") then Some (m, log)
  else
    let a := default new_timingAvg (m !! desc) in
    match store a took with
    | None => None
    | Some (a, avg) =>
        Some (<[desc := a]> m,
              if is_positive avg then log ++ [(desc, avg)] else log)
    end.

(** Calls of [logTimings] with one description, one after the other. *)
Fixpoint logTimingsEach (m : gmap string timingAvg)
    (log : list (string * float64)) (desc : string) (tooks : list float64)
    : option (gmap string timingAvg * list (string * float64)) :=
  match tooks with
  | [] => Some (m, log)
  | took :: tooks' =>
      match logTimings m log desc took with
      | None => None
      | Some (m', log') => logTimingsEach m' log' desc tooks'
      end
  end.

(** Calls of [store] one after the other: the last state and the results,
    oldest first. *)
Fixpoint stores (a : timingAvg) (ss : list float64)
    : option (timingAvg * list float64) :=
  match ss with
  | [] => Some (a, [])
  | s :: ss' =>
      match store a s with
      | None => None
      | Some (a', r) =>
          match stores a' ss' with
          | None => None
          | Some (a'', rs) => Some (a'', r :: rs)
          end
      end
  end.

End store.

End timing.

(** * Vocabulary of the further properties *)

(** A job as [reserve] hands it out: owned by the client and cleaned of the
    observations of an earlier run. *)
Definition fresh_for (cid : UUID) (job : Job) : Prop :=
  ReservedBy job = cid ∧ Exited job = false ∧ Pid job = 0 ∧ Host job = ""
  ∧ StartTime job = None ∧ EndTime job = None ∧ PeakRAM job = 0
  ∧ PeakDisk job = 0 ∧ Exitcode job = -1.

Definition set_cr_ClientID (v : UUID) (cr : clientRequest) : clientRequest :=
  {| cr_Method := cr_Method cr; cr_Token := cr_Token cr;
     cr_Queue := cr_Queue cr; cr_Jobs := cr_Jobs cr; cr_Job := cr_Job cr;
     cr_Keys := cr_Keys cr; cr_Env := cr_Env cr; cr_ClientID := v;
     cr_SchedulerGroup := cr_SchedulerGroup cr;
     cr_FirstReserve := cr_FirstReserve cr; cr_Timeout := cr_Timeout cr;
     cr_JobEndState := cr_JobEndState cr;
     cr_IgnoreComplete := cr_IgnoreComplete cr |}.

(** An item after the 2016 [jkick] kicked it. *)
Definition kicked_item_2016 (i : queue.Item Job) : queue.Item Job :=
  queue.set_Data (set_UntilBuried 3 (queue.Data i))
    (queue.set_State queue.ItemStateReady i).

(** The scheduler group the 2016 callback places a job in, and the jobs of
    a list placed in a group. *)
Definition group_of `{Externals} (job : Job) : string :=
  Place (V2016.req_of job).

Definition jobs_placed_in `{Externals} (g : string) (jobs : list Job)
    : list Job :=
  filter (λ job, group_of job = g) jobs.

(** The call the 2016 server makes to ask for [n] runners of a group. *)
Definition runners_asked `{Externals} (s : V2016.Server)
    (queuename : string) (gc : string * Z) : scheduler.Call :=
  {| scheduler.cmd := Sprintf (V2016.rc s) queuename gc.1;
     scheduler.req := V2016.sgtr s !! gc.1;
     scheduler.count := gc.2 |}.

(** * Vocabulary of the properties *)

(** The gate of the 2019 dispatcher is open: the queue is there and the
    server is up or draining. *)
Definition gate_open (s : V2019.Server) (q0 : queue.Queue Job) : Prop :=
  V2019.q s = Some q0 ∧ (V2019.up s || V2019.drain s) = true.

(** What [jarchive] asks of a job: it exited with code 0 and has a start and
    an end time. *)
Definition exit_ok (job : Job) : bool :=
  Exited job && bool_decide (Exitcode job = 0)
  && negb (IsZero (StartTime job)) && negb (IsZero (EndTime job)).

(** A job and its item after [jkick] kicked them. *)
Definition kicked_job (job : Job) : Job :=
  set_State JobStateReady (set_UntilBuried (int_add (Retries job) 1) job).

Definition kicked_item (i : queue.Item Job) : queue.Item Job :=
  queue.set_Data (kicked_job (queue.Data i))
    (queue.set_State queue.ItemStateReady i).

(** The keys of a request whose item is in the bury sub-queue of [q0]. *)
Definition buried_keys (q0 : queue.Queue Job) (keys : list string)
    : gset string :=
  list_to_set
    (filter (λ k, queue.StateOf q0 k = queue.ItemStateBury) keys).

(** Every count of [sgroupcounts] is a Go int that is not negative. *)
Definition counts_never_negative (m : gmap string Z) : Prop :=
  ∀ g c, m !! g = Some c → 0 <= c <= int_max.

(** * Sample states and requests *)

Module Sample.

#[local] Instance externals : Externals :=
  {| jobKey := λ cwd cmd matters, if matters then cwd +:+ "." +:+ cmd else cmd;
     envKey := String.string_of_list_byte;
     Place := λ r, if scheduler.RAM r <=? 1000 then "small" else "big";
     HostToID := λ host, host;
     Sprintf := λ format name group, format +:+ " " +:+ name +:+ " " +:+ group;
     tokenLength := 2;
     ClientReleaseDelay := 30 * 1000000000;
     jobSchedLimitGroupSeparator := "~";
     jobLimitGroupSeparator := "," |}.

(** A job as a client adds it: two retries, in the scheduler group the
    sample adapter places its requirements in. *)
Definition job (cmd : string) : Job :=
  {| RepGroup := "rep"; Cmd := cmd; Cwd := "/tmp"; CwdMatters := true;
     Requirements := {| scheduler.RAM := 100; scheduler.Time := 60;
                        scheduler.Cores := 1; scheduler.Disk := 0;
                        scheduler.Other := "" |};
     Priority := 0; Retries := 2; UntilBuried := 3; State := JobStateReady;
     ReservedBy := 0%N; Pid := 0; Host := ""; HostID := ""; HostIP := "";
     StartTime := None; EndTime := None; Exited := false; Exitcode := -1;
     PeakRAM := 0; PeakDisk := 0; CPUtime := 0; Walltime := 0;
     FailReason := ""; Attempts := 0; EnvKey := ""; schedulerGroup := "small";
     killCalled := false; Lost := false; incrementedLimitGroups := [];
     StdOutC := []; StdErrC := []; EnvC := []; EnvCRetrieved := false |}.

Definition key (cmd : string) : string := Key (job cmd).

Definition runner : UUID := 7%N.
Definition stranger : UUID := 8%N.

(** The job once [runner] reserved and started it. *)
Definition running (cmd : string) : Job :=
  set_State JobStateRunning
    (set_StartTime (Some 100)
      (set_Host "h1" (set_Pid 42 (set_ReservedBy runner (job cmd))))).

(** The job once its command failed, with [until] releases left. *)
Definition failing (cmd : string) (until : Z) : Job :=
  set_UntilBuried until (set_Exitcode 1 (set_Exited true (running cmd))).

Definition item (st : queue.ItemState) (j : Job) : queue.Item Job :=
  {| queue.Key := Key j; queue.ReserveGroup := schedulerGroup j;
     queue.Data := j; queue.Priority := Priority j; queue.Delay := 0;
     queue.TTR := ServerItemTTR; queue.State := st |}.

Definition item_x : queue.Item Job :=
  item queue.ItemStateRun (running "echo x").

Definition cmds : queue.Queue Job :=
  {| queue.Name := "cmds";
     queue.items := [ item_x;
                      item queue.ItemStateBury
                        (set_UntilBuried 0 (job "echo buried"));
                      item queue.ItemStateReady (job "echo ready") ] |}.

Definition ended (code : Z) : JobEndState :=
  {| ES_Exited := true; ES_Exitcode := code; ES_EndTime := Some 200;
     ES_PeakRAM := 50; ES_PeakDisk := 0; ES_CPUtime := 1;
     ES_Stdout := []; ES_Stderr := [] |}.

Definition secret : list Byte.byte := [x61; x62].
Definition guess : list Byte.byte := [x61; x63].

Definition request (method : string) (tok : list Byte.byte)
    (cmd : string) (keys : list string) (client : UUID) (group : string)
    (first : bool) : clientRequest :=
  {| cr_Method := method; cr_Token := tok; cr_Queue := "cmds";
     cr_Jobs := Some [job cmd]; cr_Job := Some (job cmd);
     cr_Keys := Some keys; cr_Env := Some [x50; x3d; x31];
     cr_ClientID := client; cr_SchedulerGroup := group;
     cr_FirstReserve := first; cr_Timeout := 5 * 1000000000;
     cr_JobEndState := ended 0; cr_IgnoreComplete := false |}.

Definition store (faults : list bool) : db.DB :=
  {| db.live := {[ key "echo x" := running "echo x" ]};
     db.complete := ∅; db.envs := ∅; db.stds := ∅; db.faults := faults |}.

Definition info : ServerInfo :=
  {| Addr := "10.0.0.1:11301"; SHost := "broker"; Port := "11301";
     PID := 1 |}.

Definition small : scheduler.Requirements := V2016.req_of (job "echo x").

(** A 2019 server holding [cmds]: draining or up, with or without a runner
    command, and with the given fates of its next database writes. *)
Definition server19 (draining : bool) (runnerCmd : string)
    (faults : list bool) : V2019.Server :=
  {| V2019.serverInfo := info;
     V2019.token := secret; V2019.up := negb draining;
     V2019.drain := draining; V2019.q := Some cmds;
     V2019.rpl := {[ "rep" := {[ key "echo x"; key "echo buried";
                                  key "echo ready" ]} ]};
     V2019.limiter := {| limiter.limits := {[ "lim" := 1 ]};
                         limiter.counts := ∅ |};
     V2019.scheduler := []; V2019.sgroupcounts := ∅;
     V2019.sgtr := ∅; V2019.rc := runnerCmd; V2019.db := store faults;
     V2019.killRunners := false; V2019.statusCaster := [] |}.

(** Stand-ins for the functions of the 2019 revision that other files
    declare; the decrement follows the 2016 body. *)
Definition decrement19 (s : V2019.Server) (group : string) : V2019.Server :=
  let c := int_sub (default 0 (V2019.sgroupcounts s !! group)) 1 in
  if c <=? 0 then
    V2019.set_sgtr (delete group (V2019.sgtr s))
      (V2019.set_sgroupcounts (delete group (V2019.sgroupcounts s)) s)
  else
    V2019.set_scheduler
      (scheduler.Schedule (V2019.scheduler s)
         (Sprintf (V2019.rc s) "cmds" group) (V2019.sgtr s !! group) c)
      (V2019.set_sgroupcounts (<[group := c]> (V2019.sgroupcounts s)) s).

Definition release19 (s : V2019.Server) (j : Job) (e : JobEndState)
    (reason : string) (force : bool) : V2019.Server * bool := (s, false).

Definition create19 (s : V2019.Server) (jobs : list Job) (envkey : string)
    (ignoreComplete : bool) : V2019.Server * (Z * Z * Z) * string * bool :=
  (s, (Z.of_nat (length jobs), 0, 0), "", false).

Definition rest19 (method : string) (s : V2019.Server) (cr : clientRequest)
    : V2019.Result := V2019.handled s None "".

Definition handle19 (s : V2019.Server) (cr : clientRequest)
    : V2019.Server * option serverResponse * list V2019.Task :=
  V2019.handleRequest decrement19 release19 create19 rest19 0 [] s cr.

(** A 2016 server whose queue "cmds" holds one running job that failed,
    with [until] releases left, and whose scheduler group counts [count]. *)
Definition failed_item (until : Z) : queue.Item Job :=
  item queue.ItemStateRun (failing "echo x" until).

Definition server16 (until count : Z) (faults : list bool) : V2016.Server :=
  {| V2016.serverInfo := info;
     V2016.qs := {[ "cmds" := {| queue.Name := "cmds";
                                 queue.items := [failed_item until] |} ]};
     V2016.rpl := {[ "rep" := {[ key "echo x" ]} ]};
     V2016.scheduler := [];
     V2016.sgroupcounts := {[ "small" := count ]};
     V2016.sgtr := {[ "small" := small ]};
     V2016.rc := "runner"; V2016.db := store faults |}.

Definition rest16 (method : string) (s : V2016.Server) (cr : clientRequest)
    : Handled V2016.Server := (s, None, "").

Definition handle16 (s : V2016.Server) (cr : clientRequest)
    : V2016.Server * serverResponse :=
  V2016.handleRequest rest16 0 s cr.

(** Named servers and requests: the 2019 server up, draining, without a
    runner command, and with a database that refuses its next write. *)
Definition up19 : V2019.Server := server19 false "runner" [].
Definition draining19 : V2019.Server := server19 true "runner" [].
Definition manual19 : V2019.Server := server19 false "" [].
Definition faulty19 : V2019.Server := server19 false "runner" [true].
Definition archive_x : clientRequest :=
  request "jarchive" secret "echo x" [] runner "" false.
Definition touch_by_stranger : clientRequest :=
  request "jtouch" secret "echo x" [] stranger "" false.
Definition kick_with_guess : clientRequest :=
  request "jkick" guess "echo x" [key "echo buried"] runner "" false.
Definition kick_some : clientRequest :=
  request "jkick" secret "echo x"
    [key "echo buried"; key "echo x"; "nope"; key "echo buried"] runner ""
    false.
Definition first_reserve : clientRequest :=
  request "reserve" secret "echo x" [] runner "small" true.
Definition later_reserve : clientRequest :=
  request "reserve" secret "echo x" [] runner "small" false.
Definition release_x : clientRequest :=
  request "jrelease" secret "echo x" [] runner "" false.
Definition add_x : clientRequest :=
  request "add" secret "echo new" [] runner "" false.

(** Further servers and requests: a 2019 server without queue; requests
    built around a job of their own; a queue in which a job of the group
    "big" has arrived; and a 2016 server holding a job that ended well and a
    buried one. *)
Definition closed19 : V2019.Server := V2019.set_q None up19.

Definition ping_with_guess : clientRequest :=
  request "ping" guess "echo x" [] runner "" false.

Definition reserve_by_nobody : clientRequest :=
  request "reserve" secret "echo x" [] 0%N "small" false.

Definition request_for (method : string) (j : Job) (client : UUID)
    : clientRequest :=
  {| cr_Method := method; cr_Token := secret; cr_Queue := "cmds";
     cr_Jobs := None; cr_Job := Some j; cr_Keys := None; cr_Env := None;
     cr_ClientID := client; cr_SchedulerGroup := "";
     cr_FirstReserve := false; cr_Timeout := 0;
     cr_JobEndState := ended 1; cr_IgnoreComplete := false |}.

Definition start_x : clientRequest :=
  request_for "jstart" (running "echo x") runner.

Definition touch_x : clientRequest :=
  request_for "jtouch" (job "echo x") runner.

Definition bury_x : clientRequest :=
  request_for "jbury" (set_FailReason "failed" (job "echo x")) runner.

Definition end_x : clientRequest :=
  request_for "jend" (set_Exitcode 2 (job "echo x")) runner.

Definition kick_buried : clientRequest :=
  request "jkick" secret "echo x" [key "echo buried"] runner "" false.

Definition delete_some : clientRequest :=
  request "jdel" secret "echo x" [key "echo buried"; key "echo x"; "nope"]
    runner "" false.

Definition add_without_jobs : clientRequest :=
  request_for "add" (job "echo x") runner.

Definition patient_reserve : clientRequest :=
  set_cr_Timeout 0 (request "reserve" secret "echo x" [] runner "big" false).

Definition arrival (s : V2019.Server) : V2019.Server :=
  V2019.put_q
    {| queue.Name := "cmds";
       queue.items :=
         [item queue.ItemStateReady
            (set_schedulerGroup "big" (job "echo big"))] |} s.

Definition done_item : queue.Item Job :=
  item queue.ItemStateRun
    (set_EndTime (Some 200)
       (set_Exitcode 0 (set_Exited true (running "echo x")))).

Definition held16 : V2016.Server :=
  {| V2016.serverInfo := info;
     V2016.qs :=
       {[ "cmds" := {| queue.Name := "cmds";
                       queue.items :=
                         [done_item;
                          item queue.ItemStateBury (job "echo buried")] |} ]};
     V2016.rpl := {[ "rep" := {[ key "echo x"; key "echo buried" ]} ]};
     V2016.scheduler := [];
     V2016.sgroupcounts := {[ "small" := 2 ]};
     V2016.sgtr := {[ "small" := small ]};
     V2016.rc := "runner"; V2016.db := store [] |}.

(** Integers standing in for [float64]. *)
Definition whole_numbers : Float64 :=
  {| float64 := Z; of_int := λ z, z; fadd := Z.add; fdiv := Z.div;
     is_positive := λ z, 0 <? z |}.








End Sample.

(** * Facts about the queue primitive and the limiter *)

Set Warnings "-clear-no-such-hyp".

Section queue_facts.
Context {D : Type}.
Implicit Types (q : queue.Queue D) (l : list (queue.Item D)) (i : queue.Item D) (k : string).

Lemma lookup_item_key k l i :
  queue.lookup_item k l = Some i → queue.Key i = k.
Proof.
  induction l as [|x l IH]; simpl; [done|].
  case_bool_decide; [naive_solver|done].
Qed.

Lemma lookup_alter_item (f : queue.Item D → queue.Item D) k k' l :
  (∀ i, queue.Key (f i) = queue.Key i) →
  queue.lookup_item k' (queue.alter_item f k l)
  = if bool_decide (k = k') then f <$> queue.lookup_item k' l
    else queue.lookup_item k' l.
Proof.
  intros Hf. induction l as [|x l IH]; simpl.
  - by case_bool_decide.
  - destruct (bool_decide (queue.Key x = k)) eqn:Hx; simpl.
    + apply bool_decide_eq_true in Hx. rewrite Hf.
      repeat case_bool_decide; simplify_eq; done.
    + apply bool_decide_eq_false in Hx. rewrite IH.
      repeat case_bool_decide; simplify_eq; done.
Qed.

Lemma lookup_alter_item_eq (f : queue.Item D → queue.Item D) k l :
  (∀ i, queue.Key (f i) = queue.Key i) →
  queue.lookup_item k (queue.alter_item f k l)
  = f <$> queue.lookup_item k l.
Proof.
  intros Hf. rewrite lookup_alter_item by done.
  by rewrite bool_decide_eq_true_2.
Qed.

Lemma lookup_alter_item_ne (f : queue.Item D → queue.Item D) k k' l :
  (∀ i, queue.Key (f i) = queue.Key i) → k ≠ k' →
  queue.lookup_item k' (queue.alter_item f k l) = queue.lookup_item k' l.
Proof.
  intros Hf Hne. rewrite lookup_alter_item by done.
  by rewrite bool_decide_eq_false_2.
Qed.

Lemma keys_alter_item (f : queue.Item D → queue.Item D) k l :
  (∀ i, queue.Key (f i) = queue.Key i) →
  queue.Key <$> queue.alter_item f k l = queue.Key <$> l.
Proof.
  intros Hf. induction l as [|x l IH]; [done|].
  cbn [queue.alter_item]. case_bool_decide; rewrite !fmap_cons.
  - by rewrite Hf.
  - by rewrite IH.
Qed.

Lemma lookup_set_State st k l :
  queue.lookup_item k (queue.alter_item (queue.set_State st) k l)
  = queue.set_State st <$> queue.lookup_item k l.
Proof. by apply lookup_alter_item_eq. Qed.

Lemma lookup_set_Delay d k l :
  queue.lookup_item k (queue.alter_item (queue.set_Delay d) k l)
  = queue.set_Delay d <$> queue.lookup_item k l.
Proof. by apply lookup_alter_item_eq. Qed.

Lemma lookup_update_data (f : D → D) k q :
  queue.lookup_item k (queue.items (queue.update_data f k q))
  = (λ i, queue.set_Data (f (queue.Data i)) i)
      <$> queue.lookup_item k (queue.items q).
Proof. unfold queue.update_data. simpl. by apply lookup_alter_item_eq. Qed.

Lemma lookup_SetDelay q k d :
  queue.lookup_item k (queue.items (queue.SetDelay q k d).1)
  = queue.set_Delay d <$> queue.lookup_item k (queue.items q).
Proof.
  unfold queue.SetDelay, queue.Get.
  destruct (queue.lookup_item k (queue.items q)) as [i|] eqn:Hl; simpl.
  - by rewrite lookup_set_Delay, Hl.
  - by rewrite Hl.
Qed.

Lemma StateOf_update_data (f : D → D) k q k' :
  queue.StateOf (queue.update_data f k q) k' = queue.StateOf q k'.
Proof.
  unfold queue.StateOf, queue.update_data. simpl.
  rewrite lookup_alter_item by done.
  case_bool_decide; [|done].
  by destruct (queue.lookup_item k' (queue.items q)).
Qed.

Lemma StateOf_lookup q k i :
  queue.lookup_item k (queue.items q) = Some i →
  queue.StateOf q k = queue.State i.
Proof. unfold queue.StateOf. by intros ->. Qed.

Lemma move_allowed allowed e to q k i :
  queue.lookup_item k (queue.items q) = Some i →
  allowed (queue.State i) = true →
  queue.move allowed e to q k
  = (queue.set_items
       (queue.alter_item (queue.set_State to) k (queue.items q)) q, None).
Proof. intros Hl Ha. unfold queue.move, queue.Get. by rewrite Hl, Ha. Qed.

Lemma SetDelay_found q k d i :
  queue.lookup_item k (queue.items q) = Some i →
  queue.SetDelay q k d
  = (queue.set_items
       (queue.alter_item (queue.set_Delay d) k (queue.items q)) q, None).
Proof. intros Hl. unfold queue.SetDelay, queue.Get. by rewrite Hl. Qed.

Lemma lookup_moved to k q :
  queue.lookup_item k
    (queue.items
       (queue.set_items
          (queue.alter_item (queue.set_State to) k (queue.items q)) q))
  = queue.set_State to <$> queue.lookup_item k (queue.items q).
Proof. simpl. apply lookup_set_State. Qed.

Lemma lookup_delayed d k q :
  queue.lookup_item k
    (queue.items
       (queue.set_items
          (queue.alter_item (queue.set_Delay d) k (queue.items q)) q))
  = queue.set_Delay d <$> queue.lookup_item k (queue.items q).
Proof. simpl. apply lookup_set_Delay. Qed.

Lemma Get_lookup q k i :
  queue.Get q k = inr i ↔ queue.lookup_item k (queue.items q) = Some i.
Proof.
  unfold queue.Get. destruct (queue.lookup_item k (queue.items q));
    split; congruence.
Qed.

Lemma lookup_update_data_ne (f : D → D) k k' q :
  k ≠ k' →
  queue.lookup_item k' (queue.items (queue.update_data f k q))
  = queue.lookup_item k' (queue.items q).
Proof.
  intros Hne. unfold queue.update_data. simpl.
  rewrite lookup_alter_item by done. by rewrite bool_decide_eq_false_2.
Qed.


Lemma lookup_remove_item_eq k l :
  NoDup (queue.Key <$> l) →
  queue.lookup_item k (queue.remove_item k l) = None.
Proof.
  induction l as [|x l IH]; simpl; intros Hnd; [done|].
  apply NoDup_cons in Hnd as [Hx Hnd].
  case_bool_decide as Hk; simpl.
  - subst k. destruct (queue.lookup_item (queue.Key x) l) as [i|] eqn:Hl;
      [|done].
    exfalso. apply Hx. pose proof (lookup_item_key _ _ _ Hl) as <-.
    apply list_elem_of_fmap_2. clear -Hl.
    induction l as [|y l IH]; simpl in Hl; [done|].
    case_bool_decide; simplify_eq; set_solver.
  - rewrite bool_decide_eq_false_2 by done. by apply IH.
Qed.

Lemma lookup_remove_item k k' l :
  k ≠ k' →
  queue.lookup_item k' (queue.remove_item k l) = queue.lookup_item k' l.
Proof.
  intros Hne. induction l as [|x l IH]; simpl; [done|].
  repeat (case_bool_decide; simpl); simplify_eq; done.
Qed.
End queue_facts.

Section queue_reserve_facts.
Context {D : Type}.
Implicit Types (l : list (queue.Item D)) (i : queue.Item D).

Lemma first_best_elem group cur l i :
  queue.first_best group cur l = Some i → cur = Some i ∨ i ∈ l.
Proof.
  revert cur. induction l as [|x l IH]; simpl; intros cur Hb; [by left|].
  destruct (queue.eligible group x).
  - destruct cur as [b|].
    + destruct (queue.Priority b <? queue.Priority x).
      * apply IH in Hb as [Hb | Hb]; [simplify_eq|]; right; set_solver.
      * apply IH in Hb as [Hb | Hb]; [by left|]. right; set_solver.
    + apply IH in Hb as [Hb | Hb]; [simplify_eq|]; right; set_solver.
  - apply IH in Hb as [Hb | Hb]; [by left|]. right; set_solver.
Qed.

Lemma lookup_item_NoDup l i :
  NoDup (queue.Key <$> l) → i ∈ l →
  queue.lookup_item (queue.Key i) l = Some i.
Proof.
  induction l as [|x l IH]; simpl; intros Hnd Hi; [by apply elem_of_nil in Hi|].
  apply NoDup_cons in Hnd as [Hx Hnd].
  apply elem_of_cons in Hi as [-> | Hi].
  - by rewrite bool_decide_eq_true_2.
  - rewrite bool_decide_eq_false_2; [by apply IH|].
    intros Heq. apply Hx. rewrite Heq. by apply list_elem_of_fmap_2.
Qed.
End queue_reserve_facts.

Section limiter_facts.
Implicit Types (l : limiter.Limiter) (g x : string) (gs : list string).

Lemma count_add_to d g l x :
  limiter.count (limiter.add_to d g l) x
  = limiter.count l x + (if bool_decide (g = x) then d else 0).
Proof.
  unfold limiter.count at 1, limiter.add_to. simpl.
  case_bool_decide as Hg.
  - subst. by rewrite lookup_insert_eq.
  - rewrite lookup_insert_ne by done. unfold limiter.count. lia.
Qed.

Lemma count_foldr_add_to d gs l x :
  limiter.count (foldr (limiter.add_to d) l gs) x
  = limiter.count l x + d * Z.of_nat (length (filter (λ g, g = x) gs)).
Proof.
  induction gs as [|g gs IH]; simpl; [lia|].
  rewrite count_add_to, IH, filter_cons.
  case_bool_decide; case_decide; simplify_eq; simpl; lia.
Qed.

Lemma Decrement_Increment l gs l' x :
  limiter.Increment l gs = (l', true) →
  limiter.count (limiter.Decrement l' gs) x = limiter.count l x.
Proof.
  unfold limiter.Increment, limiter.Decrement.
  destruct (forallb _ _); [|done]. intros [= <-].
  rewrite !count_foldr_add_to. lia.
Qed.

Lemma Increment_refused l gs l' :
  limiter.Increment l gs = (l', false) → l' = l.
Proof.
  unfold limiter.Increment. destruct (forallb _ _); congruence.
Qed.
End limiter_facts.

(** * The dispatcher of 2019 *)

Lemma wrap_int_id z : int_min <= z <= int_max → wrap_int z = z.
Proof.
  unfold wrap_int, int_min, int_max. intros Hz.
  rewrite Z.mod_small; lia.
Qed.

Ltac pick_case :=
  repeat first
    [ rewrite bool_decide_eq_true_2 by reflexivity
    | rewrite bool_decide_eq_false_2 by discriminate ].

Section V2019_properties.
Context `{Externals}.
Variable decrementGroupCount : V2019.Server → string → V2019.Server.
Variable releaseJob :
  V2019.Server → Job → JobEndState → string → bool → V2019.Server * bool.
Variable createJobs :
  V2019.Server → list Job → string → bool
  → V2019.Server * (Z * Z * Z) * string * bool.
Variable rest : string → V2019.Server → clientRequest → V2019.Result.

Abbreviation handle :=
  (V2019.handle decrementGroupCount releaseJob createJobs rest).
Abbreviation dispatch :=
  (V2019.dispatch decrementGroupCount releaseJob createJobs rest).
Abbreviation handleRequest :=
  (V2019.handleRequest decrementGroupCount releaseJob createJobs rest).

Lemma handle_open now ticks s q0 cr :
  V2019.token_ok s cr = true → gate_open s q0 →
  handle now ticks s cr = dispatch now ticks (V2019.drain s) s q0 cr.
Proof.
  intros Htok [Hq Hup]. unfold V2019.handle. rewrite Htok, Hq. simpl.
  destruct (V2019.up s), (V2019.drain s); simpl in *; done.
Qed.

Lemma handleRequest_handled now ticks s cr s' r e :
  handle now ticks s cr = V2019.handled s' r e →
  handleRequest now ticks s cr = (s', Some (reply_of r e), []).
Proof. intros Hh. unfold V2019.handleRequest. by rewrite Hh. Qed.

Lemma with_ij_rejects s q0 cr body i j e :
  V2019.getij q0 cr = (i, j, e) → e ≠ "" →
  V2019.with_ij s q0 cr body = V2019.handled s None e.
Proof.
  intros Hg He. unfold V2019.with_ij. rewrite Hg.
  by rewrite bool_decide_eq_false_2.
Qed.

Lemma dispatch_getij now ticks d s q0 cr i j e :
  cr_Method cr ∈ ["jstart"; "jtouch"; "jarchive"; "jrelease"; "jbury"] →
  V2019.getij q0 cr = (i, j, e) → e ≠ "" →
  dispatch now ticks d s q0 cr = V2019.handled s None e.
Proof.
  intros Hm Hg He. unfold V2019.dispatch.
  repeat (apply elem_of_cons in Hm as [-> | Hm]);
    [.. | by apply elem_of_nil in Hm];
    pick_case; eapply with_ij_rejects; eauto.
Qed.

(** C9.  A jstart, jtouch, jarchive, jrelease or jbury request that passes
    the token check and the gate is rejected before anything is changed:
    without a Job it gets ErrBadRequest; with a job whose key is not in the
    queue, or whose item is not in the run sub-queue, ErrBadJob; with a
    ClientID other than the job's ReservedBy, ErrMustReserve.  The state
    after the request, queue and jobs included, is the state before it. *)
Theorem getij_rejects_without_mutation now ticks s q0 cr :
  V2019.token_ok s cr = true → gate_open s q0 →
  cr_Method cr ∈ ["jstart"; "jtouch"; "jarchive"; "jrelease"; "jbury"] →
  (cr_Job cr = None →
     handleRequest now ticks s cr
     = (s, Some (errResponse ErrBadRequest), []))
  ∧ (∀ rj, cr_Job cr = Some rj →
       ((∃ e, queue.Get q0 (Key rj) = inl e)
        ∨ ∃ item, queue.Get q0 (Key rj) = inr item
                  ∧ queue.State item ≠ queue.ItemStateRun) →
       handleRequest now ticks s cr
       = (s, Some (errResponse ErrBadJob), []))
  ∧ (∀ rj item, cr_Job cr = Some rj →
       queue.Get q0 (Key rj) = inr item →
       queue.State item = queue.ItemStateRun →
       cr_ClientID cr ≠ ReservedBy (queue.Data item) →
       handleRequest now ticks s cr
       = (s, Some (errResponse ErrMustReserve), [])).
Proof.
  intros Htok Hgate Hm.
  assert (Hrej : ∀ i j e, V2019.getij q0 cr = (i, j, e) → e ≠ "" →
            handleRequest now ticks s cr = (s, Some (errResponse e), [])).
  { intros i j e Hg He.
    rewrite (handleRequest_handled now ticks s cr s None e).
    - unfold reply_of. by rewrite bool_decide_eq_false_2.
    - rewrite (handle_open _ _ _ q0) by done. by eapply dispatch_getij. }
  split; [|split].
  - intros Hj. eapply Hrej; [|discriminate].
    unfold V2019.getij. by rewrite Hj.
  - intros rj Hj [[e Hg] | (item & Hg & Hst)].
    + eapply Hrej; [|discriminate].
      unfold V2019.getij. by rewrite Hj, Hg.
    + eapply Hrej; [|discriminate].
      unfold V2019.getij. rewrite Hj, Hg.
      by rewrite bool_decide_eq_true_2.
  - intros rj item Hj Hg Hst Hid. eapply Hrej; [|discriminate].
    unfold V2019.getij. rewrite Hj, Hg.
    rewrite bool_decide_eq_false_2 by (by rewrite Hst; intros []).
    by rewrite bool_decide_eq_true_2.
Qed.

(** C5.  A request whose method is not ping and whose token has not the
    expected length or differs from the server's gets exactly
    {Err: ErrPermissionDenied}, and the state is left as it was.  A ping is
    answered the same whatever token it carries, and with the server's info
    whenever the gate is open. *)
Theorem token_check now ticks s cr :
  (cr_Method cr ≠ "ping" →
     length (cr_Token cr) ≠ tokenLength ∨ cr_Token cr ≠ V2019.token s →
     handleRequest now ticks s cr
     = (s, Some (errResponse ErrPermissionDenied), []))
  ∧ (cr_Method cr = "ping" →
       (∀ tok, handleRequest now ticks s (set_cr_Token tok cr)
               = handleRequest now ticks s cr)
       ∧ (∀ q0, gate_open s q0 →
            handleRequest now ticks s cr
            = (s, Some (sinfoResponse (V2019.serverInfo s)), []))).
Proof.
  split.
  - intros Hm Htok.
    apply (handleRequest_handled _ _ _ _ s None ErrPermissionDenied).
    unfold V2019.handle.
    assert (V2019.token_ok s cr = false) as ->.
    { unfold V2019.token_ok, V2019.tokenMatches.
      destruct Htok as [Hlen | Hne].
      - by rewrite (bool_decide_eq_false_2 _ Hlen).
      - rewrite (bool_decide_eq_false_2 _ Hne). apply andb_false_r. }
    by rewrite bool_decide_eq_true_2.
  - intros Hm.
    assert (Hping : ∀ cr', cr_Method cr' = "ping" →
              handle now ticks s cr'
              = match V2019.q s with
                | None => V2019.handled s None ErrClosedStop
                | Some _ =>
                    if negb (V2019.up s) && negb (V2019.drain s)
                    then V2019.handled s None ErrClosedStop
                    else V2019.handled s
                           (Some (sinfoResponse (V2019.serverInfo s))) ""
                end).
    { intros cr' Hm'. unfold V2019.handle, V2019.dispatch. rewrite Hm'.
      rewrite (bool_decide_eq_false_2 ("ping" ≠ "ping")) by (intros ?; done).
      rewrite andb_false_r. by pick_case. }
    split.
    + intros tok. unfold V2019.handleRequest.
      by rewrite !Hping.
    + intros q0 [Hq Hup]. unfold V2019.handleRequest.
      rewrite Hping by done. rewrite Hq.
      destruct (V2019.up s), (V2019.drain s); simpl in *; done.
Qed.

(** C6.  While the server drains, a reserve request with a non-zero
    ClientID gets the empty reply (no Job, no error) and leaves the whole
    state as it was, ready items included; a request of any other method
    runs the case it runs on a server that does not drain. *)
Theorem drain_refuses_reserve_only now ticks s q0 cr :
  V2019.drain s = true → V2019.q s = Some q0 →
  V2019.token_ok s cr = true →
  (cr_Method cr = "reserve" → cr_ClientID cr ≠ 0%N →
     handleRequest now ticks s cr = (s, Some emptyResponse, []))
  ∧ (cr_Method cr ≠ "reserve" →
       handle now ticks s cr = dispatch now ticks false s q0 cr).
Proof.
  intros Hdrain Hq Htok.
  assert (Hgate : gate_open s q0).
  { split; [done|]. rewrite Hdrain. apply orb_true_r. }
  rewrite (handle_open _ _ _ q0) by done. rewrite Hdrain.
  split.
  - intros Hm Hid. apply (handleRequest_handled _ _ _ _ s None "").
    rewrite (handle_open _ _ _ q0) by done. rewrite Hdrain.
    unfold V2019.dispatch. rewrite Hm. pick_case.
    unfold V2019.reserve, uuid_is_nil.
    by rewrite (proj2 (N.eqb_neq _ _) Hid).
  - intros Hm. unfold V2019.dispatch.
    by rewrite (bool_decide_eq_false_2 _ Hm).
Qed.

Lemma Reserve_inr (q0 q1 : queue.Queue Job) group i :
  queue.Reserve q0 group = (q1, inr i) →
  ∃ i0, i0 ∈ queue.items q0 ∧ i = queue.set_State queue.ItemStateRun i0
        ∧ q1 = queue.set_items
                 (queue.alter_item (queue.set_State queue.ItemStateRun)
                    (queue.Key i0) (queue.items q0)) q0.
Proof.
  unfold queue.Reserve.
  destruct (queue.first_best _ _ _) as [i0|] eqn:Hb; [|done].
  intros [= <- <-]. exists i0. split; [|done].
  by apply first_best_elem in Hb as [? | ?].
Qed.

(** C10.  [reserveWithLimits] for a scheduler group that carries limit
    groups: when the limiter refuses the increment, the answer is
    ErrNothingReady and the state is untouched; when no item comes back, the
    groups that were incremented are decremented and every count of the
    limiter is what it was; when an item comes back, the limiter holds the
    increment and the groups are noted on the item's job, also on the copy
    the queue holds. *)
Theorem reserveWithLimits_keeps_limiter_even s q0 g s' item err :
  V2019.schedGroupToLimitGroups g ≠ [] →
  V2019.reserveWithLimits s q0 [g] = (s', item, err) →
  let groups := V2019.schedGroupToLimitGroups g in
  let incremented := limiter.Increment (V2019.limiter s) groups in
  (incremented.2 = false →
     s' = s ∧ item = None ∧ err = Some queue.ErrNothingReady)
  ∧ (item = None →
       (incremented.2 = true →
          V2019.limiter s' = limiter.Decrement incremented.1 groups)
       ∧ ∀ x, limiter.count (V2019.limiter s') x
              = limiter.count (V2019.limiter s) x)
  ∧ (∀ i, item = Some i →
       incremented.2 = true
       ∧ V2019.limiter s' = incremented.1
       ∧ incrementedLimitGroups (queue.Data i) = groups
       ∧ (NoDup (queue.Key <$> queue.items q0) →
            ∃ q1, V2019.q s' = Some q1
                  ∧ queue.lookup_item (queue.Key i) (queue.items q1)
                    = Some i)).
Proof.
  intros Hgroups Hres groups incremented. subst incremented.
  unfold V2019.reserveWithLimits in Hres. fold groups in Hres.
  rewrite (bool_decide_eq_true_2 _ Hgroups) in Hres.
  destruct (limiter.Increment (V2019.limiter s) groups) as [lim ok] eqn:Hinc.
  destruct ok; simpl in *.
  - destruct (queue.Reserve q0 (Some g)) as [q1 [e | i]] eqn:Hq;
      simpl in Hres; injection Hres as <- <- <-.
    + split; [done|]. split; [|done]. intros _. split; [done|].
      intros x. simpl. by eapply Decrement_Increment.
    + split; [done|]. split; [done|]. intros i' [= <-].
      split; [done|]. split; [done|]. split; [done|].
      intros Hnd. eexists. split; [done|]. simpl.
      apply Reserve_inr in Hq as (i0 & Hi0 & -> & ->). simpl.
      rewrite !lookup_alter_item by done.
      rewrite !bool_decide_eq_true_2 by done.
      by rewrite (lookup_item_NoDup _ _ Hnd Hi0).
  - injection Hres as <- <- <-. split; [done|]. split; [|done].
    intros _. split; [done|]. done.
Qed.

Lemma reserveWithLimits_item s q0 group s1 item e :
  V2019.reserveWithLimits s q0 group = (s1, Some item, e) →
  is_Some (V2019.q s1).
Proof.
  unfold V2019.reserveWithLimits.
  destruct (if bool_decide _ then _ else _) as [lim ok].
  destruct ok; simpl; [|done].
  destruct (queue.Reserve _ _) as [q1 [err | i]]; simpl;
    case_bool_decide; intros [= <- ? ?]; simplify_eq; simpl; eauto.
Qed.

Lemma give_item_reply s1 cr item :
  is_Some (V2019.q s1) →
  ∃ s' job,
    V2019.give_item s1 cr item
    = V2019.handled s' (Some (jobResponse job)) ""
    ∧ ReservedBy job = cr_ClientID cr.
Proof.
  intros [q1 Hq]. unfold V2019.give_item. rewrite Hq.
  do 2 eexists. split; [done|].
  unfold V2019.itemToJob, V2019.jobPopulateStdEnv. simpl.
  rewrite lookup_SetDelay, lookup_update_data.
  by destruct (queue.lookup_item _ (queue.items q1)).
Qed.

Lemma reserveWithLimits_holds s q0 group s1 item e :
  V2019.reserveWithLimits s q0 group = (s1, Some item, e) →
  NoDup (queue.Key <$> queue.items q0) →
  ∃ q1, V2019.q s1 = Some q1
        ∧ queue.lookup_item (queue.Key item) (queue.items q1) = Some item
        ∧ queue.State item = queue.ItemStateRun
        ∧ (∀ k, k ≠ queue.Key item →
             queue.lookup_item k (queue.items q1)
             = queue.lookup_item k (queue.items q0))
        ∧ V2019.db s1 = V2019.db s.
Proof.
  unfold V2019.reserveWithLimits. intros Hres Hnd.
  destruct (if bool_decide _ then _ else _) as [lim ok].
  destruct ok; simpl in Hres; [|done].
  destruct (queue.Reserve _ _) as [q1 [err | i]] eqn:Hq; simpl in Hres;
    case_bool_decide; simplify_eq.
  all: apply Reserve_inr in Hq as (i0 & Hi0 & -> & ->).
  all: eexists; split; [done|]; simpl.
  all: rewrite ?lookup_alter_item by done.
  all: rewrite ?bool_decide_eq_true_2 by done.
  all: rewrite (lookup_item_NoDup _ _ Hnd Hi0); simpl.
  all: split; [done|]; split; [done|]; split; [|done].
  all: intros k Hk; rewrite ?lookup_alter_item by done.
  all: by rewrite ?bool_decide_eq_false_2 by done.
Qed.




Lemma rejected_when (job : Job) :
  negb (Exited job) || bool_decide (Exitcode job ≠ 0)
  || IsZero (StartTime job) || IsZero (EndTime job)
  = negb (exit_ok job).
Proof.
  unfold exit_ok.
  destruct (Exited job), (IsZero (StartTime job)), (IsZero (EndTime job));
    simpl; repeat case_bool_decide; simpl; try done; lia.
Qed.

Lemma handle_jarchive now ticks s q0 cr rj item :
  V2019.token_ok s cr = true → gate_open s q0 →
  cr_Method cr = "jarchive" → cr_Job cr = Some rj →
  queue.Get q0 (Key rj) = inr item →
  queue.State item = queue.ItemStateRun →
  cr_ClientID cr = ReservedBy (queue.Data item) →
  handle now ticks s cr
  = V2019.jarchive_found s q0 cr item (queue.Data item).
Proof.
  intros Htok Hgate Hm Hj Hg Hst Hid.
  rewrite (handle_open _ _ _ q0) by done.
  unfold V2019.dispatch. rewrite Hm. pick_case.
  unfold V2019.jarchive, V2019.with_ij, V2019.getij.
  rewrite Hj, Hg.
  rewrite bool_decide_eq_false_2 by (by rewrite Hst; intros Hn; apply Hn).
  rewrite bool_decide_eq_false_2 by (by intros Hn; apply Hn).
  by pick_case.
Qed.



Lemma set_db_same s : V2019.set_db (V2019.db s) s = s.
Proof. by destruct s. Qed.

Lemma set_db_twice d d' s :
  V2019.set_db d (V2019.set_db d' s) = V2019.set_db d s.
Proof. done. Qed.

Lemma buried_keys_snoc q0 ks k :
  buried_keys q0 (ks ++ [k])
  = if decide (queue.StateOf q0 k = queue.ItemStateBury)
    then buried_keys q0 ks ∪ {[k]} else buried_keys q0 ks.
Proof.
  unfold buried_keys. rewrite filter_app, list_to_set_app_L.
  rewrite filter_cons, filter_nil.
  case_decide; simpl; set_solver.
Qed.

Lemma buried_keys_elem q0 ks k :
  k ∈ buried_keys q0 ks
  ↔ k ∈ ks ∧ queue.StateOf q0 k = queue.ItemStateBury.
Proof.
  unfold buried_keys. rewrite elem_of_list_to_set, list_elem_of_filter.
  tauto.
Qed.

Lemma buried_keys_size q0 ks :
  (size (buried_keys q0 ks) ≤ length ks)%nat.
Proof.
  induction ks as [|k ks IH] using rev_ind; [done|].
  rewrite buried_keys_snoc, length_app. simpl.
  case_decide; [|lia].
  destruct (decide (k ∈ buried_keys q0 ks)) as [Hin | Hout].
  - replace (buried_keys q0 ks ∪ {[k]}) with (buried_keys q0 ks)
      by set_solver. lia.
  - rewrite size_union by set_solver. rewrite size_singleton. lia.
Qed.

Lemma kick_loop s q0 keys :
  Z.of_nat (length keys) <= int_max →
  ∃ d q1,
    foldl V2019.kick_one (s, q0, 0) keys
    = (V2019.set_db d s, q1, Z.of_nat (size (buried_keys q0 keys)))
    ∧ ∀ k, queue.lookup_item k (queue.items q1)
           = if decide (k ∈ buried_keys q0 keys)
             then kicked_item <$> queue.lookup_item k (queue.items q0)
             else queue.lookup_item k (queue.items q0).
Proof.
  induction keys as [|k ks IH] using rev_ind; intros Hlen.
  - exists (V2019.db s), q0. by rewrite set_db_same.
  - rewrite length_app in Hlen. simpl in Hlen.
    destruct IH as (d & q1 & Hfold & Hq1); [lia|].
    rewrite foldl_app, Hfold. simpl.
    rewrite buried_keys_snoc.
    unfold V2019.kick_one, queue.Get. rewrite (Hq1 k).
    destruct (decide (k ∈ buried_keys q0 ks)) as [Hin | Hout].
    + apply buried_keys_elem in Hin as Hb. destruct Hb as [_ Hb].
      rewrite decide_True by done.
      unfold queue.StateOf in Hb.
      destruct (queue.lookup_item k (queue.items q0)) as [i|]; [|done].
      simpl. exists d, q1. split.
      * by replace (buried_keys q0 ks ∪ {[k]}) with (buried_keys q0 ks)
          by set_solver.
      * intros k'. rewrite Hq1.
        destruct (decide (k' ∈ buried_keys q0 ks)).
        -- rewrite decide_True by set_solver. done.
        -- rewrite decide_False by set_solver. done.
    + unfold queue.StateOf.
      destruct (queue.lookup_item k (queue.items q0)) as [i|] eqn:Hl.
      * destruct (decide (queue.State i = queue.ItemStateBury)) as [Hb|Hb].
        -- rewrite bool_decide_eq_false_2 by (intros Hn; by apply Hn).
           unfold queue.Kick, queue.move, queue.Get.
           rewrite (Hq1 k), decide_False by done. rewrite Hl.
           rewrite (bool_decide_eq_true_2 _ Hb).
           eexists _, _. split.
           ++ rewrite set_db_twice. f_equal.
              rewrite size_union by set_solver. rewrite size_singleton.
              pose proof (buried_keys_size q0 ks).
              unfold int_add. rewrite wrap_int_id; unfold int_min; lia.
           ++ intros k'. destruct (decide (k = k')) as [<- | Hne].
              ** rewrite decide_True by set_solver.
                 rewrite lookup_update_data. simpl.
                 by rewrite lookup_set_State, (Hq1 k), decide_False, Hl.
              ** rewrite lookup_update_data_ne by done. simpl.
                 rewrite lookup_alter_item_ne by done. rewrite Hq1.
                 destruct (decide (k' ∈ buried_keys q0 ks)).
                 --- rewrite decide_True by set_solver. done.
                 --- rewrite decide_False by set_solver. done.
        -- rewrite bool_decide_eq_true_2 by done.
           exists d, q1. split; [done|]. done.
      * exists d, q1. split; [done|]. done.
Qed.

(** The 2019 jrelease hands the job, the end state and the fail reason to
    [releaseJob]: whatever that does, the request's Timeout plays no part. *)
Lemma jrelease_ignores_timeout now ticks s cr timeout :
  cr_Method cr = "jrelease" →
  handleRequest now ticks s (set_cr_Timeout timeout cr)
  = handleRequest now ticks s cr.
Proof.
  intros Hm. unfold V2019.handleRequest, V2019.handle, V2019.dispatch.
  simpl. rewrite Hm. by pick_case.
Qed.

(** C8.  A jkick request with a list of keys kicks exactly the keys of the
    list whose item is in the bury sub-queue: each such item is in the ready
    sub-queue afterwards and its job's UntilBuried is Retries + 1 (in Go's
    int arithmetic); every other item of the queue is as it was; and the
    reply's count is the number of keys kicked. *)
Theorem jkick_kicks_the_buried now ticks s q0 cr keys :
  V2019.token_ok s cr = true → gate_open s q0 →
  cr_Method cr = "jkick" → cr_Keys cr = Some keys →
  Z.of_nat (length keys) <= int_max →
  let kicked := buried_keys q0 keys in
  ∃ s' q',
    handleRequest now ticks s cr
    = (s', Some (existedResponse (Z.of_nat (size kicked))), [])
    ∧ V2019.q s' = Some q'
    ∧ (∀ k, k ∈ kicked ↔ k ∈ keys ∧ queue.StateOf q0 k = queue.ItemStateBury)
    ∧ (∀ k, k ∈ kicked →
         ∃ item,
           queue.lookup_item k (queue.items q0) = Some item
           ∧ queue.lookup_item k (queue.items q') = Some (kicked_item item)
           ∧ queue.StateOf q' k = queue.ItemStateReady
           ∧ UntilBuried (queue.Data (kicked_item item))
             = int_add (Retries (queue.Data item)) 1
           ∧ (int_min <= Retries (queue.Data item) < int_max →
                UntilBuried (queue.Data (kicked_item item))
                = Retries (queue.Data item) + 1))
    ∧ (∀ k, k ∉ kicked →
         queue.lookup_item k (queue.items q')
         = queue.lookup_item k (queue.items q0)).
Proof.
  intros Htok Hgate Hm Hkeys Hlen kicked.
  destruct (kick_loop s q0 keys Hlen) as (d & q1 & Hfold & Hq1).
  exists (V2019.put_q q1 (V2019.set_db d s)), q1. split; [|split; [done|]].
  - apply (handleRequest_handled _ _ _ _ _
             (Some (existedResponse (Z.of_nat (size kicked)))) "").
    rewrite (handle_open _ _ _ q0) by done.
    unfold V2019.dispatch. rewrite Hm. pick_case.
    unfold V2019.jkick. by rewrite Hkeys, Hfold.
  - split; [apply buried_keys_elem|]. split.
    + intros k Hk. pose proof (Hq1 k) as Hlk.
      rewrite decide_True in Hlk by done.
      apply buried_keys_elem in Hk as [_ Hb]. unfold queue.StateOf in Hb.
      destruct (queue.lookup_item k (queue.items q0)) as [i|] eqn:Hl;
        [|done].
      exists i. split; [done|]. split; [done|].
      split; [by rewrite (StateOf_lookup _ _ _ Hlk)|].
      split; [done|]. intros Hr. simpl. unfold int_add.
      apply wrap_int_id. unfold int_min, int_max in *. lia.
    + intros k Hk. by rewrite Hq1, decide_False.
Qed.
(** ** The gate and the other cases of the 2019 switch *)

Lemma with_ij_found s q0 cr body rj item :
  cr_Job cr = Some rj → queue.Get q0 (Key rj) = inr item →
  queue.State item = queue.ItemStateRun →
  cr_ClientID cr = ReservedBy (queue.Data item) →
  V2019.with_ij s q0 cr body = body item (queue.Data item) rj.
Proof.
  intros Hj Hg Hst Hid. unfold V2019.with_ij, V2019.getij.
  rewrite Hj, Hg.
  rewrite bool_decide_eq_false_2 by (by rewrite Hst; intros Hn; apply Hn).
  rewrite bool_decide_eq_false_2 by (by intros Hn; apply Hn).
  by pick_case.
Qed.

(** A server without queue, or neither up nor draining, answers
    ErrClosedStop to every request that passes the token check and to every
    ping, whatever its token; nothing is changed and nothing is started. *)
Theorem stopped_server_refuses now ticks s cr :
  V2019.q s = None ∨ V2019.up s || V2019.drain s = false →
  V2019.token_ok s cr = true ∨ cr_Method cr = "ping" →
  handleRequest now ticks s cr = (s, Some (errResponse ErrClosedStop), []).
Proof.
  intros Hstopped Hpass.
  apply (handleRequest_handled _ _ _ _ _ None ErrClosedStop).
  unfold V2019.handle.
  assert (Hin : negb (V2019.token_ok s cr)
                && bool_decide (cr_Method cr ≠ "ping") = false).
  { destruct Hpass as [-> | ->]; [done|].
    rewrite (bool_decide_eq_false_2 ("ping" ≠ "ping"))
      by (intros Hn; by apply Hn).
    apply andb_false_r. }
  rewrite Hin. destruct (V2019.q s) as [q0|]; [|done].
  destruct Hstopped as [? | Hdown]; [done|].
  apply orb_false_iff in Hdown as [-> ->]. done.
Qed.

(** A reserve request with the nil ClientID is a bad request, also while
    the server drains: nothing is reserved and nothing changes. *)
Theorem reserve_needs_a_client now ticks s q0 cr :
  V2019.token_ok s cr = true → gate_open s q0 →
  cr_Method cr = "reserve" → cr_ClientID cr = 0%N →
  handleRequest now ticks s cr = (s, Some (errResponse ErrBadRequest), []).
Proof.
  intros Htok Hgate Hm Hid.
  apply (handleRequest_handled _ _ _ _ _ None ErrBadRequest).
  rewrite (handle_open _ _ _ q0) by done.
  unfold V2019.dispatch. rewrite Hm. pick_case.
  unfold V2019.reserve. by rewrite Hid.
Qed.

Lemma handle_with_ij now ticks s q0 cr rj item method body :
  V2019.token_ok s cr = true → gate_open s q0 →
  cr_Method cr = method → cr_Job cr = Some rj →
  queue.Get q0 (Key rj) = inr item →
  queue.State item = queue.ItemStateRun →
  cr_ClientID cr = ReservedBy (queue.Data item) →
  dispatch now ticks (V2019.drain s) s q0 cr = V2019.with_ij s q0 cr body →
  handle now ticks s cr = body item (queue.Data item) rj.
Proof.
  intros Htok Hgate Hm Hj Hg Hst Hid Hd.
  rewrite (handle_open _ _ _ q0) by done.
  rewrite Hd. by apply with_ij_found.
Qed.

(** A jstart request for a job the client holds.  Without a positive Pid or
    without a Host it is a bad request and nothing changes.  Otherwise the
    job, still in the run sub-queue, records the request's Pid, Host and
    HostIP, the scheduler's id of the host, the start time and no end time,
    one more attempt and the running state, and is neither lost nor to be
    killed; the other items are untouched, and when the database takes the
    write its live row is the job. *)
Theorem jstart_records_the_start now ticks s q0 cr rj item :
  V2019.token_ok s cr = true → gate_open s q0 →
  cr_Method cr = "jstart" → cr_Job cr = Some rj →
  queue.Get q0 (Key rj) = inr item →
  queue.State item = queue.ItemStateRun →
  cr_ClientID cr = ReservedBy (queue.Data item) →
  (Pid rj <= 0 ∨ Host rj = "" →
     handleRequest now ticks s cr
     = (s, Some (errResponse ErrBadRequest), []))
  ∧ (0 < Pid rj → Host rj ≠ "" →
     ∃ s' q' item',
       handleRequest now ticks s cr = (s', Some emptyResponse, [])
       ∧ V2019.q s' = Some q'
       ∧ queue.Get q' (Key rj) = inr item'
       ∧ queue.State item' = queue.ItemStateRun
       ∧ Pid (queue.Data item') = Pid rj
       ∧ Host (queue.Data item') = Host rj
       ∧ HostIP (queue.Data item') = HostIP rj
       ∧ HostID (queue.Data item') = HostToID (Host rj)
       ∧ StartTime (queue.Data item') = Some now
       ∧ EndTime (queue.Data item') = None
       ∧ Attempts (queue.Data item')
         = int_add (Attempts (queue.Data item)) 1
       ∧ killCalled (queue.Data item') = false
       ∧ Lost (queue.Data item') = false
       ∧ State (queue.Data item') = JobStateRunning
       ∧ ReservedBy (queue.Data item') = ReservedBy (queue.Data item)
       ∧ UntilBuried (queue.Data item') = UntilBuried (queue.Data item)
       ∧ (∀ k, k ≠ Key rj →
            queue.lookup_item k (queue.items q')
            = queue.lookup_item k (queue.items q0))
       ∧ ((db.next_write (V2019.db s)).1 = false →
            db.live (V2019.db s') !! Key (queue.Data item')
            = Some (queue.Data item'))
       ∧ V2019.rpl s' = V2019.rpl s
       ∧ V2019.sgroupcounts s' = V2019.sgroupcounts s
       ∧ V2019.limiter s' = V2019.limiter s).
Proof.
  intros Htok Hgate Hm Hj Hg Hst Hid.
  assert (Hh : ∀ body,
             dispatch now ticks (V2019.drain s) s q0 cr
             = V2019.with_ij s q0 cr body →
             handle now ticks s cr = body item (queue.Data item) rj).
  { intros body. by apply handle_with_ij with "jstart". }
  assert (Hd : dispatch now ticks (V2019.drain s) s q0 cr
               = V2019.jstart now s q0 cr).
  { unfold V2019.dispatch. rewrite Hm. by pick_case. }
  apply Get_lookup in Hg as Hl.
  pose proof (lookup_item_key _ _ _ Hl) as Hkey.
  split.
  - intros Hbad.
    apply (handleRequest_handled _ _ _ _ _ None ErrBadRequest).
    rewrite (Hh _ Hd).
    destruct Hbad as [Hpid | Hhost].
    + by rewrite (bool_decide_eq_true_2 _ Hpid).
    + rewrite (bool_decide_eq_true_2 _ Hhost). by rewrite orb_true_r.
  - intros Hpid Hhost.
    unfold V2019.handleRequest. rewrite (Hh _ Hd).
    rewrite (bool_decide_eq_false_2 (Pid rj <= 0)) by lia.
    rewrite (bool_decide_eq_false_2 _ Hhost). cbn [orb].
    cbn [Host set_Host].
    rewrite (bool_decide_eq_true_2 _ Hhost).
    set (job := set_State _ _).
    cbn [V2019.handled V2019.server V2019.answered V2019.sr V2019.srerr
         V2019.tasks].
    eexists _, _, (queue.set_Data job item).
    split; [reflexivity|]. split; [reflexivity|].
    split; [apply Get_lookup; rewrite Hkey;
            by rewrite lookup_update_data, Hl|].
    split; [done|]. do 12 (split; [done|]).
    split; [intros k Hk; rewrite Hkey;
            by rewrite lookup_update_data_ne|].
    split; [|done].
    intros Hw. unfold db.updateJobAfterChange.
    destruct (db.next_write (V2019.db s)) as [failed d] eqn:Hnw.
    simpl in Hw. subst failed. simpl. by rewrite lookup_insert_eq.
Qed.

Lemma set_State_same {D} (i : queue.Item D) :
  queue.set_State (queue.State i) i = i.
Proof. by destruct i. Qed.

(** A jtouch request for a job the client holds.  When the job's kill was
    called, or the server is set to kill all runners, the reply says so and
    nothing is touched.  Otherwise the reply says no kill, the item stays in
    the run sub-queue and the other items are untouched; a job that was
    lost is no longer lost, has no end time, and the transition from lost to
    running is sent out twice, for all jobs and for the job's RepGroup. *)
Theorem jtouch_reports_kill now ticks s q0 cr rj item :
  V2019.token_ok s cr = true → gate_open s q0 →
  cr_Method cr = "jtouch" → cr_Job cr = Some rj →
  queue.Get q0 (Key rj) = inr item →
  queue.State item = queue.ItemStateRun →
  cr_ClientID cr = ReservedBy (queue.Data item) →
  (killCalled (queue.Data item) = true ∨ V2019.killRunners s = true →
     handleRequest now ticks s cr
     = (s, Some (killCalledResponse true), []))
  ∧ (killCalled (queue.Data item) = false → V2019.killRunners s = false →
     ∃ s' q',
       handleRequest now ticks s cr
       = (s', Some (killCalledResponse false), [])
       ∧ V2019.q s' = Some q'
       ∧ (∀ k, k ≠ Key rj →
            queue.lookup_item k (queue.items q')
            = queue.lookup_item k (queue.items q0))
       ∧ V2019.db s' = V2019.db s
       ∧ (Lost (queue.Data item) = false →
            queue.lookup_item (Key rj) (queue.items q') = Some item
            ∧ V2019.statusCaster s' = V2019.statusCaster s)
       ∧ (Lost (queue.Data item) = true →
            queue.lookup_item (Key rj) (queue.items q')
            = Some (queue.set_Data
                      (set_EndTime None
                         (set_Lost false (queue.Data item))) item)
            ∧ V2019.statusCaster s'
              = V2019.statusCaster s
                ++ [ {| V2019.CountRepGroup := "+all+";
                        V2019.FromState := JobStateLost;
                        V2019.ToState := JobStateRunning;
                        V2019.Count := 1 |};
                     {| V2019.CountRepGroup :=
                          RepGroup (queue.Data item);
                        V2019.FromState := JobStateLost;
                        V2019.ToState := JobStateRunning;
                        V2019.Count := 1 |} ])).
Proof.
  intros Htok Hgate Hm Hj Hg Hst Hid.
  assert (Hh : ∀ body,
             dispatch now ticks (V2019.drain s) s q0 cr
             = V2019.with_ij s q0 cr body →
             handle now ticks s cr = body item (queue.Data item) rj).
  { intros body. by apply handle_with_ij with "jtouch". }
  assert (Hd : dispatch now ticks (V2019.drain s) s q0 cr
               = V2019.jtouch s q0 cr).
  { unfold V2019.dispatch. rewrite Hm. by pick_case. }
  apply Get_lookup in Hg as Hl.
  pose proof (lookup_item_key _ _ _ Hl) as Hkey.
  split.
  - intros Hkill.
    apply (handleRequest_handled _ _ _ _ _
             (Some (killCalledResponse true)) "").
    rewrite (Hh _ Hd).
    destruct Hkill as [-> | ->]; [done|]. by rewrite orb_true_r.
  - intros Hk Hkr. unfold V2019.handleRequest. rewrite (Hh _ Hd).
    rewrite Hk, Hkr. cbn [orb]. rewrite Hkey. unfold queue.Touch.
    rewrite (move_allowed _ _ _ _ _ _ Hl)
      by (by rewrite Hst, bool_decide_eq_true_2).
    destruct (Lost (queue.Data item)) eqn:Hlost.
    + eexists _, _. split; [reflexivity|]. split; [reflexivity|].
      split.
      { intros k Hne. rewrite lookup_update_data_ne by done. simpl.
        by rewrite lookup_alter_item_ne. }
      split; [done|]. split; [done|]. intros _. split; [|done].
      rewrite lookup_update_data. simpl.
      rewrite lookup_set_State, Hl. simpl.
      by rewrite <- Hst, set_State_same.
    + eexists _, _. split; [reflexivity|]. split; [reflexivity|].
      split.
      { intros k Hne. simpl. by rewrite lookup_alter_item_ne. }
      split; [done|]. split; [|done]. intros _. split; [|done].
      simpl. rewrite lookup_set_State, Hl. simpl.
      by rewrite <- Hst, set_State_same.
Qed.

(** A jbury request for a job the client holds never fails: the item moves
    from the run to the bury sub-queue, its job is in the buried state with
    the request's FailReason, the other items are untouched; then, before
    the reply and not in a goroutine, the count of the job's scheduler group
    is decremented and the job's row is written. *)
Theorem jbury_buries_and_decrements now ticks s q0 cr rj item :
  V2019.token_ok s cr = true → gate_open s q0 →
  cr_Method cr = "jbury" → cr_Job cr = Some rj →
  queue.Get q0 (Key rj) = inr item →
  queue.State item = queue.ItemStateRun →
  cr_ClientID cr = ReservedBy (queue.Data item) →
  ∃ s1 q1 item',
    V2019.q s1 = Some q1
    ∧ queue.Get q1 (Key rj) = inr item'
    ∧ queue.State item' = queue.ItemStateBury
    ∧ State (queue.Data item') = JobStateBuried
    ∧ FailReason (queue.Data item') = FailReason rj
    ∧ schedulerGroup (queue.Data item') = schedulerGroup (queue.Data item)
    ∧ UntilBuried (queue.Data item') = UntilBuried (queue.Data item)
    ∧ (∀ k, k ≠ Key rj →
         queue.lookup_item k (queue.items q1)
         = queue.lookup_item k (queue.items q0))
    ∧ V2019.db s1 = V2019.db s ∧ V2019.rpl s1 = V2019.rpl s
    ∧ V2019.sgroupcounts s1 = V2019.sgroupcounts s
    ∧ handleRequest now ticks s cr
      = (let s2 := decrementGroupCount s1
                     (schedulerGroup (queue.Data item)) in
         V2019.set_db
           (db.updateJobAfterExit (V2019.db s2) (queue.Data item')).1 s2,
         Some emptyResponse, []).
Proof.
  intros Htok Hgate Hm Hj Hg Hst Hid.
  assert (Hd : dispatch now ticks (V2019.drain s) s q0 cr
               = V2019.jbury decrementGroupCount s q0 cr).
  { unfold V2019.dispatch. rewrite Hm. by pick_case. }
  apply Get_lookup in Hg as Hl.
  pose proof (lookup_item_key _ _ _ Hl) as Hkey.
  unfold V2019.handleRequest.
  rewrite (handle_with_ij _ _ _ _ _ _ _ _ _ Htok Hgate Hm Hj Hg Hst Hid Hd).
  unfold updateAfterExit. rewrite Hkey.
  set (job := set_State JobStateBuried _).
  assert (Hl1 : queue.lookup_item (Key rj)
                  (queue.items
                     (queue.update_data (λ _, job) (Key rj) q0))
                = Some (queue.set_Data job item))
    by (by rewrite lookup_update_data, Hl).
  unfold queue.Bury.
  rewrite (move_allowed _ _ _ _ _ _ Hl1)
    by (simpl; by rewrite Hst).
  set (q1 := queue.set_items _ _).
  exists (V2019.set_limiter
            (limiter.Decrement (V2019.limiter s)
               (incrementedLimitGroups (queue.Data item)))
            (V2019.put_q q1 s)), q1,
         (queue.set_State queue.ItemStateBury (queue.set_Data job item)).
  split; [reflexivity|].
  split; [apply Get_lookup; subst q1; by rewrite lookup_moved, Hl1|].
  do 5 (split; [done|]).
  split.
  { intros k Hne. simpl. rewrite lookup_alter_item_ne by done.
    by rewrite lookup_alter_item_ne. }
  do 3 (split; [done|]).
  change (schedulerGroup job) with (schedulerGroup (queue.Data item)).
  cbn [V2019.handled V2019.server V2019.answered V2019.sr V2019.srerr
       V2019.tasks queue.Data queue.set_State queue.set_Data].
  reflexivity.
Qed.

(** A reserve request that gets an item at its first attempt: the item is
    in the run sub-queue with the client release delay, and its job is owned
    by the client and cleaned of an earlier run's Pid, Host, times, peaks and
    exit; the client gets a copy of that job with the environment filled in
    from the database and no output, and never in the running state. *)
Theorem reserve_gives_a_fresh_job now ticks s q0 cr s1 item :
  V2019.token_ok s cr = true → gate_open s q0 → V2019.drain s = false →
  cr_Method cr = "reserve" → cr_ClientID cr ≠ 0%N →
  NoDup (queue.Key <$> queue.items q0) →
  V2019.first_attempt s q0 cr = (s1, Some item, None) →
  ∃ s' q' item' job,
    handleRequest now ticks s cr = (s', Some (jobResponse job), [])
    ∧ V2019.q s' = Some q'
    ∧ queue.lookup_item (queue.Key item) (queue.items q') = Some item'
    ∧ queue.State item' = queue.ItemStateRun
    ∧ queue.Delay item' = ClientReleaseDelay
    ∧ fresh_for (cr_ClientID cr) (queue.Data item')
    ∧ fresh_for (cr_ClientID cr) job
    ∧ Cmd job = Cmd (queue.Data item)
    ∧ Cmd (queue.Data item') = Cmd (queue.Data item)
    ∧ Attempts job = Attempts (queue.Data item)
    ∧ UntilBuried job = UntilBuried (queue.Data item)
    ∧ EnvCRetrieved job = true
    ∧ EnvC job = db.retrieveEnv (V2019.db s) (EnvKey (queue.Data item))
    ∧ StdOutC job = [] ∧ StdErrC job = []
    ∧ State job
      = V2019.itemStateToJobState queue.ItemStateRun
          (Lost (queue.Data item))
    ∧ State job ≠ JobStateRunning
    ∧ V2019.db s' = V2019.db s.
Proof.
  intros Htok Hgate Hdrain Hm Hid Hnd Hfa.
  assert (Hh : handle now ticks s cr = V2019.reserve ticks false s q0 cr).
  { rewrite (handle_open _ _ _ q0) by done. rewrite Hdrain.
    unfold V2019.dispatch. rewrite Hm. by pick_case. }
  assert (Hnil : uuid_is_nil (cr_ClientID cr) = false).
  { unfold uuid_is_nil. by apply N.eqb_neq. }
  assert (Hres : ∃ group,
             V2019.reserveWithLimits s q0 group = (s1, Some item, None)).
  { unfold V2019.first_attempt in Hfa.
    destruct (bool_decide (cr_SchedulerGroup cr ≠ "")); [|by eexists].
    destruct (V2019.skip_first_reserve s cr); [done|by eexists]. }
  destruct Hres as [group Hres].
  destruct (reserveWithLimits_holds _ _ _ _ _ _ Hres Hnd)
    as (q1 & Hq1 & Hl1 & Hrun & _ & Hdb).
  unfold V2019.handleRequest. rewrite Hh. unfold V2019.reserve.
  rewrite Hnil. cbn [negb]. rewrite Hfa. cbn iota.
  unfold V2019.give_item. rewrite Hq1.
  rewrite lookup_SetDelay, lookup_update_data, Hl1.
  cbn [fmap option_fmap option_map default].
  eexists _, _, _, _. split; [reflexivity|]. split; [reflexivity|].
  split; [by rewrite lookup_SetDelay, lookup_update_data, Hl1|].
  split; [done|]. split; [done|].
  split; [by repeat split|]. split; [by repeat split|].
  do 5 (split; [done|]).
  split; [simpl; by rewrite Hdb|].
  do 2 (split; [done|]).
  assert (Hstate : ∀ s2 i2,
            queue.State i2 = queue.ItemStateRun →
            StartTime (queue.Data i2) = None →
            State (V2019.itemToJob s2 i2 false true)
            = V2019.itemStateToJobState queue.ItemStateRun
                (Lost (queue.Data i2))).
  { intros s2 i2 Hst Hstart. simpl. rewrite Hst, Hstart. simpl.
    by rewrite andb_false_r. }
  rewrite Hstate by done.
  split; [done|]. split; [|done].
  unfold V2019.itemStateToJobState. simpl.
  by destruct (Lost (queue.Data item)).
Qed.

(** Unlike the other j* methods, jkick does not ask who reserved the jobs:
    the request's ClientID plays no part in what it does. *)
Theorem jkick_ignores_the_client now ticks s cr cid :
  cr_Method cr = "jkick" →
  handleRequest now ticks s (set_cr_ClientID cid cr)
  = handleRequest now ticks s cr.
Proof.
  intros Hm. unfold V2019.handleRequest, V2019.handle, V2019.dispatch.
  simpl. rewrite Hm. by pick_case.
Qed.

Lemma kick_none s q0 n keys :
  (∀ k, k ∈ keys → queue.StateOf q0 k ≠ queue.ItemStateBury) →
  foldl V2019.kick_one (s, q0, n) keys = (s, q0, n).
Proof.
  induction keys as [|k ks IH]; intros Hnone; [done|].
  cbn [foldl]. assert (V2019.kick_one (s, q0, n) k = (s, q0, n)) as ->.
  { pose proof (Hnone k ltac:(set_solver)) as Hk.
    unfold V2019.kick_one, queue.Get. unfold queue.StateOf in Hk.
    destruct (queue.lookup_item k (queue.items q0)); [|done].
    by rewrite (bool_decide_eq_true_2 _ Hk). }
  apply IH. intros k' Hk'. apply Hnone. set_solver.
Qed.

(** A jkick request repeated on the state the first one left kicks nothing:
    its count is 0 and the state stays as it is. *)
Theorem jkick_again_kicks_nothing now ticks now' ticks' s q0 cr keys :
  V2019.token_ok s cr = true → gate_open s q0 →
  cr_Method cr = "jkick" → cr_Keys cr = Some keys →
  Z.of_nat (length keys) <= int_max →
  let s' := (handleRequest now ticks s cr).1.1 in
  handleRequest now' ticks' s' cr = (s', Some (existedResponse 0), []).
Proof.
  intros Htok Hgate Hm Hkeys Hlen s'.
  destruct (kick_loop s q0 keys Hlen) as (d & q1 & Hfold & Hq1).
  assert (Hs' : s' = V2019.put_q q1 (V2019.set_db d s)).
  { subst s'. unfold V2019.handleRequest.
    rewrite (handle_open _ _ _ q0) by done.
    unfold V2019.dispatch. rewrite Hm. pick_case.
    unfold V2019.jkick. by rewrite Hkeys, Hfold. }
  rewrite Hs'.
  apply (handleRequest_handled _ _ _ _ _ (Some (existedResponse 0)) "").
  rewrite (handle_open _ _ _ q1);
    [|done|by destruct Hgate as [_ Hup]; split].
  unfold V2019.dispatch. rewrite Hm. pick_case.
  unfold V2019.jkick. rewrite Hkeys, kick_none; [done|].
  intros k Hk. unfold queue.StateOf. rewrite Hq1.
  destruct (decide (k ∈ buried_keys q0 keys)) as [Hin | Hout].
  - apply buried_keys_elem in Hin as [_ Hb]. unfold queue.StateOf in Hb.
    by destruct (queue.lookup_item k (queue.items q0)).
  - intros Hb. apply Hout. by apply buried_keys_elem.
Qed.

Lemma jarchive_leaves s q0 cr rj item now ticks :
  V2019.token_ok s cr = true → gate_open s q0 →
  cr_Method cr = "jarchive" → cr_Job cr = Some rj →
  queue.Get q0 (Key rj) = inr item →
  queue.State item = queue.ItemStateRun →
  cr_ClientID cr = ReservedBy (queue.Data item) →
  exit_ok (updateAfterExit (cr_JobEndState cr) (V2019.limiter s)
             (queue.Data item)).1 = true →
  (db.next_write (V2019.db s)).1 = false →
  Key (queue.Data item) = Key rj →
  NoDup (queue.Key <$> queue.items q0) →
  ∃ s' q' t,
    handle now ticks s cr
    = {| V2019.server := s'; V2019.sr := None; V2019.srerr := "";
         V2019.tasks := t; V2019.answered := true |}
    ∧ V2019.q s' = Some q'
    ∧ queue.Get q' (Key rj) = inl queue.ErrNotFound
    ∧ V2019.token s' = V2019.token s
    ∧ V2019.up s' = V2019.up s ∧ V2019.drain s' = V2019.drain s.
Proof.
  intros Htok Hgate Hm Hj Hg Hst Hid Hok Hwrite Hwf Hnd.
  pose proof (handle_jarchive now ticks s q0 cr rj item
                Htok Hgate Hm Hj Hg Hst Hid) as Hh.
  apply Get_lookup in Hg as Hl.
  pose proof (lookup_item_key _ _ _ Hl) as Hkey.
  assert (Hrun : ∀ f,
    bool_decide (queue.StateOf (queue.update_data f (Key rj) q0)
                   (Key rj) = queue.ItemStateRun) = true).
  { intros f. apply bool_decide_eq_true_2.
    rewrite StateOf_update_data.
    by rewrite (StateOf_lookup _ _ _ Hl). }
  unfold V2019.jarchive_found in Hh. rewrite Hkey in Hh.
  destruct (updateAfterExit (cr_JobEndState cr) (V2019.limiter s)
              (queue.Data item)) as [job lim] eqn:Hup.
  assert (Hjk : Key job = Key rj).
  { rewrite <- Hwf. unfold updateAfterExit in Hup. by simplify_eq. }
  rewrite Hrun, rejected_when in Hh. simpl in Hok. rewrite Hok in Hh.
  simpl in Hh. unfold db.archiveJob in Hh.
  destruct (db.next_write (V2019.db s)) as [failed d] eqn:Hw.
  simpl in Hwrite. subst failed.
  change (Key (set_FailReason "" (set_State JobStateComplete job)))
    with (Key job) in Hh.
  rewrite Hjk in Hh.
  unfold queue.Remove, queue.Get in Hh.
  rewrite !lookup_update_data, Hl in Hh. simpl in Hh.
  eexists _, _, _. split; [exact Hh|]. simpl. split; [done|].
  split; [|done].
  unfold queue.Get. simpl. rewrite lookup_remove_item_eq; [done|].
  by rewrite !keys_alter_item.
Qed.

(** Once a jarchive request has archived a job, any further jstart, jtouch,
    jarchive, jrelease or jbury request for that job is refused with
    ErrBadJob and changes nothing: a job is archived once. *)
Theorem archived_job_is_gone now ticks now' ticks' s q0 cr rj item cr' rj' :
  V2019.token_ok s cr = true → gate_open s q0 →
  cr_Method cr = "jarchive" → cr_Job cr = Some rj →
  queue.Get q0 (Key rj) = inr item →
  queue.State item = queue.ItemStateRun →
  cr_ClientID cr = ReservedBy (queue.Data item) →
  exit_ok (updateAfterExit (cr_JobEndState cr) (V2019.limiter s)
             (queue.Data item)).1 = true →
  (db.next_write (V2019.db s)).1 = false →
  Key (queue.Data item) = Key rj →
  NoDup (queue.Key <$> queue.items q0) →
  V2019.token_ok s cr' = true →
  cr_Method cr' ∈ ["jstart"; "jtouch"; "jarchive"; "jrelease"; "jbury"] →
  cr_Job cr' = Some rj' → Key rj' = Key rj →
  let s' := (handleRequest now ticks s cr).1.1 in
  (handleRequest now ticks s cr).1.2 = Some emptyResponse
  ∧ handleRequest now' ticks' s' cr'
    = (s', Some (errResponse ErrBadJob), []).
Proof.
  intros Htok Hgate Hm Hj Hg Hst Hid Hok Hwrite Hwf Hnd Htok' Hm' Hj' Hk'.
  destruct (jarchive_leaves s q0 cr rj item now ticks)
    as (s1 & q1 & t & Hh & Hq1 & Hgone & Htoken & Hup & Hdrain); try done.
  unfold V2019.handleRequest at 1 2. rewrite Hh. simpl.
  split; [done|].
  apply (handleRequest_handled _ _ _ _ _ None ErrBadJob).
  rewrite (handle_open _ _ _ q1).
  - apply (dispatch_getij _ _ _ _ _ _ None None); [done| |done].
    unfold V2019.getij. by rewrite Hj', Hk', Hgone.
  - unfold V2019.token_ok in *. by rewrite Htoken.
  - destruct Hgate as [_ Hgate]. split; [done|]. by rewrite Hup, Hdrain.
Qed.

(** [reserveWithLimits] for a call that encodes no limit groups (no group,
    or a group without limit-group suffix) never touches the limiter: it is
    the queue's Reserve and nothing else. *)
Theorem reserveWithLimits_without_limit_groups s q0 group :
  (∀ g, group = [g] → V2019.schedGroupToLimitGroups g = []) →
  let r := queue.Reserve q0
             (match group with [g] => Some g | _ => None end) in
  V2019.reserveWithLimits s q0 group
  = (V2019.put_q r.1 s,
     match r.2 with inr i => Some i | inl _ => None end,
     match r.2 with inr _ => None | inl e => Some e end).
Proof.
  intros Hnone r. subst r. unfold V2019.reserveWithLimits.
  assert (match group with
          | [g] => V2019.schedGroupToLimitGroups g
          | _ => []
          end = []) as ->.
  { destruct group as [|g [|]]; [done| |done]. by apply Hnone. }
  rewrite bool_decide_eq_false_2 by (intros Hn; by apply Hn).
  cbn [negb]. destruct (queue.Reserve q0 _) as [q1 reserved].
  by destruct s.
Qed.

(** An add request.  Without Env or without Jobs it is a bad request and
    nothing changes.  When the environment cannot be stored the reply is
    ErrDBError and the jobs are never created.  Otherwise the jobs are
    created under the key of the stored environment, and the reply counts
    the new jobs as Added and the duplicates together with the jobs already
    complete as Existed. *)
Theorem add_stores_the_environment_first now ticks s q0 cr :
  V2019.token_ok s cr = true → gate_open s q0 → cr_Method cr = "add" →
  (cr_Env cr = None ∨ cr_Jobs cr = None →
     handleRequest now ticks s cr
     = (s, Some (errResponse ErrBadRequest), []))
  ∧ (∀ env jobs,
       cr_Env cr = Some env → cr_Jobs cr = Some jobs →
       (db.next_write (V2019.db s)).1 = true →
       handleRequest now ticks s cr
       = (V2019.set_db (db.next_write (V2019.db s)).2 s,
          Some (errResponse ErrDBError), []))
  ∧ (∀ env jobs s2 added dups alreadyComplete e,
       cr_Env cr = Some env → cr_Jobs cr = Some jobs →
       (db.next_write (V2019.db s)).1 = false →
       createJobs (V2019.set_db (db.storeEnv (V2019.db s) env).1.1 s)
         jobs (envKey env) (cr_IgnoreComplete cr)
       = (s2, (added, dups, alreadyComplete), e, false) →
       db.envs (db.storeEnv (V2019.db s) env).1.1 !! envKey env = Some env
       ∧ handleRequest now ticks s cr
         = (s2, Some (addedResponse added (int_add dups alreadyComplete)),
            [])).
Proof.
  intros Htok Hgate Hm.
  assert (Hh : handle now ticks s cr = V2019.add createJobs s cr).
  { rewrite (handle_open _ _ _ q0) by done.
    unfold V2019.dispatch. rewrite Hm. by pick_case. }
  split; [|split].
  - intros Hnil.
    apply (handleRequest_handled _ _ _ _ _ None ErrBadRequest).
    rewrite Hh. unfold V2019.add.
    destruct Hnil as [-> | ->]; [done|]. by destruct (cr_Env cr).
  - intros env jobs Henv Hjobs Hfail.
    apply (handleRequest_handled _ _ _ _ _ None ErrDBError).
    rewrite Hh. unfold V2019.add, db.storeEnv. rewrite Henv, Hjobs.
    destruct (db.next_write (V2019.db s)) as [failed d].
    simpl in Hfail. by subst failed.
  - intros env jobs s2 added dups alreadyComplete e Henv Hjobs Hwrite.
    unfold db.storeEnv.
    destruct (db.next_write (V2019.db s)) as [failed d] eqn:Hw.
    simpl in Hwrite. subst failed. simpl. intros Hcreate.
    split; [by rewrite lookup_insert_eq|].
    apply (handleRequest_handled _ _ _ _ _
             (Some (addedResponse added (int_add dups alreadyComplete)))
             "").
    rewrite Hh. unfold V2019.add, db.storeEnv. rewrite Henv, Hjobs, Hw.
    simpl. by rewrite Hcreate.
Qed.

(** The state of the job that [itemToJob] hands out follows the item's
    sub-queue: unknown when the table has no entry for it; for the reserved
    entry, lost when the job is lost, else running once the job has a start
    time and reserved before; any other entry as it is.  The copy never
    carries the fields the server keeps for itself. *)
Theorem itemToJob_state s item getStd getEnv :
  let job := V2019.itemToJob s item getStd getEnv in
  let sjob := queue.Data item in
  let entry := V2019.itemsStateToJobState (queue.State item) in
  (entry = None → State job = JobStateUnknown)
  ∧ (entry = Some JobStateReserved → Lost sjob = true →
       State job = JobStateLost)
  ∧ (entry = Some JobStateReserved → Lost sjob = false →
       State job = if IsZero (StartTime sjob) then JobStateReserved
                   else JobStateRunning)
  ∧ (∀ st, entry = Some st → st ≠ JobStateReserved → State job = st)
  ∧ schedulerGroup job = "" ∧ killCalled job = false ∧ Lost job = false
  ∧ incrementedLimitGroups job = []
  ∧ Cmd job = Cmd sjob ∧ ReservedBy job = ReservedBy sjob
  ∧ EnvCRetrieved job = getEnv.
Proof.
  intros job sjob entry.
  assert (Hstate : State job
                   = let state := V2019.itemStateToJobState
                                    (queue.State item) (Lost sjob) in
                     if bool_decide (state = JobStateReserved)
                        && negb (IsZero (StartTime sjob))
                     then JobStateRunning else state).
  { subst job. unfold V2019.itemToJob, V2019.jobPopulateStdEnv.
    by destruct getStd, getEnv, (_ || _). }
  assert (Hrest : schedulerGroup job = "" ∧ killCalled job = false
                  ∧ Lost job = false ∧ incrementedLimitGroups job = []
                  ∧ Cmd job = Cmd sjob ∧ ReservedBy job = ReservedBy sjob
                  ∧ EnvCRetrieved job = getEnv).
  { subst job. unfold V2019.itemToJob, V2019.jobPopulateStdEnv.
    by destruct getStd, getEnv, (_ || _). }
  rewrite Hstate. unfold V2019.itemStateToJobState. fold entry. clear Hstate.
  split; [by intros ->|]. split; [by intros -> ->|].
  split; [intros -> ->; simpl; by destruct (IsZero _)|].
  split; [|done].
  intros st -> Hst. simpl.
  rewrite (bool_decide_eq_false_2 _ Hst). simpl.
  by rewrite (bool_decide_eq_false_2 _ Hst).
Qed.

Lemma reserveWithLimits_no_error s q0 group s1 item :
  V2019.reserveWithLimits s q0 group = (s1, item, None) → is_Some item.
Proof.
  unfold V2019.reserveWithLimits.
  destruct (if bool_decide _ then _ else _) as [lim ok].
  destruct ok; simpl; [|done].
  destruct (queue.Reserve _ _) as [q1 [err | i]]; simpl;
    case_bool_decide; intros ?; simplify_eq; eauto.
Qed.

Lemma poll_untimed_answer ticks group s s' ie :
  V2019.poll ticks false group s = (s', Some ie) →
  is_Some (V2019.ie_item ie) ∨ V2019.ie_err ie ≠ "".
Proof.
  revert s. induction ticks as [|others ticks IH]; intros s; simpl; [done|].
  destruct (V2019.q (others s)) as [q1|]; [|done].
  destruct (V2019.reserveWithLimits _ _ _) as [[s1 itemr] err] eqn:Hres.
  destruct err as [[]|].
  - intros [= <- <-]. by right.
  - apply IH.
  - intros [= <- <-]. by right.
  - intros [= <- <-]. by right.
  - intros [= <- <-]. by right.
  - intros [= <- <-]. left. simpl.
    by eapply reserveWithLimits_no_error.
Qed.

(** A reserve request without a positive Timeout that finds nothing ready
    at its first attempt is never answered with the empty reply: whenever it
    is answered, the reply carries a job or an error.  Until then it
    waits. *)
Theorem reserve_without_timeout_waits now ticks s q0 cr s1 item s' reply t :
  V2019.token_ok s cr = true → gate_open s q0 → V2019.drain s = false →
  cr_Method cr = "reserve" → cr_ClientID cr ≠ 0%N →
  cr_Timeout cr <= 0 →
  V2019.first_attempt s q0 cr = (s1, item, Some queue.ErrNothingReady) →
  handleRequest now ticks s cr = (s', Some reply, t) →
  is_Some (sr_Job reply) ∨ sr_Err reply ≠ "".
Proof.
  intros Htok Hgate Hdrain Hm Hid Htime Hfa.
  assert (Hh : handle now ticks s cr = V2019.reserve ticks false s q0 cr).
  { rewrite (handle_open _ _ _ q0) by done. rewrite Hdrain.
    unfold V2019.dispatch. rewrite Hm. by pick_case. }
  assert (Hnil : uuid_is_nil (cr_ClientID cr) = false).
  { unfold uuid_is_nil. by apply N.eqb_neq. }
  unfold V2019.handleRequest. rewrite Hh. unfold V2019.reserve.
  rewrite Hnil. cbn [negb]. rewrite Hfa. cbn iota.
  rewrite (proj2 (Z.ltb_ge 0 (cr_Timeout cr))) by done.
  destruct (V2019.poll _ _ _ _) as [s2 [ie|]] eqn:Hpoll; [|done].
  apply poll_untimed_answer in Hpoll.
  case_bool_decide as Herr.
  - destruct Hpoll as [[i Hi] | Hn]; [|done]. rewrite Hi.
    unfold V2019.give_item.
    destruct (V2019.q s2); simpl; intros [= <- <- <-].
    + left. by eexists.
    + right. discriminate.
  - simpl. intros [= <- <- <-]. right.
    unfold reply_of. by rewrite (bool_decide_eq_false_2 _ Herr).
Qed.

(** The jrelease case once [getij] found the job: the handler copies the
    request job's output into the end state and leaves everything else to
    [releaseJob]; the request's Timeout is not looked at. *)
Lemma jrelease_hands_over now ticks s q0 cr rj item :
  V2019.token_ok s cr = true → gate_open s q0 →
  cr_Method cr = "jrelease" → cr_Job cr = Some rj →
  queue.Get q0 (Key rj) = inr item →
  queue.State item = queue.ItemStateRun →
  cr_ClientID cr = ReservedBy (queue.Data item) →
  let endState :=
    set_ES_Stderr (StdErrC rj)
      (set_ES_Stdout (StdOutC rj) (cr_JobEndState cr)) in
  let released :=
    releaseJob s (queue.Data item) endState (FailReason rj) true in
  handleRequest now ticks s cr
  = (released.1,
     Some (reply_of None (if released.2 then ErrInternalError else "")),
     [])
  ∧ ∀ timeout,
      handleRequest now ticks s (set_cr_Timeout timeout cr)
      = handleRequest now ticks s cr.
Proof.
  intros Htok Hgate Hm Hj Hg Hst Hid endState released. split.
  - apply handleRequest_handled.
    rewrite (handle_open _ _ _ q0) by done.
    unfold V2019.dispatch. rewrite Hm. pick_case.
    unfold V2019.jrelease, V2019.with_ij, V2019.getij.
    rewrite Hj, Hg.
    rewrite bool_decide_eq_false_2 by (by rewrite Hst; intros Hn; apply Hn).
    rewrite bool_decide_eq_false_2 by (by intros Hn; apply Hn).
    pick_case. fold endState released.
    by destruct released as [s' failed].
  - intros timeout.
    unfold V2019.handleRequest, V2019.handle, V2019.dispatch.
    simpl. rewrite Hm. by pick_case.
Qed.

End V2019_properties.

(** * The server of 2016 *)

Section V2016_properties.
Context `{Externals}.
Variable rest : string → V2016.Server → clientRequest → Handled V2016.Server.

Lemma the_queue_put name q s :
  V2016.the_queue (V2016.put_queue name q s) name = q.
Proof. unfold V2016.the_queue, V2016.put_queue. simpl. by rewrite lookup_insert_eq. Qed.

Lemma the_queue_put_ne name name' q s :
  name ≠ name' →
  V2016.the_queue (V2016.put_queue name q s) name' = V2016.the_queue s name'.
Proof.
  intros Hne. unfold V2016.the_queue, V2016.put_queue. simpl.
  by rewrite lookup_insert_ne.
Qed.

Lemma the_queue_made s name name' :
  V2016.the_queue (V2016.put_queue name (V2016.the_queue s name) s) name'
  = V2016.the_queue s name'.
Proof.
  destruct (decide (name = name')) as [<- | Hne].
  - apply the_queue_put.
  - by apply the_queue_put_ne.
Qed.

Lemma getij_found cr q rj item :
  cr_Job cr = Some rj →
  queue.Get q (Key rj) = inr item →
  queue.State item = queue.ItemStateRun →
  cr_ClientID cr = ReservedBy (queue.Data item) →
  V2016.getij cr q = (Some item, Some (queue.Data item), "").
Proof.
  intros Hj Hg Hst Hid. unfold V2016.getij. rewrite Hj, Hg.
  by rewrite !bool_decide_eq_true_2.
Qed.

(** The jrelease case of the 2016 revision, once [getij] found the job in
    the run sub-queue, owned by the client: UntilBuried goes down by one
    exactly when the job exited with a non-zero code; then the item is
    buried when UntilBuried is 0 or less, and else its delay is the
    request's Timeout and it is in the delay sub-queue. *)
Lemma jrelease_2016 now s cr rj item :
  cr_Method cr = "jrelease" → cr_Job cr = Some rj →
  queue.Get (V2016.the_queue s (cr_Queue cr)) (Key rj) = inr item →
  queue.State item = queue.ItemStateRun →
  cr_ClientID cr = ReservedBy (queue.Data item) →
  let job := queue.Data item in
  let failed := Exited job && bool_decide (Exitcode job ≠ 0) in
  let until :=
    if failed then int_sub (UntilBuried job) 1 else UntilBuried job in
  ∃ s' item',
    V2016.handleRequest rest now s cr = (s', emptyResponse)
    ∧ queue.Get (V2016.the_queue s' (cr_Queue cr)) (Key rj) = inr item'
    ∧ UntilBuried (queue.Data item') = until
    ∧ FailReason (queue.Data item') = FailReason rj
    ∧ (failed = true → int_min < UntilBuried job <= int_max →
         until = UntilBuried job - 1)
    ∧ (until <= 0 →
         queue.State item' = queue.ItemStateBury
         ∧ queue.Delay item' = queue.Delay item)
    ∧ (0 < until →
         queue.State item' = queue.ItemStateDelay
         ∧ queue.Delay item' = cr_Timeout cr).
Proof.
  intros Hm Hj Hg Hst Hid job failed until.
  unfold V2016.handleRequest, V2016.dispatch. simpl. rewrite Hm. pick_case.
  unfold V2016.jrelease, V2016.with_ij. rewrite !the_queue_made.
  rewrite (getij_found cr _ rj item) by done. pick_case. rewrite Hj.
  apply Get_lookup in Hg as Hl.
  pose proof (lookup_item_key _ _ _ Hl) as Hkey. rewrite Hkey.
  set (q := V2016.the_queue s (cr_Queue cr)) in *.
  set (job1 := set_FailReason (FailReason rj) (queue.Data item)).
  change (Exited job1 && bool_decide (Exitcode job1 ≠ 0)) with failed.
  set (job2 := if failed then _ else job1).
  assert (Hu : UntilBuried job2 = until).
  { subst job2 until. by destruct failed. }
  assert (Hf : FailReason job2 = FailReason rj).
  { subst job2. by destruct failed. }
  assert (Hl1 : queue.lookup_item (Key rj)
                  (queue.items (queue.update_data (λ _, job2) (Key rj) q))
                = Some (queue.set_Data job2 item)).
  { by rewrite lookup_update_data, Hl. }
  assert (Hexact : failed = true → int_min < UntilBuried job <= int_max →
                   until = UntilBuried job - 1).
  { intros Hfl Hr. subst until. rewrite Hfl. unfold int_sub.
    apply wrap_int_id. unfold int_min, int_max in *. lia. }
  rewrite Hu. destruct (until <=? 0) eqn:Hle.
  - apply Z.leb_le in Hle.
    unfold queue.Bury.
    rewrite (move_allowed _ _ _ _ _ _ Hl1) by (simpl; by rewrite Hst).
    eexists _, _. split; [done|]. rewrite the_queue_put.
    split; [apply Get_lookup; by rewrite lookup_moved, Hl1|].
    simpl. split; [done|]. split; [done|]. split; [done|].
    split; [done|]. lia.
  - apply Z.leb_gt in Hle.
    rewrite (SetDelay_found _ _ _ _ Hl1).
    unfold queue.Release.
    erewrite move_allowed;
      [|by rewrite lookup_delayed, Hl1|simpl; by rewrite Hst].
    eexists _, _. split; [done|]. rewrite the_queue_put.
    split.
    { apply Get_lookup. by rewrite lookup_moved, lookup_delayed, Hl1. }
    simpl. split; [done|]. split; [done|]. split; [done|].
    split; [lia|done].
Qed.

Lemma stored_rows (js : list Job) (m : gmap string Job) :
  (∀ k, is_Some (m !! k) →
        is_Some (foldl (λ m j, <[Key j := j]> m) m js !! k))
  ∧ ∀ j, j ∈ js →
         is_Some (foldl (λ m j, <[Key j := j]> m) m js !! Key j).
Proof.
  revert m. induction js as [|x js IH]; intros m; simpl.
  - split; [done|]. intros j Hj. by apply elem_of_nil in Hj.
  - destruct (IH (<[Key x := x]> m)) as [IH1 IH2]. split.
    + intros k Hk. apply IH1.
      destruct (decide (Key x = k)) as [<- | Hne].
      * rewrite lookup_insert_eq. eauto.
      * by rewrite lookup_insert_ne.
    + intros j Hj. apply elem_of_cons in Hj as [-> | Hj].
      * apply IH1. rewrite lookup_insert_eq. eauto.
      * by apply IH2.
Qed.

(** C7.  An add request of the 2016 revision: a reply without error
    carries the counts and comes only when neither database write failed,
    with the environment and a live row for every job in the store; when a
    write fails, the reply is ErrDBError and every queue and [rpl] are as
    they were. *)
Theorem add_replies_after_db_writes now s cr s' reply :
  cr_Method cr = "add" →
  V2016.handleRequest rest now s cr = (s', reply) →
  let faults := db.faults (V2016.db s) in
  (sr_Err reply = "" →
     ∃ env jobs added dups,
       cr_Env cr = Some env ∧ cr_Jobs cr = Some jobs
       ∧ reply = addedResponse added dups
       ∧ faults !! 0%nat ≠ Some true ∧ faults !! 1%nat ≠ Some true
       ∧ db.envs (V2016.db s') !! envKey env = Some env
       ∧ ∀ j, j ∈ jobs → is_Some (db.live (V2016.db s') !! Key j))
  ∧ (is_Some (cr_Env cr) → is_Some (cr_Jobs cr) →
     faults !! 0%nat = Some true ∨ faults !! 1%nat = Some true →
     reply = errResponse ErrDBError
     ∧ (∀ name, V2016.the_queue s' name = V2016.the_queue s name)
     ∧ V2016.rpl s' = V2016.rpl s).
Proof.
  intros Hm Hh faults. subst faults.
  unfold V2016.handleRequest, V2016.dispatch in Hh. simpl in Hh.
  rewrite Hm in Hh. revert Hh. pick_case. unfold V2016.add.
  destruct (cr_Env cr) as [env|]; [|simpl; intros [= <- <-]; split;
    [done | by intros []]].
  destruct (cr_Jobs cr) as [jobs|]; [|simpl; intros [= <- <-]; split;
    [done | by intros _ []]].
  unfold db.storeEnv, db.storeNewJobs, db.next_write. simpl.
  destruct (db.faults (V2016.db s)) as [|[] [|[] f]] eqn:Hf; simpl;
    rewrite ?Hf; simpl; unfold queue.AddMany;
    try destruct (queue.add_each _ _ _ _) as [[l added] dups];
    simpl; intros [= <- <-]; simpl.
  all: split.
  all: try done.
  all: try (intros _ _ Hfault; by destruct Hfault).
  all: try (intros _ _ _; split; [done|]; split; [|done];
            intros name; apply the_queue_made).
  all: intros _; exists env, jobs, added, dups.
  all: do 5 (split; [done|]).
  all: split; [by rewrite lookup_insert_eq|].
  all: intros j Hj.
  all: apply (list_elem_of_fmap_2
                (λ job, set_UntilBuried 3 (set_EnvKey (envKey env) job)))
         in Hj.
  all: by apply (stored_rows _ (db.live (V2016.db s))) in Hj.
Qed.

Lemma decrement_keeps s job queuename :
  counts_never_negative (V2016.sgroupcounts s) →
  counts_never_negative
    (V2016.sgroupcounts (V2016.decrementGroupCount s job queuename)).
Proof.
  intros Hok. unfold V2016.decrementGroupCount.
  destruct (_ <=? 0) eqn:Hle; simpl; intros g c Hg.
  - destruct (decide (schedulerGroup job = g)) as [<- | Hne].
    + by rewrite lookup_delete_eq in Hg.
    + rewrite lookup_delete_ne in Hg by done. by eapply Hok.
  - apply Z.leb_gt in Hle.
    destruct (decide (schedulerGroup job = g)) as [<- | Hne].
    + rewrite lookup_insert_eq in Hg. injection Hg as <-.
      split; [lia|]. unfold int_sub, wrap_int, int_max.
      pose proof (Z.mod_pos_bound
                    (default 0 (V2016.sgroupcounts s !! schedulerGroup job)
                     - 1 + 2 ^ 63) (2 ^ 64)). lia.
    + rewrite lookup_insert_ne in Hg by done. by eapply Hok.
Qed.

Lemma place_jobs_counts jobs groups tr n :
  (∀ g c, groups !! g = Some c → 0 <= c <= n) →
  0 <= n → n + Z.of_nat (length jobs) <= int_max →
  ∀ g c, (V2016.place_jobs jobs groups tr).1.2 !! g = Some c →
         0 <= c <= n + Z.of_nat (length jobs).
Proof.
  revert groups tr n. induction jobs as [|job jobs IH];
    intros groups tr n Hgroups Hn Hlen; simpl.
  - intros g c Hg. apply Hgroups in Hg. lia.
  - simpl in Hlen.
    set (g0 := Place (V2016.req_of job)).
    set (groups1 := <[g0 := _]> groups).
    set (tr1 := match tr !! g0 with Some _ => tr | None => _ end).
    specialize (IH groups1 tr1 (n + 1)).
    destruct (V2016.place_jobs jobs groups1 tr1) as [[placed groups2] tr2].
    simpl in *. intros g c Hg.
    assert (0 <= c <= n + 1 + Z.of_nat (length jobs)); [|lia].
    apply (IH) with g; [|lia|lia|done].
    intros g' c' Hg'. subst groups1.
    destruct (decide (g0 = g')) as [<- | Hne].
    + rewrite lookup_insert_eq in Hg'. injection Hg' as <-.
      assert (0 <= default 0 (groups !! g0) <= n) as Hd.
      { destruct (groups !! g0) as [c0|] eqn:Hc0; simpl; [|lia].
        by apply (Hgroups g0). }
      unfold int_add. rewrite wrap_int_id; unfold int_min, int_max in *; lia.
    + rewrite lookup_insert_ne in Hg' by done.
      apply Hgroups in Hg'. lia.
Qed.

Lemma schedule_groups_keep queuename (l : list (string * Z)) s :
  counts_never_negative (V2016.sgroupcounts s) →
  (∀ gc, gc ∈ l → 0 <= gc.2 <= int_max) →
  counts_never_negative
    (V2016.sgroupcounts (foldl (V2016.schedule_group queuename) s l)).
Proof.
  revert s. induction l as [|gc l IH]; intros s Hok Hl; simpl; [done|].
  apply IH.
  - unfold V2016.schedule_group. simpl. intros g c Hg.
    destruct (decide (gc.1 = g)) as [<- | Hne].
    + rewrite lookup_insert_eq in Hg. injection Hg as <-.
      apply Hl. by left.
    + rewrite lookup_insert_ne in Hg by done. by eapply Hok.
  - intros gc' Hgc'. apply Hl. by right.
Qed.

Lemma callback_keeps s queuename allitemdata :
  Z.of_nat (length allitemdata) <= int_max →
  counts_never_negative (V2016.sgroupcounts s) →
  counts_never_negative
    (V2016.sgroupcounts
       (V2016.readyAddedCallback s queuename allitemdata).1).
Proof.
  intros Hlen Hok. unfold V2016.readyAddedCallback.
  pose proof (place_jobs_counts allitemdata ∅ (V2016.sgtr s) 0) as Hp.
  destruct (V2016.place_jobs allitemdata ∅ (V2016.sgtr s))
    as [[placed groups] tr].
  simpl in *. case_bool_decide; simpl; [done|].
  apply schedule_groups_keep; [done|].
  intros [g c] Hgc. apply elem_of_map_to_list in Hgc. simpl.
  apply Hp in Hgc; [lia| |lia|lia].
  intros g' c' Hg'. by rewrite lookup_empty in Hg'.
Qed.

Ltac keeps_counts :=
  repeat first
    [ assumption
    | apply decrement_keeps
    | progress simpl
    | case_match ].

Lemma handleRequest_keeps now s cr :
  (∀ method s cr,
     counts_never_negative (V2016.sgroupcounts s) →
     counts_never_negative (V2016.sgroupcounts (rest method s cr).1.1)) →
  counts_never_negative (V2016.sgroupcounts s) →
  counts_never_negative
    (V2016.sgroupcounts (V2016.handleRequest rest now s cr).1).
Proof.
  intros Hrest Hok. unfold V2016.handleRequest.
  set (s1 := V2016.put_queue _ _ s).
  assert (Hok1 : counts_never_negative (V2016.sgroupcounts s1)) by done.
  clearbody s1. clear Hok.
  destruct (V2016.dispatch rest now s1 cr) as [[s2 r] e] eqn:Hd. simpl.
  assert (counts_never_negative
            (V2016.sgroupcounts (V2016.dispatch rest now s1 cr).1.1)) as Hk;
    [|by rewrite Hd in Hk].
  clear Hd. unfold V2016.dispatch.
  repeat case_bool_decide; try done; try by apply Hrest.
  all: unfold V2016.add, V2016.jstart, V2016.jtouch, V2016.jarchive,
         V2016.jrelease, V2016.jbury, V2016.jkick, V2016.with_ij.
  all: keeps_counts.
Qed.

(** C3, amended.  The counts of [sgroupcounts] are never negative:
    [decrementGroupCount], the ready-added callback and every request keep
    them so (for a request, as far as the methods outside this embedding do).
    When a decrement takes a group's count to 0, the group's entries of
    [sgroupcounts] and [sgtr] are deleted and the scheduler is not called;
    when the count stays positive, the scheduler is called with the new
    count, as its last call. *)
Theorem group_counts_never_negative now s cr job queuename allitemdata :
  counts_never_negative (V2016.sgroupcounts s) →
  let g := schedulerGroup job in
  let s' := V2016.decrementGroupCount s job queuename in
  counts_never_negative (V2016.sgroupcounts s')
  ∧ (Z.of_nat (length allitemdata) <= int_max →
     counts_never_negative
       (V2016.sgroupcounts
          (V2016.readyAddedCallback s queuename allitemdata).1))
  ∧ ((∀ method s0 cr0,
        counts_never_negative (V2016.sgroupcounts s0) →
        counts_never_negative
          (V2016.sgroupcounts (rest method s0 cr0).1.1)) →
     counts_never_negative
       (V2016.sgroupcounts (V2016.handleRequest rest now s cr).1))
  ∧ (default 0 (V2016.sgroupcounts s !! g) <= 1 →
     V2016.sgroupcounts s' !! g = None
     ∧ V2016.sgtr s' !! g = None
     ∧ V2016.scheduler s' = V2016.scheduler s)
  ∧ (∀ c, V2016.sgroupcounts s !! g = Some c → 1 < c →
     V2016.sgroupcounts s' !! g = Some (c - 1)
     ∧ V2016.sgtr s' = V2016.sgtr s
     ∧ V2016.scheduler s'
       = V2016.scheduler s
         ++ [ {| scheduler.cmd := Sprintf (V2016.rc s) queuename g;
                 scheduler.req := V2016.sgtr s !! g;
                 scheduler.count := c - 1 |} ]).
Proof.
  intros Hok g s'.
  split; [by apply decrement_keeps|].
  split; [intros Hlen; by apply callback_keeps|].
  split; [intros Hrest; by apply handleRequest_keeps|].
  assert (Hsub : int_sub (default 0 (V2016.sgroupcounts s !! g)) 1
                 = default 0 (V2016.sgroupcounts s !! g) - 1).
  { unfold int_sub. apply wrap_int_id.
    destruct (V2016.sgroupcounts s !! g) as [c|] eqn:Hc; simpl.
    - apply Hok in Hc. unfold int_min, int_max in *. lia.
    - unfold int_min, int_max. lia. }
  subst s'. unfold V2016.decrementGroupCount. fold g. rewrite Hsub.
  split.
  - intros Hle. rewrite (proj2 (Z.leb_le _ _)) by lia. simpl.
    by rewrite !lookup_delete_eq.
  - intros c Hc Hlt. rewrite Hc. simpl.
    rewrite (proj2 (Z.leb_gt _ _)) by lia. simpl.
    by rewrite lookup_insert_eq.
Qed.
(** ** The other cases of the 2016 switch *)

Lemma buried_snoc (q0 : queue.Queue Job) ks k :
  buried_keys q0 (ks ++ [k])
  = if decide (queue.StateOf q0 k = queue.ItemStateBury)
    then buried_keys q0 ks ∪ {[k]} else buried_keys q0 ks.
Proof.
  clear rest. unfold buried_keys. rewrite filter_app, list_to_set_app_L.
  rewrite filter_cons, filter_nil.
  case_decide; simpl; set_solver.
Qed.

Lemma buried_elem (q0 : queue.Queue Job) ks k :
  k ∈ buried_keys q0 ks
  ↔ k ∈ ks ∧ queue.StateOf q0 k = queue.ItemStateBury.
Proof.
  clear rest. unfold buried_keys.
  rewrite elem_of_list_to_set, list_elem_of_filter. tauto.
Qed.

Lemma buried_size (q0 : queue.Queue Job) ks :
  (size (buried_keys q0 ks) ≤ length ks)%nat.
Proof.
  clear rest. induction ks as [|k ks IH] using rev_ind; [done|].
  rewrite buried_snoc, length_app. simpl.
  case_decide; [|lia].
  destruct (decide (k ∈ buried_keys q0 ks)) as [Hin | Hout].
  - replace (buried_keys q0 ks ∪ {[k]}) with (buried_keys q0 ks)
      by set_solver. lia.
  - rewrite size_union by set_solver. rewrite size_singleton. lia.
Qed.

Lemma with_ij_found16 s cr body rj item :
  cr_Job cr = Some rj →
  queue.Get (V2016.the_queue s (cr_Queue cr)) (Key rj) = inr item →
  queue.State item = queue.ItemStateRun →
  cr_ClientID cr = ReservedBy (queue.Data item) →
  V2016.with_ij s cr body = body item (queue.Data item) rj.
Proof.
  intros Hj Hg Hst Hid. unfold V2016.with_ij.
  rewrite (getij_found cr _ rj item) by done. pick_case. by rewrite Hj.
Qed.

Lemma with_ij_rejects16 s cr body i j e :
  V2016.getij cr (V2016.the_queue s (cr_Queue cr)) = (i, j, e) → e ≠ "" →
  V2016.with_ij s cr body = (s, None, e).
Proof.
  intros Hg He. unfold V2016.with_ij. rewrite Hg.
  by rewrite bool_decide_eq_false_2.
Qed.

Lemma dispatch_getij16 now s cr i j e :
  cr_Method cr ∈ ["jstart"; "jtouch"; "jarchive"; "jrelease"; "jbury"] →
  V2016.getij cr (V2016.the_queue s (cr_Queue cr)) = (i, j, e) → e ≠ "" →
  V2016.dispatch rest now s cr = (s, None, e).
Proof.
  intros Hm Hg He. unfold V2016.dispatch.
  repeat (apply elem_of_cons in Hm as [-> | Hm]);
    [.. | by apply elem_of_nil in Hm];
    pick_case; eapply with_ij_rejects16; eauto.
Qed.

(** The 2016 revision rejects a jstart, jtouch, jarchive, jrelease or jbury
    request the same way: without a Job, ErrBadRequest; with a job whose key
    is not in the request's queue, or not in the run sub-queue, ErrBadJob;
    with another client's job, ErrMustReserve.  All the request leaves
    behind is its queue, made when the name was new. *)
Theorem getij_2016_rejects now s cr :
  cr_Method cr ∈ ["jstart"; "jtouch"; "jarchive"; "jrelease"; "jbury"] →
  let q := V2016.the_queue s (cr_Queue cr) in
  let s1 := V2016.put_queue (cr_Queue cr) q s in
  (cr_Job cr = None →
     V2016.handleRequest rest now s cr = (s1, errResponse ErrBadRequest))
  ∧ (∀ rj, cr_Job cr = Some rj →
       (∃ e, queue.Get q (Key rj) = inl e)
       ∨ (∃ item, queue.Get q (Key rj) = inr item
                  ∧ queue.State item ≠ queue.ItemStateRun) →
       V2016.handleRequest rest now s cr = (s1, errResponse ErrBadJob))
  ∧ (∀ rj item, cr_Job cr = Some rj →
       queue.Get q (Key rj) = inr item →
       queue.State item = queue.ItemStateRun →
       cr_ClientID cr ≠ ReservedBy (queue.Data item) →
       V2016.handleRequest rest now s cr
       = (s1, errResponse ErrMustReserve)).
Proof.
  intros Hm q s1.
  assert (Hr : ∀ i j e,
            V2016.getij cr q = (i, j, e) → e ≠ "" →
            V2016.handleRequest rest now s cr = (s1, errResponse e)).
  { intros i j e Hg He. unfold V2016.handleRequest. fold q s1.
    rewrite (dispatch_getij16 now s1 cr i j e); [| done | | done].
    - unfold reply_of. by rewrite bool_decide_eq_false_2.
    - subst s1 q. by rewrite the_queue_made. }
  split; [|split].
  - intros Hj. apply (Hr None None); [|done].
    unfold V2016.getij. by rewrite Hj.
  - intros rj Hj [[e Hg] | (item & Hg & Hst)].
    + apply (Hr None None); [|done].
      unfold V2016.getij. by rewrite Hj, Hg.
    + apply (Hr (Some item) None); [|done].
      unfold V2016.getij. rewrite Hj, Hg.
      by rewrite (bool_decide_eq_false_2 _ Hst).
  - intros rj item Hj Hg Hst Hid.
    apply (Hr (Some item) (Some (queue.Data item))); [|done].
    unfold V2016.getij. rewrite Hj, Hg.
    rewrite (bool_decide_eq_true_2 _ Hst).
    by rewrite (bool_decide_eq_false_2 _ Hid).
Qed.

Lemma kick_loop_2016 q0 keys :
  Z.of_nat (length keys) <= int_max →
  ∃ q1,
    foldl V2016.kick_one (q0, 0) keys
    = (q1, Z.of_nat (size (buried_keys q0 keys)))
    ∧ ∀ k, queue.lookup_item k (queue.items q1)
           = if decide (k ∈ buried_keys q0 keys)
             then kicked_item_2016 <$> queue.lookup_item k (queue.items q0)
             else queue.lookup_item k (queue.items q0).
Proof.
  induction keys as [|k ks IH] using rev_ind; intros Hlen.
  - by exists q0.
  - rewrite length_app in Hlen. simpl in Hlen.
    destruct IH as (q1 & Hfold & Hq1); [lia|].
    rewrite foldl_app, Hfold. simpl.
    rewrite buried_snoc.
    unfold V2016.kick_one, queue.Get. rewrite (Hq1 k).
    destruct (decide (k ∈ buried_keys q0 ks)) as [Hin | Hout].
    + apply buried_elem in Hin as Hb. destruct Hb as [_ Hb].
      rewrite decide_True by done.
      unfold queue.StateOf in Hb.
      destruct (queue.lookup_item k (queue.items q0)) as [i|]; [|done].
      simpl. exists q1. split.
      * by replace (buried_keys q0 ks ∪ {[k]}) with (buried_keys q0 ks)
          by set_solver.
      * intros k'. rewrite Hq1.
        destruct (decide (k' ∈ buried_keys q0 ks)).
        -- rewrite decide_True by set_solver. done.
        -- rewrite decide_False by set_solver. done.
    + unfold queue.StateOf.
      destruct (queue.lookup_item k (queue.items q0)) as [i|] eqn:Hl.
      * destruct (decide (queue.State i = queue.ItemStateBury)) as [Hb|Hb].
        -- rewrite bool_decide_eq_false_2 by (intros Hn; by apply Hn).
           unfold queue.Kick, queue.move, queue.Get.
           rewrite (Hq1 k), decide_False by done. rewrite Hl.
           rewrite (bool_decide_eq_true_2 _ Hb).
           eexists. split.
           ++ f_equal.
              rewrite size_union by set_solver. rewrite size_singleton.
              pose proof (buried_size q0 ks).
              unfold int_add. rewrite wrap_int_id; unfold int_min; lia.
           ++ intros k'. destruct (decide (k = k')) as [<- | Hne].
              ** rewrite decide_True by set_solver.
                 rewrite lookup_update_data. simpl.
                 by rewrite lookup_set_State, (Hq1 k), decide_False, Hl.
              ** rewrite lookup_update_data_ne by done. simpl.
                 rewrite lookup_alter_item_ne by done. rewrite Hq1.
                 destruct (decide (k' ∈ buried_keys q0 ks)).
                 --- rewrite decide_True by set_solver. done.
                 --- rewrite decide_False by set_solver. done.
        -- rewrite bool_decide_eq_true_2 by done.
           exists q1. split; [done|]. done.
      * exists q1. split; [done|]. done.
Qed.

(** The 2016 jkick: the keys of the request whose item is in the bury
    sub-queue are kicked to ready and their jobs get exactly 3 releases until
    buried again, whatever their Retries; every other item of the queue and
    everything outside the queue is as it was; the reply counts the keys
    kicked. *)
Theorem jkick_2016_resets_to_three now s cr keys :
  cr_Method cr = "jkick" → cr_Keys cr = Some keys →
  Z.of_nat (length keys) <= int_max →
  let q0 := V2016.the_queue s (cr_Queue cr) in
  let kicked := buried_keys q0 keys in
  ∃ q1,
    V2016.handleRequest rest now s cr
    = (V2016.put_queue (cr_Queue cr) q1 s,
       existedResponse (Z.of_nat (size kicked)))
    ∧ (∀ k, k ∈ kicked →
         ∃ item,
           queue.lookup_item k (queue.items q0) = Some item
           ∧ queue.State item = queue.ItemStateBury
           ∧ queue.lookup_item k (queue.items q1)
             = Some (kicked_item_2016 item)
           ∧ queue.StateOf q1 k = queue.ItemStateReady
           ∧ UntilBuried (queue.Data (kicked_item_2016 item)) = 3)
    ∧ (∀ k, k ∉ kicked →
         queue.lookup_item k (queue.items q1)
         = queue.lookup_item k (queue.items q0)).
Proof.
  intros Hm Hkeys Hlen q0 kicked.
  destruct (kick_loop_2016 q0 keys Hlen) as (q1 & Hfold & Hq1).
  exists q1. split; [|split].
  - unfold V2016.handleRequest, V2016.dispatch. simpl. rewrite Hm.
    pick_case. unfold V2016.jkick. rewrite Hkeys, the_queue_made.
    fold q0. rewrite Hfold.
    unfold V2016.put_queue. simpl. by rewrite insert_insert_eq.
  - intros k Hk. pose proof (Hq1 k) as Hlk.
    rewrite decide_True in Hlk by done.
    apply buried_elem in Hk as [_ Hb]. unfold queue.StateOf in Hb.
    destruct (queue.lookup_item k (queue.items q0)) as [i|] eqn:Hl;
      [|done].
    exists i. split; [done|]. split; [done|]. split; [done|].
    split; [by rewrite (StateOf_lookup _ _ _ Hlk)|done].
  - intros k Hk. by rewrite Hq1, decide_False.
Qed.

Lemma decrement_reads s s' job job' queuename :
  V2016.sgroupcounts s' = V2016.sgroupcounts s →
  V2016.sgtr s' = V2016.sgtr s →
  V2016.scheduler s' = V2016.scheduler s → V2016.rc s' = V2016.rc s →
  schedulerGroup job' = schedulerGroup job →
  let d := V2016.decrementGroupCount s job queuename in
  let d' := V2016.decrementGroupCount s' job' queuename in
  V2016.sgroupcounts d' = V2016.sgroupcounts d
  ∧ V2016.sgtr d' = V2016.sgtr d
  ∧ V2016.scheduler d' = V2016.scheduler d
  ∧ V2016.qs d' = V2016.qs s' ∧ V2016.rpl d' = V2016.rpl s'
  ∧ V2016.db d' = V2016.db s'.
Proof.
  intros Hc Ht Hs Hr Hg. unfold V2016.decrementGroupCount.
  rewrite Hc, Ht, Hs, Hr, Hg. by destruct (_ <=? 0).
Qed.

(** The 2016 jarchive of a job the client holds.  A job that did not exit
    with code 0, or lacks a start or an end time, is a bad request.
    Otherwise, when the database takes the write, the job is complete,
    without FailReason and with the time from start to end as Walltime in
    the complete bucket, out of the live bucket, out of the queue and out of
    [rpl]; and the count of its scheduler group is decremented before the
    reply, not after it. *)
Theorem jarchive_2016_archives now s cr rj item :
  cr_Method cr = "jarchive" → cr_Job cr = Some rj →
  queue.Get (V2016.the_queue s (cr_Queue cr)) (Key rj) = inr item →
  queue.State item = queue.ItemStateRun →
  cr_ClientID cr = ReservedBy (queue.Data item) →
  let q0 := V2016.the_queue s (cr_Queue cr) in
  let job := queue.Data item in
  let archived :=
    set_Walltime (Sub (EndTime job) (StartTime job))
      (set_FailReason "" (set_State JobStateComplete job)) in
  (exit_ok job = false →
     V2016.handleRequest rest now s cr
     = (V2016.put_queue (cr_Queue cr) q0 s, errResponse ErrBadRequest))
  ∧ (exit_ok job = true → (db.next_write (V2016.db s)).1 = false →
     Key job = Key rj → NoDup (queue.Key <$> queue.items q0) →
     ∃ s',
       V2016.handleRequest rest now s cr = (s', emptyResponse)
       ∧ queue.Get (V2016.the_queue s' (cr_Queue cr)) (Key rj)
         = inl queue.ErrNotFound
       ∧ (∀ k, k ≠ Key rj →
            queue.lookup_item k
              (queue.items (V2016.the_queue s' (cr_Queue cr)))
            = queue.lookup_item k (queue.items q0))
       ∧ db.complete (V2016.db s') !! Key rj = Some archived
       ∧ db.live (V2016.db s') !! Key rj = None
       ∧ V2016.rpl s' = rpl_remove (RepGroup job) (Key rj) (V2016.rpl s)
       ∧ (let d := V2016.decrementGroupCount s job (queue.Name q0) in
          V2016.sgroupcounts s' = V2016.sgroupcounts d
          ∧ V2016.sgtr s' = V2016.sgtr d
          ∧ V2016.scheduler s' = V2016.scheduler d)).
Proof.
  intros Hm Hj Hg Hst Hid q0 job archived.
  apply Get_lookup in Hg as Hl. fold q0 in Hl.
  pose proof (lookup_item_key _ _ _ Hl) as Hkey.
  unfold V2016.handleRequest, V2016.dispatch. simpl. rewrite Hm. pick_case.
  unfold V2016.jarchive.
  rewrite (with_ij_found16 _ _ _ rj item); [|by rewrite ?the_queue_made..].
  rewrite !the_queue_made. fold q0 job. rewrite rejected_when, Hkey.
  split.
  - intros Hbad. by rewrite Hbad.
  - intros Hok Hwrite Hwf Hnd. rewrite Hok. cbn [negb].
    change (Key (set_Walltime _ _)) with (Key job). rewrite Hwf.
    unfold db.archiveJob. cbn [V2016.db V2016.put_queue V2016.set_qs].
    destruct (db.next_write (V2016.db s)) as [failed d0] eqn:Hw.
    simpl in Hwrite. subst failed. fold archived.
    unfold queue.Remove, queue.Get.
    rewrite lookup_update_data. fold q0. rewrite Hl. simpl.
    set (q2 := queue.set_items _ _).
    set (s2 := V2016.set_rpl _ _).
    pose proof (decrement_reads s s2 job archived (queue.Name q0)) as Hd.
    simpl in Hd. destruct Hd as (Hc & Ht & Hs & Hqs & Hrpl & Hdb);
      [done..|].
    eexists. split; [reflexivity|].
    unfold V2016.the_queue. rewrite Hqs. simpl.
    rewrite lookup_insert_eq. simpl.
    split.
    { unfold queue.Get. simpl. rewrite lookup_remove_item_eq; [done|].
      by rewrite keys_alter_item. }
    split.
    { intros k Hk. rewrite lookup_remove_item by done.
      by rewrite lookup_alter_item_ne. }
    rewrite Hdb, Hrpl. simpl.
    split; [by rewrite lookup_insert_eq|].
    split; [by rewrite lookup_delete_eq|].
    split; [done|].
    done.
Qed.

(** The 2016 jbury of a job the client holds never fails: the item moves
    to the bury sub-queue and its job takes the request's FailReason; the
    other items, [rpl] and the database are untouched; and the count of the
    job's scheduler group is decremented. *)
Theorem jbury_2016_buries now s cr rj item :
  cr_Method cr = "jbury" → cr_Job cr = Some rj →
  queue.Get (V2016.the_queue s (cr_Queue cr)) (Key rj) = inr item →
  queue.State item = queue.ItemStateRun →
  cr_ClientID cr = ReservedBy (queue.Data item) →
  let q0 := V2016.the_queue s (cr_Queue cr) in
  ∃ s' item',
    V2016.handleRequest rest now s cr = (s', emptyResponse)
    ∧ queue.Get (V2016.the_queue s' (cr_Queue cr)) (Key rj) = inr item'
    ∧ queue.State item' = queue.ItemStateBury
    ∧ FailReason (queue.Data item') = FailReason rj
    ∧ UntilBuried (queue.Data item') = UntilBuried (queue.Data item)
    ∧ (∀ k, k ≠ Key rj →
         queue.lookup_item k
           (queue.items (V2016.the_queue s' (cr_Queue cr)))
         = queue.lookup_item k (queue.items q0))
    ∧ V2016.db s' = V2016.db s ∧ V2016.rpl s' = V2016.rpl s
    ∧ (let d := V2016.decrementGroupCount s (queue.Data item)
                  (queue.Name q0) in
       V2016.sgroupcounts s' = V2016.sgroupcounts d
       ∧ V2016.sgtr s' = V2016.sgtr d
       ∧ V2016.scheduler s' = V2016.scheduler d).
Proof.
  intros Hm Hj Hg Hst Hid q0.
  apply Get_lookup in Hg as Hl. fold q0 in Hl.
  pose proof (lookup_item_key _ _ _ Hl) as Hkey.
  unfold V2016.handleRequest, V2016.dispatch. simpl. rewrite Hm. pick_case.
  unfold V2016.jbury.
  rewrite (with_ij_found16 _ _ _ rj item); [|by rewrite ?the_queue_made..].
  rewrite !the_queue_made. fold q0. rewrite Hkey.
  set (job := set_FailReason _ _).
  assert (Hl1 : queue.lookup_item (Key rj)
                  (queue.items
                     (queue.update_data (λ _, job) (Key rj) q0))
                = Some (queue.set_Data job item))
    by (by rewrite lookup_update_data, Hl).
  unfold queue.Bury.
  rewrite (move_allowed _ _ _ _ _ _ Hl1) by (simpl; by rewrite Hst).
  set (q2 := queue.set_items _ _).
  set (s2 := V2016.put_queue _ q2 _).
  pose proof (decrement_reads s s2 (queue.Data item) job (queue.Name q0))
    as Hd.
  simpl in Hd. destruct Hd as (Hc & Ht & Hs & Hqs & Hrpl & Hdb); [done..|].
  eexists _, (queue.set_State queue.ItemStateBury
                (queue.set_Data job item)).
  split; [reflexivity|].
  change (queue.Name q2) with (queue.Name q0).
  unfold V2016.the_queue. rewrite Hqs. simpl.
  rewrite lookup_insert_eq. simpl.
  split; [apply Get_lookup; subst q2; by rewrite lookup_moved, Hl1|].
  do 3 (split; [done|]).
  split.
  { intros k Hk. rewrite lookup_alter_item_ne by done.
    by rewrite lookup_alter_item_ne. }
  rewrite Hdb, Hrpl. done.
Qed.

(** The 2016 jstart of a job the client holds.  Without a positive Pid or
    without a Host it is a bad request.  Otherwise the job records the
    request's Pid and Host, the start time and no end time, and one more
    attempt; its item stays in the run sub-queue, and nothing is written to
    the database. *)
Theorem jstart_2016_records_the_start now s cr rj item :
  cr_Method cr = "jstart" → cr_Job cr = Some rj →
  queue.Get (V2016.the_queue s (cr_Queue cr)) (Key rj) = inr item →
  queue.State item = queue.ItemStateRun →
  cr_ClientID cr = ReservedBy (queue.Data item) →
  let q0 := V2016.the_queue s (cr_Queue cr) in
  (Pid rj <= 0 ∨ Host rj = "" →
     V2016.handleRequest rest now s cr
     = (V2016.put_queue (cr_Queue cr) q0 s, errResponse ErrBadRequest))
  ∧ (0 < Pid rj → Host rj ≠ "" →
     ∃ s' item',
       V2016.handleRequest rest now s cr = (s', emptyResponse)
       ∧ queue.Get (V2016.the_queue s' (cr_Queue cr)) (Key rj) = inr item'
       ∧ queue.State item' = queue.ItemStateRun
       ∧ Pid (queue.Data item') = Pid rj
       ∧ Host (queue.Data item') = Host rj
       ∧ StartTime (queue.Data item') = Some now
       ∧ EndTime (queue.Data item') = None
       ∧ Attempts (queue.Data item')
         = int_add (Attempts (queue.Data item)) 1
       ∧ ReservedBy (queue.Data item') = ReservedBy (queue.Data item)
       ∧ (∀ k, k ≠ Key rj →
            queue.lookup_item k
              (queue.items (V2016.the_queue s' (cr_Queue cr)))
            = queue.lookup_item k (queue.items q0))
       ∧ V2016.db s' = V2016.db s
       ∧ V2016.sgroupcounts s' = V2016.sgroupcounts s).
Proof.
  intros Hm Hj Hg Hst Hid q0.
  apply Get_lookup in Hg as Hl. fold q0 in Hl.
  pose proof (lookup_item_key _ _ _ Hl) as Hkey.
  unfold V2016.handleRequest, V2016.dispatch. simpl. rewrite Hm. pick_case.
  unfold V2016.jstart.
  rewrite (with_ij_found16 _ _ _ rj item); [|by rewrite ?the_queue_made..].
  rewrite !the_queue_made. fold q0. rewrite Hkey.
  split.
  - intros [Hpid | Hhost].
    + by rewrite (bool_decide_eq_true_2 _ Hpid).
    + rewrite (bool_decide_eq_true_2 _ Hhost). by rewrite orb_true_r.
  - intros Hpid Hhost.
    rewrite (bool_decide_eq_false_2 (Pid rj <= 0)) by lia.
    rewrite (bool_decide_eq_false_2 _ Hhost). cbn [orb].
    set (job := set_Attempts _ _).
    eexists _, (queue.set_Data job item). split; [reflexivity|].
    rewrite the_queue_put.
    split; [apply Get_lookup; by rewrite lookup_update_data, Hl|].
    do 7 (split; [done|]).
    split; [|done].
    intros k Hk. by rewrite lookup_update_data_ne.
Qed.

Lemma place_jobs_spec jobs groups tr :
  (∀ g, 0 <= default 0 (groups !! g)
        ∧ default 0 (groups !! g) + Z.of_nat (length jobs) <= int_max) →
  let r := V2016.place_jobs jobs groups tr in
  r.1.1 = (λ job, set_schedulerGroup (group_of job) job) <$> jobs
  ∧ (∀ g, r.1.2 !! g
          = if decide (jobs_placed_in g jobs = [])
            then groups !! g
            else Some (default 0 (groups !! g)
                       + Z.of_nat (length (jobs_placed_in g jobs))))
  ∧ (∀ g, r.2 !! g
          = match tr !! g with
            | Some req => Some req
            | None => V2016.req_of <$> head (jobs_placed_in g jobs)
            end).
Proof.
  clear rest. revert groups tr.
  induction jobs as [|job jobs IH]; intros groups tr Hb; simpl.
  - split; [done|]. split; [done|]. intros g. by destruct (tr !! g).
  - fold (group_of job).
    set (g0 := group_of job).
    set (groups1 := <[g0 := _]> groups).
    set (tr1 := match tr !! g0 with Some _ => tr | None => _ end).
    assert (Hadd : int_add (default 0 (groups !! g0)) 1
                   = default 0 (groups !! g0) + 1).
    { unfold int_add. apply wrap_int_id. specialize (Hb g0).
      simpl in Hb. unfold int_min, int_max in *. lia. }
    specialize (IH groups1 tr1).
    destruct (V2016.place_jobs jobs groups1 tr1) as [[placed groups2] tr2].
    simpl in IH. destruct IH as (Hplaced & Hgroups & Htr).
    { intros g. subst groups1. specialize (Hb g). simpl in Hb.
      destruct (decide (g0 = g)) as [<- | Hne].
      - rewrite lookup_insert_eq. simpl. lia.
      - rewrite lookup_insert_ne by done. lia. }
    simpl. split; [by rewrite Hplaced|]. split.
    + intros g. rewrite Hgroups. unfold jobs_placed_in.
      rewrite filter_cons. fold g0. subst groups1.
      destruct (decide (g0 = g)) as [<- | Hne].
      * rewrite lookup_insert_eq. simpl. rewrite Hadd.
        case_decide as Hn; [rewrite Hn; simpl|]; f_equal; lia.
      * by rewrite lookup_insert_ne.
    + intros g. rewrite Htr. unfold jobs_placed_in.
      rewrite filter_cons. fold g0. subst tr1.
      destruct (decide (g0 = g)) as [<- | Hne].
      * destruct (tr !! g0) as [r|] eqn:Hr; [by rewrite Hr|].
        by rewrite lookup_insert_eq.
      * destruct (tr !! g0); [done|]. by rewrite lookup_insert_ne.
Qed.

Lemma schedule_groups_spec queuename (l : list (string * Z)) s :
  NoDup l.*1 →
  let s' := foldl (V2016.schedule_group queuename) s l in
  (∀ g, V2016.sgroupcounts s' !! g
        = match (list_to_map l : gmap string Z) !! g with
          | Some c => Some c
          | None => V2016.sgroupcounts s !! g
          end)
  ∧ V2016.sgtr s' = V2016.sgtr s ∧ V2016.rc s' = V2016.rc s
  ∧ V2016.scheduler s'
    = V2016.scheduler s ++ (runners_asked s queuename <$> l).
Proof.
  clear rest. revert s. induction l as [|gc l IH]; intros s Hnd; simpl.
  - split; [done|]. split; [done|]. split; [done|]. by rewrite app_nil_r.
  - apply NoDup_cons in Hnd as [Hgc Hnd].
    destruct (IH (V2016.schedule_group queuename s gc) Hnd)
      as (Hc & Ht & Hr & Hs).
    split; [|split; [done|split; [done|]]].
    + intros g. rewrite Hc.
      destruct (decide (gc.1 = g)) as [<- | Hne].
      * rewrite lookup_insert_eq.
        rewrite (not_elem_of_list_to_map_1 _ _ Hgc). simpl.
        by rewrite lookup_insert_eq.
      * rewrite lookup_insert_ne by done.
        destruct (list_to_map l !! g); [done|]. simpl.
        by rewrite lookup_insert_ne.
    + rewrite Hs. simpl. unfold scheduler.Schedule.
      by rewrite <- app_assoc.
Qed.

(** The callback for items entering the ready sub-queue.  Every job is
    placed in the scheduler's group for its requirements, and a group
    without requirements on record gets those of its first job.  With a
    runner command, the count of every group that got jobs becomes the number
    of the jobs placed in it, whatever it was before, the other counts stay,
    and the scheduler is asked once per such group for that many runners;
    without a runner command no count changes and the scheduler is not
    called. *)
Theorem callback_counts_the_groups s queuename allitemdata :
  Z.of_nat (length allitemdata) <= int_max →
  let r := V2016.readyAddedCallback s queuename allitemdata in
  let n g := Z.of_nat (length (jobs_placed_in g allitemdata)) in
  r.2 = (λ job, set_schedulerGroup (group_of job) job) <$> allitemdata
  ∧ (∀ g, V2016.sgtr r.1 !! g
          = match V2016.sgtr s !! g with
            | Some req => Some req
            | None => V2016.req_of <$> head (jobs_placed_in g allitemdata)
            end)
  ∧ (V2016.rc s = "" →
       V2016.sgroupcounts r.1 = V2016.sgroupcounts s
       ∧ V2016.scheduler r.1 = V2016.scheduler s)
  ∧ (V2016.rc s ≠ "" →
       (∀ g, V2016.sgroupcounts r.1 !! g
             = if decide (jobs_placed_in g allitemdata = [])
               then V2016.sgroupcounts s !! g else Some (n g))
       ∧ ∃ l, V2016.scheduler r.1
              = V2016.scheduler s ++ (runners_asked r.1 queuename <$> l)
              ∧ NoDup l.*1
              ∧ ∀ g c, (g, c) ∈ l
                       ↔ jobs_placed_in g allitemdata ≠ [] ∧ c = n g).
Proof.
  intros Hlen r n. subst r. unfold V2016.readyAddedCallback.
  destruct (place_jobs_spec allitemdata ∅ (V2016.sgtr s))
    as (Hplaced & Hgroups & Htr).
  { intros g. rewrite lookup_empty. simpl. lia. }
  destruct (V2016.place_jobs allitemdata ∅ (V2016.sgtr s))
    as [[placed groups] tr].
  simpl in Hplaced, Hgroups, Htr. cbn [V2016.rc V2016.set_sgtr].
  assert (Hin : ∀ g c, groups !! g = Some c
                       ↔ jobs_placed_in g allitemdata ≠ [] ∧ c = n g).
  { intros g c. rewrite Hgroups, lookup_empty. simpl.
    case_decide; split; [done|by intros []|intros [= <-]|intros [_ ->]];
      done. }
  destruct (decide (V2016.rc s = "")) as [Hrc | Hrc].
  - rewrite (bool_decide_eq_true_2 _ Hrc). simpl.
    split; [done|]. split; [done|]. split; [done|]. by intros [].
  - rewrite (bool_decide_eq_false_2 _ Hrc).
    destruct (schedule_groups_spec queuename (map_to_list groups)
                (V2016.set_sgtr tr s))
      as (Hc & Ht & Hr & Hs); [apply NoDup_fst_map_to_list|].
    cbn [fst snd]. split; [done|].
    split; [intros g; by rewrite Ht|]. split; [done|]. intros _. split.
    + intros g. rewrite Hc, list_to_map_to_list.
      rewrite Hgroups, lookup_empty. simpl. by case_decide.
    + exists (map_to_list groups). split; [|split].
      * rewrite Hs. simpl. f_equal. apply list_fmap_ext. intros i gc Hgc.
        unfold runners_asked. by rewrite Ht, Hr.
      * apply NoDup_fst_map_to_list.
      * intros g c. rewrite elem_of_map_to_list. apply Hin.
Qed.

Lemma lookup_item_snoc {D} k (l : list (queue.Item D)) x :
  queue.lookup_item k (l ++ [x])
  = match queue.lookup_item k l with
    | Some i => Some i
    | None => if bool_decide (queue.Key x = k) then Some x else None
    end.
Proof.
  clear rest. induction l as [|y l IH]; simpl; [done|].
  destruct (bool_decide (queue.Key y = k)); [done|apply IH].
Qed.

Lemma add_each_spec {D} (defs : list (queue.ItemDef D)) l added dups :
  0 <= added → 0 <= dups →
  added + dups + Z.of_nat (length defs) <= int_max →
  ∃ l' added' dups',
    queue.add_each defs l added dups = (l', added', dups')
    ∧ 0 <= added' ∧ 0 <= dups'
    ∧ added' + dups' = added + dups + Z.of_nat (length defs)
    ∧ (∀ k i, queue.lookup_item k l = Some i →
              queue.lookup_item k l' = Some i)
    ∧ (∀ d, d ∈ defs →
         ∃ i, queue.lookup_item (queue.DefKey d) l' = Some i
              ∧ (queue.lookup_item (queue.DefKey d) l = None →
                   ∃ d', d' ∈ defs ∧ queue.DefKey d' = queue.DefKey d
                         ∧ i = queue.item_of_def d')).
Proof.
  clear rest. revert l added dups.
  induction defs as [|d defs IH]; intros l added dups Ha Hd Hlen.
  - exists l, added, dups. simpl. split; [done|]. split; [done|].
    split; [done|]. split; [lia|]. split; [done|].
    intros d Hd'. by apply elem_of_nil in Hd'.
  - simpl in Hlen. cbn [queue.add_each].
    destruct (queue.lookup_item (queue.DefKey d) l) as [i0|] eqn:Hl.
    + destruct (IH l added (int_add dups 1)) as
        (l' & added' & dups' & Heach & Ha' & Hd' & Hsum & Hkeep & Hin).
      { done. }
      { unfold int_add. rewrite wrap_int_id; unfold int_min, int_max in *;
          lia. }
      { unfold int_add. rewrite wrap_int_id; unfold int_min, int_max in *;
          lia. }
      exists l', added', dups'. split; [done|]. split; [done|].
      split; [done|]. split.
      { rewrite Hsum. cbn [length]. unfold int_add.
        rewrite wrap_int_id; unfold int_min, int_max in *; lia. }
      split; [done|].
      intros d1 [-> | Hd1]%elem_of_cons.
      * exists i0. split; [by apply Hkeep|]. by rewrite Hl.
      * destruct (Hin d1 Hd1) as (i & Hi & Hnew). exists i.
        split; [done|]. intros Hnone.
        destruct (Hnew Hnone) as (d' & Hd'in & Hk & ->).
        exists d'. split; [by right|done].
    + destruct (IH (l ++ [queue.item_of_def d]) (int_add added 1) dups) as
        (l' & added' & dups' & Heach & Ha' & Hd' & Hsum & Hkeep & Hin).
      { unfold int_add. rewrite wrap_int_id; unfold int_min, int_max in *;
          lia. }
      { done. }
      { unfold int_add. rewrite wrap_int_id; unfold int_min, int_max in *;
          lia. }
      assert (Hd0 : queue.lookup_item (queue.DefKey d) l'
                    = Some (queue.item_of_def d)).
      { apply Hkeep. rewrite lookup_item_snoc, Hl. simpl.
        by rewrite bool_decide_eq_true_2. }
      exists l', added', dups'. split; [done|]. split; [done|].
      split; [done|]. split.
      { rewrite Hsum. cbn [length]. unfold int_add.
        rewrite wrap_int_id; unfold int_min, int_max in *; lia. }
      split.
      { intros k i Hk. apply Hkeep. by rewrite lookup_item_snoc, Hk. }
      intros d1 [-> | Hd1]%elem_of_cons.
      * eexists. split; [done|]. intros _. exists d. split; [by left|done].
      * destruct (Hin d1 Hd1) as (i & Hi & Hnew). exists i.
        split; [done|]. intros Hnone.
        destruct (decide (queue.DefKey d = queue.DefKey d1)) as [Heq|Hne].
        -- exists d. split; [by left|]. split; [done|].
           rewrite <- Heq, Hd0 in Hi. by injection Hi.
        -- destruct Hnew as (d' & Hd'in & Hk & ->).
           { rewrite lookup_item_snoc, Hnone. simpl.
             by rewrite bool_decide_eq_false_2. }
           exists d'. split; [by right|done].
Qed.

Lemma rpl_add_all (defs : list (queue.ItemDef Job))
    (m : gmap string (gset string)) :
  let m' := foldl (λ m def, rpl_add (RepGroup (queue.DefData def))
                              (queue.DefKey def) m) m defs in
  (∀ rp keys k, m !! rp = Some keys → k ∈ keys →
                ∃ keys', m' !! rp = Some keys' ∧ k ∈ keys')
  ∧ (∀ def, def ∈ defs →
       ∃ keys, m' !! RepGroup (queue.DefData def) = Some keys
               ∧ queue.DefKey def ∈ keys).
Proof.
  clear rest. revert m. induction defs as [|d defs IH]; intros m; simpl.
  - split; [by eauto|]. intros def Hd. by apply elem_of_nil in Hd.
  - destruct (IH (rpl_add (RepGroup (queue.DefData d)) (queue.DefKey d) m))
      as [IH1 IH2].
    assert (Hadd : ∀ rp keys k, m !! rp = Some keys → k ∈ keys →
              ∃ keys', rpl_add (RepGroup (queue.DefData d))
                         (queue.DefKey d) m !! rp = Some keys'
                       ∧ k ∈ keys').
    { intros rp keys k Hrp Hk. unfold rpl_add.
      destruct (decide (RepGroup (queue.DefData d) = rp)) as [<- | Hne].
      - rewrite lookup_insert_eq, Hrp. simpl. eexists. split; [done|].
        set_solver.
      - rewrite lookup_insert_ne by done. eauto. }
    split.
    + intros rp keys k Hrp Hk.
      destruct (Hadd rp keys k Hrp Hk) as (keys1 & Hrp1 & Hk1).
      by eapply IH1.
    + intros def [-> | Hd]%elem_of_cons; [|by apply IH2].
      eapply IH1.
      * unfold rpl_add. by rewrite lookup_insert_eq.
      * set_solver.
Qed.

(** The 2016 add, when the database takes both writes: the counts of the
    reply add up to the number of jobs of the request; an item already in
    the queue stays as it is, so that a job whose key is queued counts as a
    duplicate and changes nothing; every other job's key gets a ready item
    whose job has 3 releases until buried and the key of the stored
    environment; and every job's key is in [rpl] under its RepGroup. *)
Theorem add_2016_queues_the_jobs now s cr env jobs :
  cr_Method cr = "add" → cr_Env cr = Some env → cr_Jobs cr = Some jobs →
  db.faults (V2016.db s) !! 0%nat ≠ Some true →
  db.faults (V2016.db s) !! 1%nat ≠ Some true →
  Z.of_nat (length jobs) <= int_max →
  let q0 := V2016.the_queue s (cr_Queue cr) in
  ∃ s' added dups,
    V2016.handleRequest rest now s cr = (s', addedResponse added dups)
    ∧ 0 <= added ∧ 0 <= dups ∧ added + dups = Z.of_nat (length jobs)
    ∧ (∀ k i, queue.lookup_item k (queue.items q0) = Some i →
              queue.lookup_item k
                (queue.items (V2016.the_queue s' (cr_Queue cr)))
              = Some i)
    ∧ (∀ j, j ∈ jobs →
         ∃ i, queue.lookup_item (Key j)
                (queue.items (V2016.the_queue s' (cr_Queue cr)))
              = Some i
              ∧ (queue.lookup_item (Key j) (queue.items q0) = None →
                   queue.State i = queue.ItemStateReady
                   ∧ UntilBuried (queue.Data i) = 3
                   ∧ EnvKey (queue.Data i) = envKey env
                   ∧ ∃ j', j' ∈ jobs ∧ Key j' = Key j
                           ∧ Cmd (queue.Data i) = Cmd j'
                           ∧ RepGroup (queue.Data i) = RepGroup j'))
    ∧ (∀ j, j ∈ jobs →
         ∃ keys, V2016.rpl s' !! RepGroup j = Some keys ∧ Key j ∈ keys).
Proof.
  intros Hm Henv Hjobs Hf0 Hf1 Hlen q0.
  set (stamped := λ job, set_UntilBuried 3 (set_EnvKey (envKey env) job)).
  set (defs := V2016.new_itemdef <$> (stamped <$> jobs)).
  destruct (add_each_spec defs (queue.items q0) 0 0)
    as (l' & added & dups & Heach & Ha & Hd & Hsum & Hkeep & Hin);
    [done|done|subst defs; rewrite !length_fmap; lia|].
  destruct (rpl_add_all defs (V2016.rpl s)) as [_ Hrpl].
  assert (Hdef : ∀ j, j ∈ jobs → V2016.new_itemdef (stamped j) ∈ defs).
  { intros j Hj. subst defs. by do 2 apply list_elem_of_fmap_2. }
  exists (V2016.set_rpl
            (foldl (λ m def, rpl_add (RepGroup (queue.DefData def))
                               (queue.DefKey def) m) (V2016.rpl s) defs)
            (V2016.put_queue (cr_Queue cr) (queue.set_items l' q0)
               (V2016.set_db
                  (db.storeNewJobs
                     (db.storeEnv (V2016.db s) env).1.1
                     (stamped <$> jobs)).1 s))),
         added, dups.
  split.
  { unfold V2016.handleRequest, V2016.dispatch. simpl. rewrite Hm.
    pick_case. unfold V2016.add. rewrite Henv, Hjobs.
    unfold db.storeEnv, db.storeNewJobs, db.next_write. simpl.
    destruct (db.faults (V2016.db s)) as [|[] [|[] f]] eqn:Hf; simpl;
      rewrite ?Hf; simpl; try done;
      unfold queue.AddMany; rewrite the_queue_made; fold q0 stamped defs;
      rewrite Heach; simpl; unfold V2016.put_queue; simpl;
      by rewrite insert_insert_eq. }
  split; [done|]. split; [done|].
  split; [subst defs; rewrite !length_fmap in Hsum; lia|].
  unfold V2016.the_queue at 1 2. simpl. rewrite lookup_insert_eq. simpl.
  split; [done|]. split.
  - intros j Hj. destruct (Hin _ (Hdef j Hj)) as (i & Hi & Hnew).
    exists i. split; [done|]. intros Hnone.
    destruct (Hnew Hnone) as (d' & Hd' & Hk & ->).
    subst defs. apply list_elem_of_fmap in Hd' as (j1 & -> & Hj1).
    apply list_elem_of_fmap in Hj1 as (j' & -> & Hj').
    do 3 (split; [done|]). exists j'. done.
  - intros j Hj. apply (Hrpl _ (Hdef j Hj)).
Qed.

End V2016_properties.

(** * jrelease in the two revisions *)

Section jrelease_properties.
Context `{Externals}.
Variable rest16 : string → V2016.Server → clientRequest → Handled V2016.Server.
Variable decrementGroupCount : V2019.Server → string → V2019.Server.
Variable releaseJob :
  V2019.Server → Job → JobEndState → string → bool → V2019.Server * bool.
Variable createJobs :
  V2019.Server → list Job → string → bool
  → V2019.Server * (Z * Z * Z) * string * bool.
Variable rest19 : string → V2019.Server → clientRequest → V2019.Result.

(** C2, amended.  A jrelease request whose job [getij] finds in the run
    sub-queue, owned by the client.  In the 2016 revision UntilBuried goes
    down by one exactly when the job exited with a non-zero code; then the
    item is buried when UntilBuried is 0 or less, and else its delay is the
    request's Timeout and it is in the delay sub-queue.  In the 2019
    revision the handler gives the job, the request's end state (with the
    request job's output) and its FailReason to [releaseJob], and replies
    ErrInternalError when that fails and the empty reply when it does not:
    the outcome is the same for every Timeout of the request. *)
Theorem jrelease_buries_or_delays now ticks cr rj item :
  cr_Method cr = "jrelease" → cr_Job cr = Some rj →
  queue.State item = queue.ItemStateRun →
  cr_ClientID cr = ReservedBy (queue.Data item) →
  (∀ s,
     queue.Get (V2016.the_queue s (cr_Queue cr)) (Key rj) = inr item →
     let job := queue.Data item in
     let failed := Exited job && bool_decide (Exitcode job ≠ 0) in
     let until :=
       if failed then int_sub (UntilBuried job) 1 else UntilBuried job in
     ∃ s' item',
       V2016.handleRequest rest16 now s cr = (s', emptyResponse)
       ∧ queue.Get (V2016.the_queue s' (cr_Queue cr)) (Key rj) = inr item'
       ∧ UntilBuried (queue.Data item') = until
       ∧ FailReason (queue.Data item') = FailReason rj
       ∧ (failed = true → int_min < UntilBuried job <= int_max →
            until = UntilBuried job - 1)
       ∧ (until <= 0 →
            queue.State item' = queue.ItemStateBury
            ∧ queue.Delay item' = queue.Delay item)
       ∧ (0 < until →
            queue.State item' = queue.ItemStateDelay
            ∧ queue.Delay item' = cr_Timeout cr))
  ∧ (∀ s q0,
       V2019.token_ok s cr = true → gate_open s q0 →
       queue.Get q0 (Key rj) = inr item →
       let endState :=
         set_ES_Stderr (StdErrC rj)
           (set_ES_Stdout (StdOutC rj) (cr_JobEndState cr)) in
       let released :=
         releaseJob s (queue.Data item) endState (FailReason rj) true in
       V2019.handleRequest decrementGroupCount releaseJob createJobs rest19
         now ticks s cr
       = (released.1,
          Some (reply_of None
                  (if released.2 then ErrInternalError else "")),
          [])
       ∧ ∀ timeout,
           V2019.handleRequest decrementGroupCount releaseJob createJobs
             rest19 now ticks s (set_cr_Timeout timeout cr)
           = V2019.handleRequest decrementGroupCount releaseJob createJobs
               rest19 now ticks s cr).
Proof.
  intros Hm Hj Hst Hid. split.
  - intros s Hg. by apply jrelease_2016.
  - intros s q0 Htok Hgate Hg. by apply (jrelease_hands_over _ _ _ _ _ _ _ q0).
Qed.

End jrelease_properties.

(** * More of the 2016 switch: jend, jdel and itemToJob *)

Section V2016_more_properties.
Context `{Externals}.

Lemma remove_item_keys {D} k (l : list (queue.Item D)) y :
  y ∈ queue.Key <$> queue.remove_item k l → y ∈ queue.Key <$> l.
Proof.
  induction l as [|x l IH]; simpl; [done|].
  case_bool_decide; rewrite ?fmap_cons; set_solver.
Qed.

Lemma NoDup_remove_item {D} k (l : list (queue.Item D)) :
  NoDup (queue.Key <$> l) → NoDup (queue.Key <$> queue.remove_item k l).
Proof.
  induction l as [|x l IH]; [done|]. cbn [queue.remove_item].
  rewrite fmap_cons. intros [Hx Hnd]%NoDup_cons.
  case_bool_decide; [done|]. rewrite fmap_cons. apply NoDup_cons.
  split; [|by apply IH]. intros Hin. by apply Hx, (remove_item_keys k).
Qed.

Lemma buried_keys_add (q0 : queue.Queue Job) ks k :
  buried_keys q0 (ks ++ [k])
  = if decide (queue.StateOf q0 k = queue.ItemStateBury)
    then buried_keys q0 ks ∪ {[k]} else buried_keys q0 ks.
Proof.
  unfold buried_keys. rewrite filter_app, list_to_set_app_L.
  rewrite filter_cons, filter_nil.
  case_decide; simpl; set_solver.
Qed.

Lemma buried_keys_in (q0 : queue.Queue Job) ks k :
  k ∈ buried_keys q0 ks
  ↔ k ∈ ks ∧ queue.StateOf q0 k = queue.ItemStateBury.
Proof.
  unfold buried_keys.
  rewrite elem_of_list_to_set, list_elem_of_filter. tauto.
Qed.

Lemma buried_keys_bound (q0 : queue.Queue Job) ks :
  (size (buried_keys q0 ks) ≤ length ks)%nat.
Proof.
  induction ks as [|k ks IH] using rev_ind; [done|].
  rewrite buried_keys_add, length_app. simpl.
  case_decide; [|lia].
  destruct (decide (k ∈ buried_keys q0 ks)) as [Hin | Hout].
  - replace (buried_keys q0 ks ∪ {[k]}) with (buried_keys q0 ks)
      by set_solver. lia.
  - rewrite size_union by set_solver. rewrite size_singleton. lia.
Qed.

Lemma del_loop q0 d0 keys :
  Z.of_nat (length keys) <= int_max →
  NoDup (queue.Key <$> queue.items q0) →
  ∃ q1 d1,
    foldl V2016_more.del_one (q0, d0, 0) keys
    = (q1, d1, Z.of_nat (size (buried_keys q0 keys)))
    ∧ NoDup (queue.Key <$> queue.items q1)
    ∧ (∀ k, queue.lookup_item k (queue.items q1)
            = if decide (k ∈ buried_keys q0 keys) then None
              else queue.lookup_item k (queue.items q0))
    ∧ (db.faults d0 = [] →
         db.faults d1 = []
         ∧ ∀ k, db.live d1 !! k
                = if decide (k ∈ buried_keys q0 keys) then None
                  else db.live d0 !! k)
    ∧ db.complete d1 = db.complete d0.
Proof.
  induction keys as [|k ks IH] using rev_ind; intros Hlen Hnd.
  - exists q0, d0. done.
  - rewrite length_app in Hlen. simpl in Hlen.
    destruct IH as (q1 & d1 & Hfold & Hnd1 & Hq1 & Hd1 & Hc1); [lia|done|].
    rewrite foldl_app, Hfold. simpl.
    rewrite buried_keys_add.
    unfold V2016_more.del_one, queue.Get. rewrite (Hq1 k).
    destruct (decide (k ∈ buried_keys q0 ks)) as [Hin | Hout].
    + apply buried_keys_in in Hin as Hb. destruct Hb as [_ Hb].
      rewrite decide_True by done.
      exists q1, d1. split; [|split; [done|split; [|split; [|done]]]].
      * by replace (buried_keys q0 ks ∪ {[k]}) with (buried_keys q0 ks)
          by set_solver.
      * intros k'. rewrite Hq1.
        destruct (decide (k' ∈ buried_keys q0 ks)).
        -- rewrite decide_True by set_solver. done.
        -- rewrite decide_False by set_solver. done.
      * intros Hf. destruct (Hd1 Hf) as [Hf1 Hl1]. split; [done|].
        intros k'. rewrite Hl1.
        destruct (decide (k' ∈ buried_keys q0 ks)).
        -- rewrite decide_True by set_solver. done.
        -- rewrite decide_False by set_solver. done.
    + unfold queue.StateOf.
      destruct (queue.lookup_item k (queue.items q0)) as [i|] eqn:Hl;
        [|by exists q1, d1].
      destruct (decide (queue.State i = queue.ItemStateBury)) as [Hb|Hb];
        [|rewrite bool_decide_eq_true_2 by done; by exists q1, d1].
      rewrite bool_decide_eq_false_2 by (intros Hn; by apply Hn).
      unfold queue.Remove, queue.Get.
      rewrite (Hq1 k), decide_False by done. rewrite Hl.
      eexists _, _. split; [|split; [|split; [|split]]].
      * f_equal. rewrite size_union by set_solver. rewrite size_singleton.
        pose proof (buried_keys_bound q0 ks).
        unfold int_add. rewrite wrap_int_id; unfold int_min; lia.
      * simpl. by apply NoDup_remove_item.
      * intros k'. simpl. destruct (decide (k = k')) as [<- | Hne].
        -- rewrite decide_True by set_solver.
           by apply lookup_remove_item_eq.
        -- rewrite lookup_remove_item by done. rewrite Hq1.
           destruct (decide (k' ∈ buried_keys q0 ks)).
           ++ rewrite decide_True by set_solver. done.
           ++ rewrite decide_False by set_solver. done.
      * intros Hf. destruct (Hd1 Hf) as [Hf1 Hl1].
        unfold db.deleteLiveJob, db.next_write. rewrite Hf1. simpl.
        split; [done|]. intros k'.
        destruct (decide (k = k')) as [<- | Hne].
        -- rewrite decide_True by set_solver. by rewrite lookup_delete_eq.
        -- rewrite lookup_delete_ne by done. rewrite Hl1.
           destruct (decide (k' ∈ buried_keys q0 ks)).
           ++ rewrite decide_True by set_solver. done.
           ++ rewrite decide_False by set_solver. done.
      * unfold db.deleteLiveJob, db.next_write.
        destruct (db.faults d1) as [|[] f]; simpl; done.
Qed.

(** The 2016 jdel with a list of keys: the keys of the list whose item is in
    the bury sub-queue leave the queue, every other item stays, and the reply
    counts the keys deleted.  The index [rpl] keeps the deleted keys.  When
    the database takes every write, the live rows of the deleted keys are
    gone and the other rows are as before. *)
Theorem jdel_2016_deletes_the_buried s cr keys :
  cr_Keys cr = Some keys → Z.of_nat (length keys) <= int_max →
  NoDup (queue.Key <$> queue.items (V2016.the_queue s (cr_Queue cr))) →
  let q0 := V2016.the_queue s (cr_Queue cr) in
  let deleted := buried_keys q0 keys in
  let r := V2016_more.jdel s cr in
  r.1.2 = Some (existedResponse (Z.of_nat (size deleted))) ∧ r.2 = ""
  ∧ (∀ k, k ∈ deleted ↔ k ∈ keys ∧ queue.StateOf q0 k = queue.ItemStateBury)
  ∧ (∀ k, queue.lookup_item k
            (queue.items (V2016.the_queue r.1.1 (cr_Queue cr)))
          = if decide (k ∈ deleted) then None
            else queue.lookup_item k (queue.items q0))
  ∧ V2016.rpl r.1.1 = V2016.rpl s
  ∧ V2016.sgroupcounts r.1.1 = V2016.sgroupcounts s
  ∧ db.complete (V2016.db r.1.1) = db.complete (V2016.db s)
  ∧ (db.faults (V2016.db s) = [] →
       ∀ k, db.live (V2016.db r.1.1) !! k
            = if decide (k ∈ deleted) then None
              else db.live (V2016.db s) !! k).
Proof.
  intros Hkeys Hlen Hnd q0 deleted r.
  destruct (del_loop q0 (V2016.db s) keys Hlen Hnd)
    as (q1 & d1 & Hfold & _ & Hq1 & Hd1 & Hc1).
  subst r. unfold V2016_more.jdel. rewrite Hkeys. fold q0.
  rewrite Hfold. cbn [fst snd].
  split; [done|]. split; [done|]. split; [apply buried_keys_in|].
  split.
  { intros k. unfold V2016.the_queue, V2016.put_queue. simpl.
    rewrite lookup_insert_eq. simpl. apply Hq1. }
  do 3 (split; [done|]). intros Hf. by apply Hd1.
Qed.

(** The 2016 jend of a job the client holds: the job, still in the run
    sub-queue, has exited with the request's exit code, peak memory and CPU
    time, and ended now.  When the database takes the write, the job's output
    is what [retrieveJobStd] answers for its key; when it does not, the reply
    is ErrDBError, and the job keeps the exit it recorded. *)
Theorem jend_2016_records_the_exit now s cr rj item :
  cr_Job cr = Some rj →
  queue.Get (V2016.the_queue s (cr_Queue cr)) (Key rj) = inr item →
  queue.State item = queue.ItemStateRun →
  cr_ClientID cr = ReservedBy (queue.Data item) →
  let r := V2016_more.jend now s cr in
  ∃ item',
    queue.Get (V2016.the_queue r.1.1 (cr_Queue cr)) (Key rj) = inr item'
    ∧ queue.State item' = queue.ItemStateRun
    ∧ Exited (queue.Data item') = true
    ∧ Exitcode (queue.Data item') = Exitcode rj
    ∧ PeakRAM (queue.Data item') = PeakRAM rj
    ∧ CPUtime (queue.Data item') = CPUtime rj
    ∧ EndTime (queue.Data item') = Some now
    ∧ StartTime (queue.Data item') = StartTime (queue.Data item)
    ∧ r.1.2 = None
    ∧ ((db.next_write (V2016.db s)).1 = true →
         r.2 = ErrDBError
         ∧ db.stds (V2016.db r.1.1) = db.stds (V2016.db s))
    ∧ ((db.next_write (V2016.db s)).1 = false →
         r.2 = ""
         ∧ db.retrieveJobStd (V2016.db r.1.1) (Key (queue.Data item))
           = (StdOutC rj, StdErrC rj)).
Proof.
  intros Hj Hg Hst Hid r.
  apply Get_lookup in Hg as Hl.
  pose proof (lookup_item_key _ _ _ Hl) as Hkey.
  subst r. unfold V2016_more.jend, V2016.with_ij, V2016.getij.
  rewrite Hj, Hg, !bool_decide_eq_true_2 by done. pick_case.
  rewrite Hkey. set (job := set_EndTime _ _).
  change (Key job) with (Key (queue.Data item)).
  unfold V2016_more.updateJobStd.
  destruct (db.next_write (V2016.db s)) as [failed d] eqn:Hw.
  exists (queue.set_Data job item).
  assert (Hq : ∀ s1,
            queue.Get
              (V2016.the_queue
                 (V2016.put_queue (cr_Queue cr)
                    (queue.update_data (λ _, job) (Key rj)
                       (V2016.the_queue s (cr_Queue cr))) s1)
                 (cr_Queue cr)) (Key rj)
            = inr (queue.set_Data job item)).
  { intros s1. rewrite the_queue_put.
    apply Get_lookup. by rewrite lookup_update_data, Hl. }
  destruct failed; cbn [fst snd].
  - split; [apply Hq|]. do 8 (split; [done|]).
    split; [|done]. intros _. split; [done|].
    unfold db.next_write in Hw. simpl.
    by destruct (db.faults (V2016.db s)); simplify_eq.
  - split; [apply Hq|]. do 8 (split; [done|]).
    split; [done|]. intros _. split; [done|].
    unfold db.retrieveJobStd. simpl. by rewrite lookup_insert_eq.
Qed.

(** The 2016 [itemToJob]: the state of the copy is read off the item's
    sub-queue alone, so that a started job in the run sub-queue is handed out
    as reserved and no job as running.  The walltime is 0 for a job without
    start time, the time since the start while the job has no end time or is
    in the run sub-queue, and else the time from start to end.  The copy
    has the job's key and carries neither its times nor its environment
    key. *)
Theorem itemToJob_2016_state now s item getstd getenv :
  let job := V2016_more.itemToJob now s item getstd getenv in
  let sjob := queue.Data item in
  State job ∈ [JobStateDelayed; JobStateReady; JobStateReserved;
               JobStateBuried; JobStateUnknown]
  ∧ (queue.State item = queue.ItemStateRun → State job = JobStateReserved)
  ∧ (IsZero (StartTime sjob) = true → Walltime job = 0)
  ∧ (IsZero (StartTime sjob) = false →
       queue.State item = queue.ItemStateRun
       ∨ IsZero (EndTime sjob) = true →
       Walltime job = Sub (Some now) (StartTime sjob))
  ∧ (IsZero (StartTime sjob) = false →
       queue.State item ≠ queue.ItemStateRun →
       IsZero (EndTime sjob) = false →
       Walltime job = Sub (EndTime sjob) (StartTime sjob))
  ∧ EnvC job
    = (if getenv then db.retrieveEnv (V2016.db s) (EnvKey sjob) else [])
  ∧ Key job = Key sjob
  ∧ StartTime job = None ∧ EndTime job = None ∧ EnvKey job = "".
Proof.
  intros job sjob.
  assert (Hf : State job
               = match queue.State item with
                 | queue.ItemStateDelay => JobStateDelayed
                 | queue.ItemStateReady => JobStateReady
                 | queue.ItemStateRun => JobStateReserved
                 | queue.ItemStateBury => JobStateBuried
                 | _ => JobStateUnknown
                 end
               ∧ Walltime job
                 = (if negb (IsZero (StartTime sjob)) then
                      if IsZero (EndTime sjob)
                         || bool_decide (queue.State item
                                         = queue.ItemStateRun)
                      then Sub (Some now) (StartTime sjob)
                      else Sub (EndTime sjob) (StartTime sjob)
                    else 0)
               ∧ EnvC job
                 = (if getenv
                    then db.retrieveEnv (V2016.db s) (EnvKey sjob) else [])
               ∧ Key job = Key sjob
               ∧ StartTime job = None ∧ EndTime job = None
               ∧ EnvKey job = "").
  { subst job. unfold V2016_more.itemToJob. fold sjob.
    destruct getenv, getstd; simpl;
      destruct (Exited sjob), (bool_decide (Exitcode sjob ≠ 0)); simpl;
      (split; [done|]); (split; [|done]);
      destruct (queue.State item); simpl; try done;
      by rewrite ?orb_true_r, ?orb_false_r. }
  destruct Hf as (Hstate & Hwall & Henv & Hrest).
  rewrite Hstate, Hwall.
  split; [destruct (queue.State item); set_solver|].
  split; [by intros ->|].
  split; [by intros ->|].
  split.
  { intros -> [-> | ->]; simpl; [|done]. by rewrite orb_true_r. }
  split; [|done].
  intros -> Hrun ->. simpl. by rewrite bool_decide_eq_false_2.
Qed.

End V2016_more_properties.

(** * Timing averages *)

Section timing_properties.
Context `{Float64}.

Lemma stores_snoc a ss x :
  timing.stores a (ss ++ [x])
  = match timing.stores a ss with
    | Some (a', rs) =>
        match timing.store a' x with
        | Some (a'', r) => Some (a'', rs ++ [r])
        | None => None
        end
    | None => None
    end.
Proof.
  revert a. induction ss as [|s ss IH]; intros a; simpl.
  - by destruct (timing.store a x) as [[a' r]|].
  - destruct (timing.store a s) as [[a' r]|]; [|done].
    rewrite IH. destruct (timing.stores a' ss) as [[a'' rs]|]; [|done].
    by destruct (timing.store a'' x) as [[a3 r3]|].
Qed.

Lemma stores_below ss :
  (length ss < 1000)%nat →
  timing.stores timing.new_timingAvg ss
  = Some ({| timing.timings :=
               ss ++ replicate (1000 - length ss) (of_int 0);
             timing.count := Z.of_nat (length ss) |},
          replicate (length ss) (of_int 0)).
Proof.
  induction ss as [|x ss IH] using rev_ind; intros Hlen; [done|].
  rewrite length_app in Hlen. simpl in Hlen.
  rewrite stores_snoc, IH by lia.
  unfold timing.store. cbn [timing.count timing.timings].
  rewrite bool_decide_eq_true_2 by lia.
  assert (int_add (Z.of_nat (length ss)) 1 = Z.of_nat (length ss) + 1)
    as ->.
  { unfold int_add. apply wrap_int_id. unfold int_min, int_max. lia. }
  rewrite (proj2 (Z.eqb_neq _ _)) by lia.
  rewrite Nat2Z.id, length_app. simpl.
  rewrite insert_app_r_alt by lia. rewrite Nat.sub_diag.
  replace (1000 - length ss)%nat with (S (1000 - (length ss + 1)))%nat
    by lia.
  cbn [replicate]. cbn [insert list_insert].
  rewrite <- app_assoc. cbn [app].
  do 3 f_equal; [lia|].
  replace (length ss + 1)%nat with (S (length ss)) by lia.
  by rewrite replicate_S_end.
Qed.

Lemma stores_thousand ss :
  length ss = 1000%nat →
  timing.stores timing.new_timingAvg ss
  = Some (timing.new_timingAvg,
          replicate 999 (of_int 0)
          ++ [fdiv (foldl fadd (of_int 0) ss) (of_int 1000)]).
Proof.
  intros Hlen.
  destruct ss as [|x ss _] using rev_ind; [done|].
  rewrite length_app in Hlen. simpl in Hlen.
  rewrite stores_snoc, stores_below by lia.
  unfold timing.store. cbn [timing.count timing.timings].
  rewrite bool_decide_eq_true_2 by lia.
  assert (int_add (Z.of_nat (length ss)) 1 = 1000) as ->.
  { unfold int_add. rewrite wrap_int_id; unfold int_min, int_max; lia. }
  cbn [Z.eqb Pos.eqb]. rewrite Nat2Z.id.
  rewrite insert_app_r_alt by lia. rewrite Nat.sub_diag.
  replace (1000 - length ss)%nat with 1%nat by lia.
  replace (length ss) with 999%nat by lia. done.
Qed.

(** [store], called on a new [timingAvg]: each of the first 999 calls
    records its timing and answers 0; the call that makes them 1000 answers
    the sum of the thousand timings, added up from 0 in the order they came,
    divided by 1000, and leaves a new [timingAvg] that counts from 0 again.
    No call indexes the array out of its range. *)
Theorem store_averages_every_thousand ss :
  ((length ss < 1000)%nat →
     ∃ a, timing.stores timing.new_timingAvg ss
          = Some (a, replicate (length ss) (of_int 0))
          ∧ timing.count a = Z.of_nat (length ss)
          ∧ take (length ss) (timing.timings a) = ss
          ∧ length (timing.timings a) = 1000%nat)
  ∧ (length ss = 1000%nat →
     timing.stores timing.new_timingAvg ss
     = Some (timing.new_timingAvg,
             replicate 999 (of_int 0)
             ++ [fdiv (foldl fadd (of_int 0) ss) (of_int 1000)])).
Proof.
  split; [|apply stores_thousand].
  intros Hlen. eexists. split; [by apply stores_below|].
  split; [done|]. simpl. split.
  - by rewrite take_app_length.
  - rewrite length_app, length_replicate. lia.
Qed.

Lemma logTimingsEach_stores desc tooks :
  desc ≠ "" →
  ∀ m log a rs,
    timing.stores (default timing.new_timingAvg (m !! desc)) tooks
    = Some (a, rs) →
    ∃ m',
      timing.logTimingsEach m log desc tooks
      = Some (m', log ++ ((λ r, (desc, r))
                            <$> filter (λ r, is_positive r = true) rs))
      ∧ default timing.new_timingAvg (m' !! desc) = a
      ∧ ∀ k, k ≠ desc → m' !! k = m !! k.
Proof.
  intros Hdesc. induction tooks as [|took tooks IH]; intros m log a rs; simpl.
  - intros [= <- <-]. exists m. by rewrite filter_nil, app_nil_r.
  - unfold timing.logTimings. rewrite (bool_decide_eq_false_2 _ Hdesc).
    destruct (timing.store _ took) as [[a1 r]|]; [|done].
    destruct (timing.stores a1 tooks) as [[a2 rs2]|] eqn:Hrest; [|done].
    intros [= <- <-].
    destruct (IH (<[desc := a1]> m)
                (if is_positive r then log ++ [(desc, r)] else log) a2 rs2)
      as (m' & Heach & Ha & Hm').
    { by rewrite lookup_insert_eq. }
    exists m'. split; [|split; [done|]].
    + rewrite Heach. f_equal. f_equal. rewrite filter_cons.
      destruct (is_positive r); simpl; [|done].
      by rewrite <- app_assoc.
    + intros k Hk. rewrite Hm' by done. by rewrite lookup_insert_ne.
Qed.

(** [logTimings], called a thousand times with a description that is new
    and not empty: the thousandth call writes the one log line, the average
    of the thousand timings under that description, when that average is
    above 0, and no call writes any other line; the description's
    [timingAvg] counts from 0 again.  A call without description does
    nothing. *)
Theorem logTimings_logs_the_average m log desc tooks :
  is_positive (of_int 0) = false →
  (∀ took, timing.logTimings m log "" took = Some (m, log))
  ∧ (desc ≠ "" → m !! desc = None → length tooks = 1000%nat →
     let avg := fdiv (foldl fadd (of_int 0) tooks) (of_int 1000) in
     ∃ m',
       timing.logTimingsEach m log desc tooks
       = Some (m', if is_positive avg then log ++ [(desc, avg)] else log)
       ∧ default timing.new_timingAvg (m' !! desc) = timing.new_timingAvg
       ∧ ∀ k, k ≠ desc → m' !! k = m !! k).
Proof.
  intros Hzero. split; [done|].
  intros Hdesc Hnew Hlen avg.
  destruct (logTimingsEach_stores desc tooks Hdesc m log
              timing.new_timingAvg
              (replicate 999 (of_int 0) ++ [avg]))
    as (m' & Heach & Ha & Hm').
  { rewrite Hnew. simpl.
    by apply stores_thousand. }
  exists m'. split; [|done]. rewrite Heach. f_equal. f_equal.
  rewrite filter_app.
  assert (filter (λ r, is_positive r = true) (replicate 999 (of_int 0))
          = []) as ->.
  { generalize 999%nat. intros n. induction n as [|n IH]; [done|].
    simpl. rewrite filter_cons, decide_False; [done|].
    by rewrite Hzero. }
  rewrite filter_cons, filter_nil. simpl.
  destruct (is_positive avg); simpl; [done|]. by rewrite app_nil_r.
Qed.

End timing_properties.

(** * The properties at sample requests *)

#[local] Existing Instance Sample.externals.

(** C9 at a request: a stranger's jtouch of a reserved job. *)
Lemma stranger_touch_is_refused :
  Sample.handle19 Sample.up19 Sample.touch_by_stranger
  = (Sample.up19, Some (errResponse ErrMustReserve), []).
Proof.
  assert (Htok : V2019.token_ok Sample.up19 Sample.touch_by_stranger = true)
    by reflexivity.
  assert (Hgate : gate_open Sample.up19 Sample.cmds) by (split; reflexivity).
  assert (Hm : cr_Method Sample.touch_by_stranger
               ∈ ["jstart"; "jtouch"; "jarchive"; "jrelease"; "jbury"])
    by apply list_elem_of_further, list_elem_of_here.
  assert (Hid : cr_ClientID Sample.touch_by_stranger
                ≠ ReservedBy (queue.Data Sample.item_x)) by discriminate.
  exact (proj2 (proj2 (getij_rejects_without_mutation
                         Sample.decrement19 Sample.release19 Sample.create19
                         Sample.rest19 0 [] Sample.up19 Sample.cmds
                         Sample.touch_by_stranger Htok Hgate Hm))
           (Sample.job "echo x") Sample.item_x eq_refl eq_refl eq_refl Hid).
Defined.

(** C5 at a request: a jkick with a token of the right length and a wrong
    last byte. *)
Lemma guessed_token_is_denied :
  Sample.handle19 Sample.up19 Sample.kick_with_guess
  = (Sample.up19, Some (errResponse ErrPermissionDenied), []).
Proof.
  assert (Hm : cr_Method Sample.kick_with_guess ≠ "ping") by discriminate.
  assert (Htok : length (cr_Token Sample.kick_with_guess) ≠ tokenLength
                 ∨ cr_Token Sample.kick_with_guess ≠ V2019.token Sample.up19)
    by (right; discriminate).
  exact (proj1 (token_check Sample.decrement19 Sample.release19
                  Sample.create19 Sample.rest19 0 [] Sample.up19 Sample.kick_with_guess)
           Hm Htok).
Defined.

(** C6 at a request: a reserve while draining, with a ready item of the
    requested group in the queue. *)
Lemma draining_server_reserves_nothing :
  queue.State <$> queue.lookup_item (Sample.key "echo ready")
                    (queue.items Sample.cmds)
  = Some queue.ItemStateReady
  ∧ Sample.handle19 Sample.draining19 Sample.later_reserve
    = (Sample.draining19, Some emptyResponse, []).
Proof.
  split; [reflexivity|].
  assert (Hid : cr_ClientID Sample.later_reserve ≠ 0%N) by discriminate.
  exact (proj1 (drain_refuses_reserve_only Sample.decrement19
                  Sample.release19 Sample.create19 Sample.rest19 0 []
                  Sample.draining19 Sample.cmds Sample.later_reserve
                  eq_refl eq_refl eq_refl)
           eq_refl Hid).
Defined.



(** C10 at a call: a group with limit groups and no ready item. *)
Lemma unused_increment_is_undone :
  (V2019.reserveWithLimits Sample.up19 Sample.cmds ["small~lim,gpu"]).1.2 = None
  ∧ limiter.count
      (V2019.limiter
         (V2019.reserveWithLimits Sample.up19 Sample.cmds ["small~lim,gpu"]).1.1)
      "lim"
    = limiter.count (V2019.limiter Sample.up19) "lim".
Proof.
  split; [reflexivity|].
  assert (Hgroups : V2019.schedGroupToLimitGroups "small~lim,gpu" ≠ [])
    by discriminate.
  assert (Hres : V2019.reserveWithLimits Sample.up19 Sample.cmds ["small~lim,gpu"]
                 = ((V2019.reserveWithLimits Sample.up19 Sample.cmds
                       ["small~lim,gpu"]).1.1,
                    (V2019.reserveWithLimits Sample.up19 Sample.cmds
                       ["small~lim,gpu"]).1.2,
                    (V2019.reserveWithLimits Sample.up19 Sample.cmds
                       ["small~lim,gpu"]).2))
    by (by destruct (V2019.reserveWithLimits _ _ _) as [[? ?] ?]).
  exact (proj2 (proj1 (proj2 (reserveWithLimits_keeps_limiter_even
                  Sample.up19 Sample.cmds "small~lim,gpu" _ _ _ Hgroups Hres))
                  eq_refl) "lim").
Defined.



(** X1 at a request. *)
Lemma release_with_another_timeout :
  Sample.handle19 Sample.up19 (set_cr_Timeout 1 Sample.release_x)
  = Sample.handle19 Sample.up19 Sample.release_x.
Proof.
  exact (jrelease_ignores_timeout Sample.decrement19 Sample.release19
           Sample.create19 Sample.rest19 0 [] Sample.up19 Sample.release_x 1 eq_refl).
Defined.

(** C8 at a request: of a buried key given twice, a running job's key and
    an unknown key, one job is kicked. *)
Lemma one_buried_job_is_kicked :
  ∃ s' q',
    Sample.handle19 Sample.up19 Sample.kick_some = (s', Some (existedResponse 1), [])
    ∧ V2019.q s' = Some q'
    ∧ queue.StateOf q' (Sample.key "echo buried") = queue.ItemStateReady
    ∧ (UntilBuried ∘ queue.Data
         <$> queue.lookup_item (Sample.key "echo buried") (queue.items q'))
      = Some 3
    ∧ queue.StateOf q' (Sample.key "echo x") = queue.ItemStateRun.
Proof.
  assert (Hgate : gate_open Sample.up19 Sample.cmds) by (split; reflexivity).
  assert (Hlen : Z.of_nat (length (default [] (cr_Keys Sample.kick_some)))
                 <= int_max) by (vm_compute; discriminate).
  assert (Htok : V2019.token_ok Sample.up19 Sample.kick_some = true) by reflexivity.
  destruct (jkick_kicks_the_buried Sample.decrement19 Sample.release19
              Sample.create19 Sample.rest19 0 [] Sample.up19 Sample.cmds Sample.kick_some
              _ Htok Hgate eq_refl eq_refl Hlen)
    as (s' & q' & Hreply & Hq & _ & Hkicked & Hothers).
  exists s', q'.
  destruct (Hkicked (Sample.key "echo buried"))
    as (item & Hitem & Hitem' & Hready & _).
  { apply (bool_decide_unpack _). vm_compute. exact I. }
  injection Hitem as <-.
  repeat apply conj; [exact Hreply|exact Hq|exact Hready|by rewrite Hitem'|].
  unfold queue.StateOf. rewrite Hothers; [reflexivity|].
  apply (bool_decide_unpack _). vm_compute. exact I.
Defined.

(** C2 at two requests: in the 2016 revision the release of a job that
    failed with one release left buries it; in the 2019 revision the release
    is what [releaseJob] makes of it. *)
Lemma last_release_buries :
  (∃ s' item',
     Sample.handle16 (Sample.server16 1 1 []) Sample.release_x
     = (s', emptyResponse)
     ∧ queue.Get (V2016.the_queue s' "cmds") (Sample.key "echo x")
       = inr item'
     ∧ UntilBuried (queue.Data item') = 0
     ∧ queue.State item' = queue.ItemStateBury)
  ∧ Sample.handle19 Sample.up19 Sample.release_x
    = (Sample.up19, Some emptyResponse, []).
Proof.
  assert (Hm : cr_Method Sample.release_x = "jrelease") by reflexivity.
  assert (Hjob : cr_Job Sample.release_x = Some (Sample.job "echo x"))
    by reflexivity.
  assert (Hget : queue.Get (V2016.the_queue (Sample.server16 1 1 [])
                              (cr_Queue Sample.release_x))
                   (Key (Sample.job "echo x"))
                 = inr (Sample.failed_item 1))
    by (vm_compute; reflexivity).
  assert (Hrun : queue.State (Sample.failed_item 1) = queue.ItemStateRun)
    by reflexivity.
  assert (Hid : cr_ClientID Sample.release_x
                = ReservedBy (queue.Data (Sample.failed_item 1)))
    by reflexivity.
  assert (Hgate : gate_open Sample.up19 Sample.cmds) by (split; reflexivity).
  assert (Htok : V2019.token_ok Sample.up19 Sample.release_x = true)
    by reflexivity.
  assert (Hget' : queue.Get Sample.cmds (Key (Sample.job "echo x"))
                  = inr Sample.item_x) by reflexivity.
  assert (Hid' : cr_ClientID Sample.release_x
                 = ReservedBy (queue.Data Sample.item_x)) by reflexivity.
  split.
  - destruct (proj1 (jrelease_buries_or_delays Sample.rest16
                Sample.decrement19 Sample.release19 Sample.create19
                Sample.rest19 0 [] Sample.release_x (Sample.job "echo x")
                (Sample.failed_item 1) Hm Hjob Hrun Hid)
                (Sample.server16 1 1 []) Hget)
      as (s' & item' & Hreply & Hitem & Huntil & _ & _ & Hbury & _).
    exists s', item'.
    repeat apply conj; [exact Hreply|exact Hitem|exact Huntil|].
    apply Hbury. vm_compute. discriminate.
  - exact (proj1 (proj2 (jrelease_buries_or_delays Sample.rest16
                    Sample.decrement19 Sample.release19 Sample.create19
                    Sample.rest19 0 [] Sample.release_x
                    (Sample.job "echo x") Sample.item_x Hm Hjob eq_refl
                    Hid')
                    Sample.up19 Sample.cmds Htok Hgate Hget')).
Defined.

(** C2 as stated fails on the 2019 revision: whatever [releaseJob] is, two
    releases of the same running job by its owner that differ in their
    Timeout only leave the same server, so that the item's delay is not the
    Timeout of both. *)
Lemma jrelease_2019_delay_is_not_the_timeout :
  (queue.Get Sample.cmds (Sample.key "echo x") = inr Sample.item_x
   ∧ queue.State Sample.item_x = queue.ItemStateRun
   ∧ ReservedBy (queue.Data Sample.item_x) = cr_ClientID Sample.release_x)
  ∧ (cr_Timeout (set_cr_Timeout 1 Sample.release_x) = 1
     ∧ cr_Timeout (set_cr_Timeout 2 Sample.release_x) = 2)
  ∧ (∀ releaseJob,
       V2019.handleRequest Sample.decrement19 releaseJob Sample.create19
         Sample.rest19 0 [] Sample.up19 (set_cr_Timeout 1 Sample.release_x)
       = V2019.handleRequest Sample.decrement19 releaseJob Sample.create19
           Sample.rest19 0 [] Sample.up19
           (set_cr_Timeout 2 Sample.release_x))
  ∧ (∀ releaseJob,
       let delay_after timeout :=
         queue.Delay
           <$> (V2019.q
                  (V2019.handleRequest Sample.decrement19 releaseJob
                     Sample.create19 Sample.rest19 0 [] Sample.up19
                     (set_cr_Timeout timeout Sample.release_x)).1.1
                ≫= λ q, queue.lookup_item (Sample.key "echo x")
                           (queue.items q)) in
       delay_after 1 = Some 1 → delay_after 2 ≠ Some 2).
Proof.
  assert (Hgate : gate_open Sample.up19 Sample.cmds) by (split; reflexivity).
  assert (Htok : V2019.token_ok Sample.up19 Sample.release_x = true)
    by reflexivity.
  assert (Hm : cr_Method Sample.release_x = "jrelease") by reflexivity.
  assert (Hjob : cr_Job Sample.release_x = Some (Sample.job "echo x"))
    by reflexivity.
  assert (Hget : queue.Get Sample.cmds (Key (Sample.job "echo x"))
                 = inr Sample.item_x) by reflexivity.
  assert (Hrun : queue.State Sample.item_x = queue.ItemStateRun)
    by reflexivity.
  assert (Hid : cr_ClientID Sample.release_x
                = ReservedBy (queue.Data Sample.item_x)) by reflexivity.
  assert (Hsame : ∀ releaseJob timeout,
    V2019.handleRequest Sample.decrement19 releaseJob Sample.create19
      Sample.rest19 0 [] Sample.up19 (set_cr_Timeout timeout Sample.release_x)
    = V2019.handleRequest Sample.decrement19 releaseJob Sample.create19
        Sample.rest19 0 [] Sample.up19 Sample.release_x).
  { intros releaseJob.
    exact (proj2 (jrelease_hands_over Sample.decrement19 releaseJob
                    Sample.create19 Sample.rest19 0 [] Sample.up19
                    Sample.cmds Sample.release_x (Sample.job "echo x")
                    Sample.item_x Htok Hgate Hm Hjob Hget Hrun Hid)). }
  split; [by repeat apply conj|].
  split; [split; reflexivity|].
  split.
  - intros releaseJob.
    exact (eq_trans (Hsame releaseJob 1) (eq_sym (Hsame releaseJob 2))).
  - intros releaseJob delay_after. subst delay_after. cbv beta.
    rewrite (Hsame releaseJob 1), (Hsame releaseJob 2).
    intros ->. discriminate.
Qed.

(** C2 at a second request: with two releases left the job is delayed by
    the request's timeout. *)
Lemma earlier_release_delays :
  (queue.Delay
     <$> queue.lookup_item (Sample.key "echo x")
           (queue.items
              (V2016.the_queue
                 (Sample.handle16 (Sample.server16 2 1 []) Sample.release_x).1
                 "cmds")))
  = Some (cr_Timeout Sample.release_x).
Proof. vm_compute. reflexivity. Qed.

(** C3 at a call: a decrement from 2 leaves 1 and asks the scheduler for
    one runner. *)
Lemma decrement_from_two :
  V2016.sgroupcounts
    (V2016.decrementGroupCount (Sample.server16 1 2 [])
       (Sample.failing "echo x" 1) "cmds") !! "small" = Some 1
  ∧ (scheduler.count
       <$> V2016.scheduler
             (V2016.decrementGroupCount (Sample.server16 1 2 [])
                (Sample.failing "echo x" 1) "cmds"))
    = [1].
Proof.
  assert (Hok : counts_never_negative
                  (V2016.sgroupcounts (Sample.server16 1 2 []))).
  { intros g c Hg. unfold Sample.server16 in Hg. simpl in Hg.
    apply lookup_singleton_Some in Hg as [_ <-].
    vm_compute. split; discriminate. }
  destruct (proj2 (proj2 (proj2 (proj2 (group_counts_never_negative
              Sample.rest16 0 (Sample.server16 1 2 []) Sample.release_x
              (Sample.failing "echo x" 1) "cmds" [] Hok))))
              2 eq_refl eq_refl) as (Hcount & _ & Hsched).
  split; [exact Hcount|].
  exact (eq_trans (f_equal (fmap scheduler.count) Hsched) eq_refl).
Defined.

(** C3 as stated fails at the last decrement: the count reaches 0, both
    entries are deleted, and the scheduler is not called. *)
Lemma last_decrement_schedules_nothing :
  V2016.sgroupcounts (Sample.server16 1 1 []) !! "small" = Some 1
  ∧ V2016.scheduler (Sample.server16 1 1 []) = []
  ∧ V2016.sgroupcounts
      (V2016.decrementGroupCount (Sample.server16 1 1 [])
         (Sample.failing "echo x" 1) "cmds") !! "small" = None
  ∧ V2016.sgtr
      (V2016.decrementGroupCount (Sample.server16 1 1 [])
         (Sample.failing "echo x" 1) "cmds") !! "small" = None
  ∧ V2016.scheduler
      (V2016.decrementGroupCount (Sample.server16 1 1 [])
         (Sample.failing "echo x" 1) "cmds") = [].
Proof. repeat apply conj; vm_compute; reflexivity. Qed.

(** C7 at a request: the environment is stored and the write of the new
    jobs fails. *)
Lemma failed_job_write_is_reported :
  (Sample.handle16 (Sample.server16 1 1 [false; true]) Sample.add_x).2
  = errResponse ErrDBError
  ∧ V2016.rpl (Sample.handle16 (Sample.server16 1 1 [false; true]) Sample.add_x).1
    = V2016.rpl (Sample.server16 1 1 [false; true])
  ∧ V2016.the_queue
      (Sample.handle16 (Sample.server16 1 1 [false; true]) Sample.add_x).1 "cmds"
    = V2016.the_queue (Sample.server16 1 1 [false; true]) "cmds".
Proof.
  destruct (proj2 (add_replies_after_db_writes Sample.rest16 0
              (Sample.server16 1 1 [false; true]) Sample.add_x _ _ eq_refl
              (surjective_pairing _))
              (mk_is_Some _ _ eq_refl) (mk_is_Some _ _ eq_refl)
              (or_intror eq_refl))
    as (Hreply & Hqueue & Hrpl).
  split; [exact Hreply|]. split; [exact Hrpl|]. exact (Hqueue "cmds").
Defined.

(** * The further properties at sample requests *)

(** A ping with a guessed token, on a server without queue. *)
Lemma closed_server_refuses_a_ping :
  Sample.handle19 Sample.closed19 Sample.ping_with_guess
  = (Sample.closed19, Some (errResponse ErrClosedStop), []).
Proof.
  exact (stopped_server_refuses Sample.decrement19 Sample.release19
           Sample.create19 Sample.rest19 0 [] Sample.closed19
           Sample.ping_with_guess (or_introl eq_refl) (or_intror eq_refl)).
Defined.

(** A reserve with the nil ClientID, on a draining server. *)
Lemma nobody_reserves_while_draining :
  Sample.handle19 Sample.draining19 Sample.reserve_by_nobody
  = (Sample.draining19, Some (errResponse ErrBadRequest), []).
Proof.
  assert (Htok : V2019.token_ok Sample.draining19 Sample.reserve_by_nobody
                 = true) by reflexivity.
  assert (Hgate : gate_open Sample.draining19 Sample.cmds)
    by (split; reflexivity).
  exact (reserve_needs_a_client Sample.decrement19 Sample.release19
           Sample.create19 Sample.rest19 0 [] Sample.draining19 Sample.cmds
           Sample.reserve_by_nobody Htok Hgate eq_refl eq_refl).
Defined.

(** The runner reports the start of the job it holds. *)
Lemma runner_starts_its_job :
  ∃ s' q' item',
    Sample.handle19 Sample.up19 Sample.start_x
    = (s', Some emptyResponse, [])
    ∧ V2019.q s' = Some q'
    ∧ queue.Get q' (Sample.key "echo x") = inr item'
    ∧ Pid (queue.Data item') = 42
    ∧ StartTime (queue.Data item') = Some 0
    ∧ Attempts (queue.Data item') = 1
    ∧ State (queue.Data item') = JobStateRunning.
Proof.
  assert (Htok : V2019.token_ok Sample.up19 Sample.start_x = true)
    by reflexivity.
  assert (Hgate : gate_open Sample.up19 Sample.cmds) by (split; reflexivity).
  assert (Hget : queue.Get Sample.cmds (Key (Sample.running "echo x"))
                 = inr Sample.item_x) by (vm_compute; reflexivity).
  assert (Hpid : 0 < Pid (Sample.running "echo x")) by reflexivity.
  assert (Hhost : Host (Sample.running "echo x") ≠ "") by discriminate.
  destruct (proj2 (jstart_records_the_start Sample.decrement19
                     Sample.release19 Sample.create19 Sample.rest19 0 []
                     Sample.up19 Sample.cmds Sample.start_x
                     (Sample.running "echo x") Sample.item_x
                     Htok Hgate eq_refl eq_refl Hget eq_refl eq_refl)
              Hpid Hhost)
    as (s' & q' & item' & Hreply & Hq & Hg' & _ & Hp & _ & _ & _ & Hstart
        & _ & Hatt & _ & _ & Hstate & _).
  exists s', q', item'.
  repeat apply conj;
    [exact Hreply|exact Hq|exact Hg'|exact Hp|exact Hstart| |exact Hstate].
  rewrite Hatt. vm_compute. reflexivity.
Defined.

(** The runner touches the job it holds; no kill was called. *)
Lemma runner_touches_its_job :
  ∃ s' q',
    Sample.handle19 Sample.up19 Sample.touch_x
    = (s', Some (killCalledResponse false), [])
    ∧ V2019.q s' = Some q'
    ∧ queue.lookup_item (Sample.key "echo x") (queue.items q')
      = Some Sample.item_x.
Proof.
  assert (Htok : V2019.token_ok Sample.up19 Sample.touch_x = true)
    by reflexivity.
  assert (Hgate : gate_open Sample.up19 Sample.cmds) by (split; reflexivity).
  assert (Hget : queue.Get Sample.cmds (Key (Sample.job "echo x"))
                 = inr Sample.item_x) by (vm_compute; reflexivity).
  destruct (proj2 (jtouch_reports_kill Sample.decrement19 Sample.release19
                     Sample.create19 Sample.rest19 0 [] Sample.up19
                     Sample.cmds Sample.touch_x (Sample.job "echo x")
                     Sample.item_x Htok Hgate eq_refl eq_refl Hget eq_refl
                     eq_refl)
              eq_refl eq_refl)
    as (s' & q' & Hreply & Hq & _ & _ & Hkeep & _).
  exists s', q'.
  repeat apply conj; [exact Hreply|exact Hq|exact (proj1 (Hkeep eq_refl))].
Defined.

(** The runner buries the job it holds. *)
Lemma runner_buries_its_job :
  ∃ s1 q1 item',
    V2019.q s1 = Some q1
    ∧ queue.Get q1 (Sample.key "echo x") = inr item'
    ∧ queue.State item' = queue.ItemStateBury
    ∧ FailReason (queue.Data item') = "failed"
    ∧ (Sample.handle19 Sample.up19 Sample.bury_x).1.2 = Some emptyResponse
    ∧ (Sample.handle19 Sample.up19 Sample.bury_x).2 = [].
Proof.
  assert (Htok : V2019.token_ok Sample.up19 Sample.bury_x = true)
    by reflexivity.
  assert (Hgate : gate_open Sample.up19 Sample.cmds) by (split; reflexivity).
  assert (Hget : queue.Get Sample.cmds
                   (Key (set_FailReason "failed" (Sample.job "echo x")))
                 = inr Sample.item_x) by (vm_compute; reflexivity).
  destruct (jbury_buries_and_decrements Sample.decrement19 Sample.release19
              Sample.create19 Sample.rest19 0 [] Sample.up19 Sample.cmds
              Sample.bury_x (set_FailReason "failed" (Sample.job "echo x"))
              Sample.item_x Htok Hgate eq_refl eq_refl Hget eq_refl eq_refl)
    as (s1 & q1 & item' & Hq & Hg' & Hst & _ & Hfail & _ & _ & _ & _ & _
        & _ & Hreply).
  exists s1, q1, item'. unfold Sample.handle19. rewrite Hreply.
  repeat apply conj;
    [exact Hq|exact Hg'|exact Hst|exact Hfail|reflexivity|reflexivity].
Defined.

(** A first reserve on the server without runner command gets the ready job
    of its group, clean. *)
Lemma reserved_job_is_fresh :
  ∃ job,
    (Sample.handle19 Sample.manual19 Sample.first_reserve).1.2
    = Some (jobResponse job)
    ∧ fresh_for Sample.runner job
    ∧ Cmd job = "echo ready"
    ∧ EnvCRetrieved job = true.
Proof.
  assert (Htok : V2019.token_ok Sample.manual19 Sample.first_reserve = true)
    by reflexivity.
  assert (Hgate : gate_open Sample.manual19 Sample.cmds)
    by (split; reflexivity).
  assert (Hid : cr_ClientID Sample.first_reserve ≠ 0%N) by discriminate.
  assert (Hnd : NoDup (queue.Key <$> queue.items Sample.cmds)).
  { apply (bool_decide_unpack _). vm_compute. exact I. }
  assert (Hfa : V2019.first_attempt Sample.manual19 Sample.cmds
                  Sample.first_reserve
                = ((V2019.first_attempt Sample.manual19 Sample.cmds
                      Sample.first_reserve).1.1,
                   Some (Sample.item queue.ItemStateRun
                           (Sample.job "echo ready")),
                   None)) by (vm_compute; reflexivity).
  destruct (reserve_gives_a_fresh_job Sample.decrement19 Sample.release19
              Sample.create19 Sample.rest19 0 [] Sample.manual19
              Sample.cmds Sample.first_reserve _ _
              Htok Hgate eq_refl eq_refl Hid Hnd Hfa)
    as (s' & q' & item' & job & Hreply & _ & _ & _ & _ & _ & Hfresh & Hcmd
        & _ & _ & _ & Henv & _).
  exists job. unfold Sample.handle19. rewrite Hreply.
  split; [reflexivity|]. split; [exact Hfresh|].
  split; [exact Hcmd|exact Henv].
Defined.

(** A jkick by a client that holds nothing. *)
Lemma stranger_kicks_as_well :
  Sample.handle19 Sample.up19
    (set_cr_ClientID Sample.stranger Sample.kick_buried)
  = Sample.handle19 Sample.up19 Sample.kick_buried.
Proof.
  exact (jkick_ignores_the_client Sample.decrement19 Sample.release19
           Sample.create19 Sample.rest19 0 [] Sample.up19 Sample.kick_buried
           Sample.stranger eq_refl).
Defined.

(** The same jkick a second time. *)
Lemma second_kick_finds_nothing :
  Sample.handle19 (Sample.handle19 Sample.up19 Sample.kick_buried).1.1
    Sample.kick_buried
  = ((Sample.handle19 Sample.up19 Sample.kick_buried).1.1,
     Some (existedResponse 0), []).
Proof.
  assert (Htok : V2019.token_ok Sample.up19 Sample.kick_buried = true)
    by reflexivity.
  assert (Hgate : gate_open Sample.up19 Sample.cmds) by (split; reflexivity).
  assert (Hlen : Z.of_nat (length [Sample.key "echo buried"]) <= int_max)
    by (vm_compute; discriminate).
  exact (jkick_again_kicks_nothing Sample.decrement19 Sample.release19
           Sample.create19 Sample.rest19 0 [] 0 [] Sample.up19 Sample.cmds
           Sample.kick_buried [Sample.key "echo buried"]
           Htok Hgate eq_refl eq_refl Hlen).
Defined.

(** The runner archives its job and then touches it. *)
Lemma touch_after_archive_is_refused :
  (Sample.handle19 Sample.up19 Sample.archive_x).1.2 = Some emptyResponse
  ∧ Sample.handle19 (Sample.handle19 Sample.up19 Sample.archive_x).1.1
      Sample.touch_x
    = ((Sample.handle19 Sample.up19 Sample.archive_x).1.1,
       Some (errResponse ErrBadJob), []).
Proof.
  assert (Htok : V2019.token_ok Sample.up19 Sample.archive_x = true)
    by reflexivity.
  assert (Htok' : V2019.token_ok Sample.up19 Sample.touch_x = true)
    by reflexivity.
  assert (Hgate : gate_open Sample.up19 Sample.cmds) by (split; reflexivity).
  assert (Hget : queue.Get Sample.cmds (Key (Sample.job "echo x"))
                 = inr Sample.item_x) by (vm_compute; reflexivity).
  assert (Hok : exit_ok
                  (updateAfterExit (cr_JobEndState Sample.archive_x)
                     (V2019.limiter Sample.up19)
                     (queue.Data Sample.item_x)).1 = true)
    by (vm_compute; reflexivity).
  assert (Hnd : NoDup (queue.Key <$> queue.items Sample.cmds)).
  { apply (bool_decide_unpack _). vm_compute. exact I. }
  assert (Hm : cr_Method Sample.touch_x
               ∈ ["jstart"; "jtouch"; "jarchive"; "jrelease"; "jbury"])
    by apply list_elem_of_further, list_elem_of_here.
  exact (archived_job_is_gone Sample.decrement19 Sample.release19
           Sample.create19 Sample.rest19 0 [] 0 [] Sample.up19 Sample.cmds
           Sample.archive_x (Sample.job "echo x") Sample.item_x
           Sample.touch_x (Sample.job "echo x")
           Htok Hgate eq_refl eq_refl Hget eq_refl eq_refl Hok eq_refl
           eq_refl Hnd Htok' Hm eq_refl eq_refl).
Defined.

(** A reserve for a group without limit groups. *)
Lemma plain_group_leaves_the_limiter :
  V2019.limiter
    (V2019.reserveWithLimits Sample.up19 Sample.cmds ["small"]).1.1
  = V2019.limiter Sample.up19
  ∧ (queue.Key
       <$> (V2019.reserveWithLimits Sample.up19 Sample.cmds ["small"]).1.2)
    = Some (Sample.key "echo ready").
Proof.
  assert (Hnone : ∀ g, ["small"] = [g] →
                       V2019.schedGroupToLimitGroups g = []).
  { intros g [= <-]. vm_compute. reflexivity. }
  rewrite (reserveWithLimits_without_limit_groups Sample.up19 Sample.cmds
             ["small"] Hnone).
  split; [reflexivity|]. vm_compute. reflexivity.
Defined.

(** An add on a server whose database refuses the next write. *)
Lemma add_fails_with_the_environment :
  (Sample.handle19 Sample.faulty19 Sample.add_x).1.2
  = Some (errResponse ErrDBError).
Proof.
  assert (Htok : V2019.token_ok Sample.faulty19 Sample.add_x = true)
    by reflexivity.
  assert (Hgate : gate_open Sample.faulty19 Sample.cmds)
    by (split; reflexivity).
  unfold Sample.handle19.
  rewrite (proj1 (proj2 (add_stores_the_environment_first
                           Sample.decrement19 Sample.release19
                           Sample.create19 Sample.rest19 0 []
                           Sample.faulty19 Sample.cmds Sample.add_x
                           Htok Hgate eq_refl))
             _ _ eq_refl eq_refl eq_refl).
  reflexivity.
Defined.

(** A reserve without timeout for a group whose job arrives at the first
    tick. *)
Lemma patient_reserve_gets_the_job :
  (Cmd <$> (V2019.handleRequest Sample.decrement19 Sample.release19
              Sample.create19 Sample.rest19 0 [Sample.arrival] Sample.up19
              Sample.patient_reserve).1.2 ≫= sr_Job)
  = Some "echo big".
Proof.
  assert (Htok : V2019.token_ok Sample.up19 Sample.patient_reserve = true)
    by reflexivity.
  assert (Hgate : gate_open Sample.up19 Sample.cmds) by (split; reflexivity).
  assert (Hid : cr_ClientID Sample.patient_reserve ≠ 0%N) by discriminate.
  assert (Htime : cr_Timeout Sample.patient_reserve <= 0) by discriminate.
  assert (Hfa : V2019.first_attempt Sample.up19 Sample.cmds
                  Sample.patient_reserve
                = ((V2019.first_attempt Sample.up19 Sample.cmds
                      Sample.patient_reserve).1.1,
                   None, Some queue.ErrNothingReady))
    by (vm_compute; reflexivity).
  set (r := V2019.handleRequest Sample.decrement19 Sample.release19
              Sample.create19 Sample.rest19 0 [Sample.arrival] Sample.up19
              Sample.patient_reserve).
  assert (Hr : r = (r.1.1, Some (default emptyResponse r.1.2), r.2))
    by (vm_compute; reflexivity).
  destruct (reserve_without_timeout_waits Sample.decrement19
              Sample.release19 Sample.create19 Sample.rest19 0
              [Sample.arrival] Sample.up19 Sample.cmds
              Sample.patient_reserve _ _ _ _ _
              Htok Hgate eq_refl eq_refl Hid Htime Hfa Hr)
    as [_ | Herr]; [|exfalso; apply Herr]; vm_compute; reflexivity.
Defined.

(** A stranger's jtouch on the 2016 server. *)
Lemma stranger_is_refused_in_2016 :
  (Sample.handle16 Sample.held16 Sample.touch_by_stranger).2
  = errResponse ErrMustReserve.
Proof.
  assert (Hm : cr_Method Sample.touch_by_stranger
               ∈ ["jstart"; "jtouch"; "jarchive"; "jrelease"; "jbury"])
    by apply list_elem_of_further, list_elem_of_here.
  assert (Hget : queue.Get
                   (V2016.the_queue Sample.held16
                      (cr_Queue Sample.touch_by_stranger))
                   (Key (Sample.job "echo x"))
                 = inr Sample.done_item) by (vm_compute; reflexivity).
  assert (Hid : cr_ClientID Sample.touch_by_stranger
                ≠ ReservedBy (queue.Data Sample.done_item))
    by discriminate.
  unfold Sample.handle16.
  rewrite (proj2 (proj2 (getij_2016_rejects Sample.rest16 0 Sample.held16
                           Sample.touch_by_stranger Hm))
             (Sample.job "echo x") Sample.done_item
             eq_refl Hget eq_refl Hid).
  reflexivity.
Defined.

(** A 2016 jkick of a buried key given twice, a running job's key and an
    unknown key. *)
Lemma one_job_is_kicked_in_2016 :
  (Sample.handle16 Sample.held16 Sample.kick_some).2 = existedResponse 1.
Proof.
  assert (Hlen : Z.of_nat
                   (length [Sample.key "echo buried"; Sample.key "echo x";
                            "nope"; Sample.key "echo buried"])
                 <= int_max) by (vm_compute; discriminate).
  destruct (jkick_2016_resets_to_three Sample.rest16 0 Sample.held16
              Sample.kick_some _ eq_refl eq_refl Hlen)
    as (q1 & Hreply & _).
  unfold Sample.handle16. rewrite Hreply. vm_compute. reflexivity.
Defined.

(** The 2016 jarchive of the job that ended well: its walltime is the 100
    between start and end, and its group's count goes from 2 to 1. *)
Lemma job_is_archived_in_2016 :
  ∃ s',
    Sample.handle16 Sample.held16 Sample.archive_x = (s', emptyResponse)
    ∧ (Walltime <$> db.complete (V2016.db s') !! Sample.key "echo x")
      = Some 100
    ∧ db.live (V2016.db s') !! Sample.key "echo x" = None
    ∧ V2016.sgroupcounts s' !! "small" = Some 1.
Proof.
  assert (Hget : queue.Get
                   (V2016.the_queue Sample.held16
                      (cr_Queue Sample.archive_x))
                   (Key (Sample.job "echo x"))
                 = inr Sample.done_item) by (vm_compute; reflexivity).
  assert (Hok : exit_ok (queue.Data Sample.done_item) = true)
    by (vm_compute; reflexivity).
  assert (Hnd : NoDup (queue.Key
                         <$> queue.items
                               (V2016.the_queue Sample.held16
                                  (cr_Queue Sample.archive_x)))).
  { apply (bool_decide_unpack _). vm_compute. exact I. }
  destruct (proj2 (jarchive_2016_archives Sample.rest16 0 Sample.held16
                     Sample.archive_x (Sample.job "echo x")
                     Sample.done_item eq_refl eq_refl Hget eq_refl eq_refl)
              Hok eq_refl eq_refl Hnd)
    as (s' & Hreply & _ & _ & Hcomplete & Hlive & _ & Hcount & _).
  exists s'. split; [exact Hreply|].
  split; [exact (eq_trans (f_equal (fmap Walltime) Hcomplete) eq_refl)|].
  split; [exact Hlive|]. rewrite Hcount. vm_compute. reflexivity.
Defined.

(** The 2016 jbury of the job the runner holds. *)
Lemma job_is_buried_in_2016 :
  ∃ s' item',
    Sample.handle16 Sample.held16 Sample.bury_x = (s', emptyResponse)
    ∧ queue.Get (V2016.the_queue s' "cmds") (Sample.key "echo x")
      = inr item'
    ∧ queue.State item' = queue.ItemStateBury
    ∧ FailReason (queue.Data item') = "failed"
    ∧ V2016.sgroupcounts s' !! "small" = Some 1.
Proof.
  assert (Hget : queue.Get
                   (V2016.the_queue Sample.held16 (cr_Queue Sample.bury_x))
                   (Key (set_FailReason "failed" (Sample.job "echo x")))
                 = inr Sample.done_item) by (vm_compute; reflexivity).
  destruct (jbury_2016_buries Sample.rest16 0 Sample.held16 Sample.bury_x
              (set_FailReason "failed" (Sample.job "echo x"))
              Sample.done_item eq_refl eq_refl Hget eq_refl eq_refl)
    as (s' & item' & Hreply & Hg' & Hst & Hfail & _ & _ & _ & _ & Hcount
        & _).
  exists s', item'.
  split; [exact Hreply|]. split; [exact Hg'|]. split; [exact Hst|].
  split; [exact Hfail|]. rewrite Hcount. vm_compute. reflexivity.
Defined.

(** The 2016 jstart of the job the runner holds. *)
Lemma job_is_started_in_2016 :
  ∃ s' item',
    Sample.handle16 Sample.held16 Sample.start_x = (s', emptyResponse)
    ∧ queue.Get (V2016.the_queue s' "cmds") (Sample.key "echo x")
      = inr item'
    ∧ Pid (queue.Data item') = 42
    ∧ StartTime (queue.Data item') = Some 0
    ∧ EndTime (queue.Data item') = None.
Proof.
  assert (Hget : queue.Get
                   (V2016.the_queue Sample.held16 (cr_Queue Sample.start_x))
                   (Key (Sample.running "echo x"))
                 = inr Sample.done_item) by (vm_compute; reflexivity).
  assert (Hpid : 0 < Pid (Sample.running "echo x")) by reflexivity.
  assert (Hhost : Host (Sample.running "echo x") ≠ "") by discriminate.
  destruct (proj2 (jstart_2016_records_the_start Sample.rest16 0
                     Sample.held16 Sample.start_x (Sample.running "echo x")
                     Sample.done_item eq_refl eq_refl Hget eq_refl eq_refl)
              Hpid Hhost)
    as (s' & item' & Hreply & Hg' & _ & Hp & _ & Hstart & Hend & _).
  exists s', item'.
  split; [exact Hreply|]. split; [exact Hg'|]. split; [exact Hp|].
  split; [exact Hstart|exact Hend].
Defined.

(** The callback for two ready jobs of the small group. *)
Lemma two_ready_jobs_count_two :
  V2016.sgroupcounts
    (V2016.readyAddedCallback Sample.held16 "cmds"
       [Sample.job "echo a"; Sample.job "echo b"]).1 !! "small"
  = Some 2.
Proof.
  assert (Hlen : Z.of_nat (length [Sample.job "echo a"; Sample.job "echo b"])
                 <= int_max) by (vm_compute; discriminate).
  assert (Hrc : V2016.rc Sample.held16 ≠ "") by discriminate.
  rewrite (proj1 (proj2 (proj2 (proj2
             (callback_counts_the_groups Sample.held16 "cmds"
                [Sample.job "echo a"; Sample.job "echo b"] Hlen))) Hrc)
             "small").
  vm_compute. reflexivity.
Defined.

(** The 2016 add of one new job. *)
Lemma one_job_is_added_in_2016 :
  ∃ s' added dups,
    Sample.handle16 Sample.held16 Sample.add_x
    = (s', addedResponse added dups)
    ∧ added + dups = 1
    ∧ ∃ keys, V2016.rpl s' !! "rep" = Some keys
              ∧ Sample.key "echo new" ∈ keys.
Proof.
  assert (Hf0 : db.faults (V2016.db Sample.held16) !! 0%nat ≠ Some true)
    by discriminate.
  assert (Hf1 : db.faults (V2016.db Sample.held16) !! 1%nat ≠ Some true)
    by discriminate.
  assert (Hlen : Z.of_nat (length [Sample.job "echo new"]) <= int_max)
    by (vm_compute; discriminate).
  destruct (add_2016_queues_the_jobs Sample.rest16 0 Sample.held16
              Sample.add_x _ _ eq_refl eq_refl eq_refl Hf0 Hf1 Hlen)
    as (s' & added & dups & Hreply & _ & _ & Hsum & _ & _ & Hrpl).
  exists s', added, dups.
  split; [exact Hreply|]. split; [exact Hsum|].
  apply (Hrpl (Sample.job "echo new")), list_elem_of_here.
Defined.

(** The 2016 jdel of a buried key, a running job's key and an unknown
    key. *)
Lemma one_job_is_deleted_in_2016 :
  (V2016_more.jdel Sample.held16 Sample.delete_some).1.2
  = Some (existedResponse 1)
  ∧ V2016.rpl (V2016_more.jdel Sample.held16 Sample.delete_some).1.1
    = V2016.rpl Sample.held16
  ∧ db.live
      (V2016.db (V2016_more.jdel Sample.held16 Sample.delete_some).1.1)
      !! Sample.key "echo x"
    = Some (Sample.running "echo x").
Proof.
  assert (Hlen : Z.of_nat
                   (length [Sample.key "echo buried"; Sample.key "echo x";
                            "nope"]) <= int_max)
    by (vm_compute; discriminate).
  assert (Hnd : NoDup (queue.Key
                         <$> queue.items
                               (V2016.the_queue Sample.held16
                                  (cr_Queue Sample.delete_some)))).
  { apply (bool_decide_unpack _). vm_compute. exact I. }
  destruct (jdel_2016_deletes_the_buried Sample.held16 Sample.delete_some
              _ eq_refl Hlen Hnd)
    as (Hreply & _ & _ & _ & Hrpl & _ & _ & Hlive).
  split; [rewrite Hreply; vm_compute; reflexivity|].
  split; [exact Hrpl|].
  rewrite (Hlive eq_refl). vm_compute. reflexivity.
Defined.

(** The 2016 jend of the job the runner holds, with exit code 2. *)
Lemma exit_is_recorded_in_2016 :
  ∃ item',
    queue.Get
      (V2016.the_queue (V2016_more.jend 300 Sample.held16 Sample.end_x).1.1
         "cmds") (Sample.key "echo x")
    = inr item'
    ∧ Exitcode (queue.Data item') = 2
    ∧ EndTime (queue.Data item') = Some 300.
Proof.
  assert (Hget : queue.Get
                   (V2016.the_queue Sample.held16 (cr_Queue Sample.end_x))
                   (Key (set_Exitcode 2 (Sample.job "echo x")))
                 = inr Sample.done_item) by (vm_compute; reflexivity).
  destruct (jend_2016_records_the_exit 300 Sample.held16 Sample.end_x
              (set_Exitcode 2 (Sample.job "echo x")) Sample.done_item
              eq_refl Hget eq_refl eq_refl)
    as (item' & Hg' & _ & _ & Hcode & _ & _ & Hend & _).
  exists item'. split; [exact Hg'|]. split; [exact Hcode|exact Hend].
Defined.

(** A thousand timings of 2 under a new description, in whole numbers. *)
Lemma thousand_timings_log_one_line :
  ∃ m',
    @timing.logTimingsEach Sample.whole_numbers ∅ [] "reserve"
      (replicate 1000 2)
    = Some (m', [("reserve", 2)]).
Proof.
  assert (Hdesc : "reserve" ≠ "") by discriminate.
  destruct (proj2 (@logTimings_logs_the_average Sample.whole_numbers ∅ []
                     "reserve" (replicate 1000 2) eq_refl)
              Hdesc (lookup_empty _) eq_refl)
    as (m' & Heach & _).
  exists m'. rewrite Heach. vm_compute. reflexivity.
Defined.
